(** * Nexus bridge client: the request-orchestration core of [app.js]

    A shallow embedding of the turn dispatcher ([handleSend]), the
    transcript operations ([addMessage], [updateMessage]) and the session
    registry ([createNewSession], [saveSessionsToBackend]) of [src/app.js],
    together with the properties of the specification that concern them.

    Modelling conventions.
    - The global [state] object is the record [State]; the [dom] elements
      that [handleSend] reads or writes are the record [Dom].
    - A handler runs in the monad [M]: it threads the [World] (state and
      dom), can throw, leaves a trace of what it did, and reads its
      environment ([Env]): the successive readings of the clock
      ([Date.now()]) and the successive outcomes of the awaited [fetch]
      calls.
    - One run of [handleSend] is followed from its start to its end, once
      the start-up sequence of [init] is over, and no other handler of the
      user interface is interleaved at its suspension points. The
      connection monitor is another matter: it runs on a timer, and a
      status check can complete while the turn waits for the bridge. The
      handlers [handleSend], [imageTurn], [chatTurn] and those they call
      are the runs during which no status check completes; module [Live]
      gives the same handlers with the monitor at work ([Monitor],
      [watch]), and the properties that depend on the connection flag as a
      turn goes on are stated there.
    - Rendering ([renderMessages], [renderHistory], the welcome banner,
      the textarea height, the console, [localStorage]) is output only and
      is left out.
    - A message is a value. In the source a session's array and the
      transcript can hold the same message objects; this shows only when
      [updateMessage] lands on a message recorded by an earlier turn, and
      no property below depends on it.
    - A response body is seen through the properties the code reads on it
      ([Body]), with the types of the bridge's contract.
    - JS strings are [string]s; one [ascii] stands for one code unit, so
      the strings of the model are those whose code units are below 256.
      [trim] and [encodeURIComponent] are given on these: the white space
      above 255 and the surrogates are out of reach. The one sign of the
      program's own texts that lies above 255 stands as its UTF-8 bytes
      ([Text.floppy]). *)

From Stdlib Require Import ZArith QArith String Ascii List Bool Lia.
From Stdlib Require Import DecimalString DecimalPos DecimalZ.
From stdpp Require Import base list strings.
Import ListNotations.

#[local] Open Scope Z_scope.
#[local] Open Scope string_scope.
#[local] Open Scope list_scope.

(** ** JavaScript strings *)

Module JS.

Definition nl : string := String "010"%char EmptyString.

(** A string is truthy when it is not empty. *)
Definition truthy (s : string) : bool :=
  match s with
  | EmptyString => false
  | String _ _ => true
  end.

(** [a || b] on strings. *)
Definition or (a b : string) : string := if truthy a then a else b.

(** Truthiness of a string property that may be absent. *)
Definition present (o : option string) : bool :=
  match o with
  | Some a => truthy a
  | None => false
  end.

(** [o || b] where [o] is a property that may be absent. *)
Definition orElse (o : option string) (b : string) : string :=
  match o with
  | Some a => or a b
  | None => b
  end.

(** White space removed by [trim]: the tab, the line feed, the vertical
    tab, the form feed, the carriage return (9 to 13), the space (32) and
    the no-break space (160). The other white space of the language lies
    above code unit 255. *)
Definition isSpace (c : ascii) : bool :=
  let n := nat_of_ascii c in
  ((9 <=? n)%nat && (n <=? 13)%nat) || (n =? 32)%nat || (n =? 160)%nat.

Fixpoint trimStart (s : string) : string :=
  match s with
  | String c t => if isSpace c then trimStart t else s
  | EmptyString => EmptyString
  end.

Fixpoint rev_string (acc s : string) : string :=
  match s with
  | EmptyString => acc
  | String c t => rev_string (String c acc) t
  end.

Definition trimEnd (s : string) : string :=
  rev_string EmptyString (trimStart (rev_string EmptyString s)).

Definition trim (s : string) : string := trimEnd (trimStart s).

(** [s.slice(0, n)]. *)
Definition slice0 (n : nat) (s : string) : string := substring 0 n s.

(** [l.join(sep)]. *)
Definition join (sep : string) (l : list string) : string := String.concat sep l.

(** [n.toString()] for an integer. *)
Definition toString (z : Z) : string := NilZero.string_of_int (Z.to_int z).

(** [encodeURIComponent]: a code unit of the unreserved set is kept; any
    other is replaced by the bytes of its UTF-8 form, each written [%XX]:
    one byte for a code unit below 128, two bytes from 128 to 255. *)
Definition unreserved (c : ascii) : bool :=
  let n := nat_of_ascii c in
  ((65 <=? n) && (n <=? 90) || (97 <=? n) && (n <=? 122) || (48 <=? n) && (n <=? 57)
   || existsb (Nat.eqb n) [45; 95; 46; 33; 126; 42; 39; 40; 41])%nat.

Definition hexDigit (n : nat) : ascii :=
  if (n <? 10)%nat then ascii_of_nat (48 + n) else ascii_of_nat (55 + n).

Definition percent (byte : nat) (rest : string) : string :=
  String "%" (String (hexDigit (byte / 16)) (String (hexDigit (byte mod 16)) rest)).

Fixpoint encodeURIComponent (s : string) : string :=
  match s with
  | EmptyString => EmptyString
  | String c t =>
      if unreserved c then String c (encodeURIComponent t)
      else
        let n := nat_of_ascii c in
        if (n <? 128)%nat then percent n (encodeURIComponent t)
        else percent (192 + n / 64) (percent (128 + n mod 64) (encodeURIComponent t))
  end.

End JS.

(** ** Data model *)

Inductive Role := user | assistant | system.

(** A transcript entry: [{ id, role, content, isTransient }]. *)
Module Message.
Record t := mk { id : Z; role : Role; content : string; isTransient : bool }.

(** What [updateMessage] does to the entry it found. *)
Definition resolve (c : string) (m : t) : t :=
  {| id := id m; role := role m; content := c; isTransient := false |}.
End Message.

(** A session: [{ id, title, timestamp, messages }]. The timestamp is kept
    as the clock reading that [toISOString] renders. *)
Module Session.
Record t := mk { id : string; title : string; timestamp : Z; messages : list Message.t }.
End Session.

(** An item of the [messages] array sent to [/api/chat]. *)
Module Outbound.
Record t := mk { role : Role; content : string }.
End Outbound.

(** The global [state] object. *)
Record State := mkState {
  backendUrl : string;
  ollamaUrl : string;
  modelId : string;
  inferenceMode : string;
  modelsPath : string;
  imageModelsPath : string;
  imageModelId : string;
  imageSubfolder : string;
  temperature : Q;
  maxTokens : Z;
  systemOverride : string;
  compactMode : bool;
  scriptMode : bool;
  targetLang : string;
  outputFilename : string;
  sessions : list Session.t;
  currentSessionId : option string;
  messages : list Message.t;
  isConnected : bool;
  isThinking : bool
}.

Definition set_imageModelId (v : string) (s : State) : State :=
  mkState (backendUrl s) (ollamaUrl s) (modelId s) (inferenceMode s) (modelsPath s)
    (imageModelsPath s) v (imageSubfolder s) (temperature s) (maxTokens s)
    (systemOverride s) (compactMode s) (scriptMode s) (targetLang s) (outputFilename s)
    (sessions s) (currentSessionId s) (messages s) (isConnected s) (isThinking s).

Definition set_sessions (v : list Session.t) (s : State) : State :=
  mkState (backendUrl s) (ollamaUrl s) (modelId s) (inferenceMode s) (modelsPath s)
    (imageModelsPath s) (imageModelId s) (imageSubfolder s) (temperature s) (maxTokens s)
    (systemOverride s) (compactMode s) (scriptMode s) (targetLang s) (outputFilename s)
    v (currentSessionId s) (messages s) (isConnected s) (isThinking s).

Definition set_currentSessionId (v : option string) (s : State) : State :=
  mkState (backendUrl s) (ollamaUrl s) (modelId s) (inferenceMode s) (modelsPath s)
    (imageModelsPath s) (imageModelId s) (imageSubfolder s) (temperature s) (maxTokens s)
    (systemOverride s) (compactMode s) (scriptMode s) (targetLang s) (outputFilename s)
    (sessions s) v (messages s) (isConnected s) (isThinking s).

Definition set_messages (v : list Message.t) (s : State) : State :=
  mkState (backendUrl s) (ollamaUrl s) (modelId s) (inferenceMode s) (modelsPath s)
    (imageModelsPath s) (imageModelId s) (imageSubfolder s) (temperature s) (maxTokens s)
    (systemOverride s) (compactMode s) (scriptMode s) (targetLang s) (outputFilename s)
    (sessions s) (currentSessionId s) v (isConnected s) (isThinking s).

Definition set_isThinking (v : bool) (s : State) : State :=
  mkState (backendUrl s) (ollamaUrl s) (modelId s) (inferenceMode s) (modelsPath s)
    (imageModelsPath s) (imageModelId s) (imageSubfolder s) (temperature s) (maxTokens s)
    (systemOverride s) (compactMode s) (scriptMode s) (targetLang s) (outputFilename s)
    (sessions s) (currentSessionId s) (messages s) (isConnected s) v.

(** The [dom] elements the dispatcher reads or writes. *)
Record Dom := mkDom {
  input_value : string;
  imageToggle_checked : bool;
  webToggle_checked : bool;
  chromeToggle_checked : bool;
  helpPanel_hidden : bool;
  contextInfo_hidden : bool;
  sendBtn_disabled : bool
}.

Definition set_input_value (v : string) (d : Dom) : Dom :=
  mkDom v (imageToggle_checked d) (webToggle_checked d) (chromeToggle_checked d)
    (helpPanel_hidden d) (contextInfo_hidden d) (sendBtn_disabled d).

Definition set_helpPanel_hidden (v : bool) (d : Dom) : Dom :=
  mkDom (input_value d) (imageToggle_checked d) (webToggle_checked d) (chromeToggle_checked d)
    v (contextInfo_hidden d) (sendBtn_disabled d).

Definition set_contextInfo_hidden (v : bool) (d : Dom) : Dom :=
  mkDom (input_value d) (imageToggle_checked d) (webToggle_checked d) (chromeToggle_checked d)
    (helpPanel_hidden d) v (sendBtn_disabled d).

Definition set_sendBtn_disabled (v : bool) (d : Dom) : Dom :=
  mkDom (input_value d) (imageToggle_checked d) (webToggle_checked d) (chromeToggle_checked d)
    (helpPanel_hidden d) (contextInfo_hidden d) v.

(** ** The bridge: requests and responses *)

(** One entry of [results] in a [/search] response. *)
Module Result.
Record t := mk { title : string; href : string; body : string }.
End Result.

(** The [detail] property of an error response, through the three ways the
    code looks at it: its truthiness, [String(detail)] and
    [JSON.stringify(detail, null, 2)]. *)
Record Detail := mkDetail { detail_truthy : bool; detail_text : string; detail_json : string }.

(** The [message] property of a chat response: a string, or an object
    that may carry [content]. *)
Inductive MessageField :=
| MsgText (s : string)
| MsgObject (content : option string).

(** A parsed response body, seen through the properties the code reads;
    [None] is an absent property. *)
Record Body := mkBody {
  image : option string;
  saved_to : option string;
  detail : option Detail;
  model : option string;
  results : option (list Result.t);
  content : option string;
  message : option MessageField;
  response : option string
}.

Definition emptyBody : Body := mkBody None None None None None None None None.

(** What [res.json()] gives: the parsed body, or a rejection. *)
Inductive Payload :=
| Parsed (b : Body)
| Unparsable (message : string).

(** How an awaited [fetch] ends: it rejects (network failure), or it
    resolves to a response with a status and a body. *)
Inductive Answer :=
| Rejected (message : string)
| Resolved (status : Z) (payload : Payload).

Record Response := mkResponse { status : Z; payload : Payload }.

(** [res.ok] *)
Definition ok (r : Response) : bool := ((200 <=? status r) && (status r <=? 299))%Z.

(** The requests the core issues, with the fields of their bodies. *)
Inductive Request :=
| PostSessions (body : list Session.t)
| PostLoadImageModel (path base_dir : string)
| GetImageSubfolders (path : string)
| PostGenerateImage (prompt subfolder base_dir : string)
| PostSearch (q : string) (max_results : Z)
| GetScrape (url : string) (use_browser : bool)
| PostChat (messages : list Outbound.t) (model mode provider_url : string)
           (temperature : Q) (max_tokens : Z)
| PostSaveFile (filename content : string).

(** What a run leaves in its trace: every request handed to [fetch], with
    the backend URL it went to and, when the call is awaited, how it
    ended; and every transcript operation. *)
Inductive Event :=
| Call (backend : string) (r : Request) (a : option Answer)
| Appended (m : Message.t)
| Replaced (index : nat) (id : Z) (content : string)
| Missed (id : Z).

(** The environment of a run: the [k]-th reading of the clock and the
    outcome of the [k]-th awaited [fetch]. *)
Record Env := mkEnv { clock : nat -> Z; net : nat -> Answer }.

(** The state, the dom, and how far the run is in its environment. *)
Record World := mkWorld {
  state : State;
  dom : Dom;
  ticks : nat;
  calls : nat
}.

(** ** The handler monad *)

Inductive Outcome (A : Type) :=
| Normal (a : A)
| Thrown (message : string).
Arguments Normal {A} a.
Arguments Thrown {A} message.

Record Run (A : Type) := mkRun {
  outcome : Outcome A;
  final : World;
  trace : list Event
}.
Arguments mkRun {A} outcome final trace.
Arguments outcome {A} r.
Arguments final {A} r.
Arguments trace {A} r.

Definition M (A : Type) : Type := Env -> World -> Run A.

Definition ret {A} (a : A) : M A := fun _ w => mkRun (Normal a) w [].

Definition bind {A B} (m : M A) (f : A -> M B) : M B :=
  fun e w =>
    match m e w with
    | mkRun (Normal a) w' t =>
        match f a e w' with
        | mkRun o w'' t' => mkRun o w'' (t ++ t')
        end
    | mkRun (Thrown msg) w' t => mkRun (Thrown msg) w' t
    end.

Definition throw {A} (msg : string) : M A := fun _ w => mkRun (Thrown msg) w [].

(** [try { m } catch (err) { h err.message }] *)
Definition tryCatch {A} (m : M A) (h : string -> M A) : M A :=
  fun e w =>
    match m e w with
    | mkRun (Normal a) w' t => mkRun (Normal a) w' t
    | mkRun (Thrown msg) w' t =>
        match h msg e w' with
        | mkRun o w'' t' => mkRun o w'' (t ++ t')
        end
    end.

(** [try { m } finally { f }] *)
Definition tryFinally {A} (m : M A) (f : M unit) : M A :=
  fun e w =>
    match m e w with
    | mkRun o w' t =>
        match f e w' with
        | mkRun (Normal _) w'' t' => mkRun o w'' (t ++ t')
        | mkRun (Thrown msg) w'' t' => mkRun (Thrown msg) w'' (t ++ t')
        end
    end.

Declare Scope js_scope.
Delimit Scope js_scope with js.
Notation "x <- m ;; k" := (bind m (fun x => k))
  (at level 100, m at next level, right associativity) : js_scope.
Notation "m ;; k" := (bind m (fun _ => k))
  (at level 100, right associativity) : js_scope.
#[local] Open Scope js_scope.

Definition getState : M State := fun _ w => mkRun (Normal (state w)) w [].
Definition getDom : M Dom := fun _ w => mkRun (Normal (dom w)) w [].

Definition modify (f : State -> State) : M unit :=
  fun _ w => mkRun (Normal tt) (mkWorld (f (state w)) (dom w) (ticks w) (calls w)) [].

Definition modifyDom (f : Dom -> Dom) : M unit :=
  fun _ w => mkRun (Normal tt) (mkWorld (state w) (f (dom w)) (ticks w) (calls w)) [].

Definition emit (ev : Event) : M unit := fun _ w => mkRun (Normal tt) w [ev].

(** [Date.now()] *)
Definition now : M Z :=
  fun e w => mkRun (Normal (clock e (ticks w)))
                   (mkWorld (state w) (dom w) (S (ticks w)) (calls w)) [].

(** [fetch(...)] without its [await]: the request leaves at once and its
    answer is not looked at. *)
Definition fire (r : Request) : M unit :=
  s <- getState ;; emit (Call (backendUrl s) r None).

(** A [fetch] whose promise is awaited: the request leaves and the
    environment decides how it ends. No status check completes meanwhile;
    [Live.start] is the same call with the connection monitor at work. *)
Definition start (r : Request) : M Answer :=
  fun e w =>
    let a := net e (calls w) in
    mkRun (Normal a) (mkWorld (state w) (dom w) (ticks w) (S (calls w)))
          [Call (backendUrl (state w)) r (Some a)].

Definition settle (a : Answer) : M Response :=
  match a with
  | Rejected msg => throw msg
  | Resolved st p => ret (mkResponse st p)
  end.

(** [await fetch(...)] *)
Definition fetch (r : Request) : M Response := a <- start r ;; settle a.

(** [await res.json()] *)
Definition json (res : Response) : M Body :=
  match payload res with
  | Parsed b => ret b
  | Unparsable msg => throw msg
  end.

Fixpoint mapM {A B} (f : A -> M B) (l : list A) : M (list B) :=
  match l with
  | [] => ret []
  | a :: t => b <- f a ;; bs <- mapM f t ;; ret (b :: bs)
  end.

(** ** The fence pattern of the script saver

    A backtracking matcher for the constructs of the pattern
    [/```(?:\w+)?\n([\s\S]*?)```/]: an alternative is tried only when the
    preferred one leads to no match of the rest of the pattern ([k]). *)

Module Regex.

Inductive t :=
| Chr (c : ascii)                    (* a literal character *)
| Seq (a b : t)                      (* [ab] *)
| Opt (a : t)                        (* [(?:a)?], greedy *)
| Plus (p : ascii -> bool)           (* [p+] over a character class, greedy *)
| StarLazy (p : ascii -> bool)       (* [p*?] over a character class, lazy *)
| Group (a : t).                     (* the capturing group *)

(** The continuation gets the rest of the input and the capture. *)
Definition cont := string -> option string -> option (option string).

Fixpoint plus (p : ascii -> bool) (k : cont) (s : string) (cap : option string) :=
  match s with
  | String c t =>
      if p c then
        match plus p k t cap with
        | Some r => Some r
        | None => k t cap
        end
      else None
  | EmptyString => None
  end.

Fixpoint starLazy (p : ascii -> bool) (k : cont) (s : string) (cap : option string) :=
  match k s cap with
  | Some r => Some r
  | None =>
      match s with
      | String c t => if p c then starLazy p k t cap else None
      | EmptyString => None
      end
  end.

Fixpoint go (r : t) (k : cont) (s : string) (cap : option string) : option (option string) :=
  match r with
  | Chr c =>
      match s with
      | String c' t => if Ascii.eqb c c' then k t cap else None
      | EmptyString => None
      end
  | Seq a b => go a (go b k) s cap
  | Opt a =>
      match go a k s cap with
      | Some r => Some r
      | None => k s cap
      end
  | Plus p => plus p k s cap
  | StarLazy p => starLazy p k s cap
  | Group a =>
      go a (fun s' _ => k s' (Some (substring 0 (String.length s - String.length s') s))) s cap
  end.

(** [s.match(r)]: the leftmost position where [r] matches; the result is
    what the group captured there. *)
Fixpoint exec (r : t) (s : string) : option (option string) :=
  match go r (fun _ cap => Some cap) s None with
  | Some cap => Some cap
  | None =>
      match s with
      | String _ t => exec r t
      | EmptyString => None
      end
  end.

(** [\w] *)
Definition word (c : ascii) : bool :=
  let n := nat_of_ascii c in
  ((65 <=? n) && (n <=? 90) || (97 <=? n) && (n <=? 122) || (48 <=? n) && (n <=? 57)
   || (n =? 95))%nat.

(** [[\s\S]] *)
Definition any (c : ascii) : bool := true.

Definition backticks : t := Seq (Chr "`") (Seq (Chr "`") (Chr "`")).

(** [/```(?:\w+)?\n([\s\S]*?)```/] *)
Definition fence : t :=
  Seq backticks (Seq (Opt (Plus word)) (Seq (Chr "010") (Seq (Group (StarLazy any)) backticks))).

End Regex.

(** [content.match(/```(?:\w+)?\n([\s\S]*?)```/)?.[1] || content] *)
Definition extractCode (content : string) : string :=
  match Regex.exec Regex.fence content with
  | Some (Some code) => JS.or code content
  | _ => content
  end.

(** ** Transcript *)

(** [addMessage(role, content, isTransient = false)] *)
Definition addMessage (role : Role) (content : string) (isTransient : bool) : M Z :=
  id <- now ;;
  let m := Message.mk id role content isTransient in
  modify (fun s => set_messages (messages s ++ [m]) s) ;;
  emit (Appended m) ;;
  ret id.

(** [state.messages.find(m => m.id === id)], with the position found. *)
Definition findMessage (id : Z) (l : list Message.t) : option (nat * Message.t) :=
  list_find (fun m => Message.id m = id) l.

(** [updateMessage(id, content)] *)
Definition updateMessage (id : Z) (content : string) : M unit :=
  s <- getState ;;
  match findMessage id (messages s) with
  | Some (i, msg) =>
      modify (set_messages (<[i := Message.resolve content msg]> (messages s))) ;;
      emit (Replaced i id content)
  | None => emit (Missed id)
  end.

(** ** Session store *)

(** [saveSessionsToBackend()]; no caller awaits it, and the answer to its
    request is not looked at. *)
Definition saveSessionsToBackend : M unit :=
  s <- getState ;;
  if isConnected s then fire (PostSessions (sessions s)) else ret tt.

(** [createNewSession()] *)
Definition createNewSession : M unit :=
  t <- now ;;
  let id := JS.toString t in
  timestamp <- now ;;
  let newSession := Session.mk id "New Session" timestamp [] in
  modify (fun s => set_sessions (newSession :: sessions s) s) ;;
  modify (set_currentSessionId (Some id)) ;;
  modify (set_messages []) ;;
  saveSessionsToBackend.

(** [state.sessions.find(s => s.id === state.currentSessionId)] *)
Definition findSession (cur : option string) (l : list Session.t) : option (nat * Session.t) :=
  list_find (fun x => Some (Session.id x) = cur) l.

(** [loadSession(id)] *)
Definition loadSession (id : string) : M unit :=
  s <- getState ;;
  match findSession (Some id) (sessions s) with
  | Some (_, session) =>
      modify (set_currentSessionId (Some id)) ;;
      modify (set_messages (Session.messages session))
  | None => ret tt
  end.

(** The title of a session once a turn is recorded: a session that still
    has the default title takes the first 30 code units of the first
    message. *)
Definition retitled (session : Session.t) (msgs : list Message.t) : string :=
  match msgs with
  | first :: _ =>
      if String.eqb (Session.title session) "New Session"
      then JS.slice0 30 (Message.content first)
      else Session.title session
  | [] => Session.title session
  end.

(** The session part of the [finally] block of the chat branch:
    [session.messages = [...state.messages]], the title, the save. *)
Definition recordTurn : M unit :=
  s <- getState ;;
  match findSession (currentSessionId s) (sessions s) with
  | Some (i, session) =>
      let session' :=
        Session.mk (Session.id session) (retitled session (messages s))
          (Session.timestamp session) (messages s) in
      modify (set_sessions (<[i := session']> (sessions s))) ;;
      saveSessionsToBackend
  | None => ret tt
  end.

(** ** Model loading *)

(** [loadImageModel(modelName)]; an absent [model] property leaves a
    falsy id. *)
Definition loadImageModel (modelName : string) : M unit :=
  s <- getState ;;
  if negb (isConnected s) then ret tt
  else
    tryCatch
      (res <- fetch (PostLoadImageModel modelName (imageModelsPath s)) ;;
       if ok res then
         data <- json res ;;
         modify (set_imageModelId (default EmptyString (model data)))
       else ret tt)
      (fun _ => ret tt).

(** The part of [refreshImageSubfolders()] that runs before its first
    suspension: the request leaves if the bridge is connected. *)
Definition refreshImageSubfolders : M unit :=
  s <- getState ;;
  if isConnected s then fire (GetImageSubfolders (imageModelsPath s)) else ret tt.

(** [updateUIState()] *)
Definition updateUIState : M unit :=
  s <- getState ;; modifyDom (set_sendBtn_disabled (isThinking s)).

(** ** The texts the dispatcher writes *)

Module Text.

(** The double quote. *)
Definition dq : string := String "034"%char EmptyString.
Definition nl := JS.nl.

(** [`${v}`] for a property that may be absent. *)
Definition show (o : option string) : string :=
  match o with
  | Some s => s
  | None => "undefined"
  end.

Definition painting : string :=
  "<div class=" +:+ dq +:+ "flex items-center gap-2 mono text-xs text-pink-400" +:+ dq
  +:+ "><div class=" +:+ dq +:+ "w-1.5 h-1.5 rounded-full bg-pink-400 animate-pulse" +:+ dq
  +:+ "></div> Painting pixels...</div>".

Definition thinking : string :=
  "<div class=" +:+ dq +:+ "flex items-center gap-2 mono text-xs text-blue-400" +:+ dq
  +:+ "><div class=" +:+ dq +:+ "w-1.5 h-1.5 rounded-full bg-blue-400 animate-pulse" +:+ dq
  +:+ "></div> Thinking...</div>".

(** The floppy-disk sign of the save note (U+1F4BE), as its UTF-8 bytes. *)
Definition floppy : string :=
  String "240" (String "159" (String "146" (String "190" EmptyString))).

Definition saveNote (saved_to : option string) : string :=
  if JS.present saved_to
  then nl +:+ nl +:+ floppy +:+ " Saved to: `" +:+ show saved_to +:+ "`"
  else EmptyString.

Definition imageDone (image saved_to : option string) (text : string) : string :=
  "![Generated Image](" +:+ show image +:+ ")" +:+ nl +:+ nl
  +:+ "Prompt: *" +:+ text +:+ "*" +:+ saveNote saved_to.

(** [data.detail || 'Unknown error'] *)
Definition imageDetail (d : option Detail) : string :=
  match d with
  | Some d => if detail_truthy d then detail_text d else "Unknown error"
  | None => "Unknown error"
  end.

Definition imageFailed (d : option Detail) : string :=
  "## Image Gen Failed" +:+ nl +:+ imageDetail d.

Definition connectionError (message : string) : string :=
  "## Connection Error" +:+ nl +:+ message.

(** [data.message || 'Unknown Validation Error'] *)
Definition messageOr (m : option MessageField) : string :=
  match m with
  | Some (MsgText s) => JS.or s "Unknown Validation Error"
  | Some (MsgObject _) => "[object Object]"
  | None => "Unknown Validation Error"
  end.

(** [data.detail ? JSON.stringify(data.detail, null, 2) : (data.message || ...)] *)
Definition errorDetail (data : Body) : string :=
  match detail data with
  | Some d => if detail_truthy d then detail_json d else messageOr (message data)
  | None => messageOr (message data)
  end.

Definition badRequest (data : Body) : string :=
  "## 400 Bad Request" +:+ nl +:+ nl +:+ "**Details:**" +:+ nl +:+ "```json" +:+ nl
  +:+ errorDetail data +:+ nl +:+ "```" +:+ nl +:+ nl
  +:+ "Check the backend console for the full request body trace.".

(** [data.message?.content] *)
Definition messageContent (m : option MessageField) : option string :=
  match m with
  | Some (MsgObject c) => c
  | _ => None
  end.

(** [data.message?.content || data.response || "No response."] *)
Definition reply (data : Body) : string :=
  JS.orElse (messageContent (message data)) (JS.orElse (response data) "No response.").

(** The system message of a chat request. *)
Definition sys (s : State) : string :=
  if scriptMode s
  then "You are a professional coder. Language: " +:+ targetLang s +:+ ". " +:+ systemOverride s
  else JS.or (systemOverride s) "You are Nexus.".

(** One entry of the context block, shallow and deep. *)
Definition snippet (r : Result.t) : string :=
  "Source: " +:+ Result.title r +:+ nl +:+ "Snippet: " +:+ Result.body r.

Definition page (r : Result.t) (s : Body) : string :=
  "Source: " +:+ Result.title r +:+ nl +:+ "Content: " +:+ JS.orElse (content s) EmptyString.

Definition augmented (contextText text : string) : string :=
  "Context:" +:+ nl +:+ contextText +:+ nl +:+ nl +:+ "Task: " +:+ text.

Definition rule : string := nl +:+ nl +:+ "---" +:+ nl +:+ nl.

End Text.

(** ** The dispatcher *)

(** [!state.currentSessionId] *)
Definition noSession (cur : option string) : bool :=
  match cur with
  | Some id => negb (JS.truthy id)
  | None => true
  end.

(** The [/api/generate-image] call of the image branch. *)
Definition generateImage (text : string) : M Response :=
  s <- getState ;;
  fetch (PostGenerateImage text (imageSubfolder s) (imageModelsPath s)).

(** The [try] block of the image branch: the call, the lazy load with its
    single retry, and the result written over the placeholder. *)
Definition imageRequest (thinkingId : Z) (text : string) : M unit :=
  res <- generateImage text ;;
  s <- getState ;;
  res <- (if (status res =? 400)%Z && JS.truthy (imageModelId s)
          then loadImageModel (imageModelId s) ;; generateImage text
          else ret res) ;;
  data <- json res ;;
  if ok res then
    updateMessage thinkingId (Text.imageDone (image data) (saved_to data) text) ;;
    modifyDom (set_input_value EmptyString) ;;
    refreshImageSubfolders
  else updateMessage thinkingId (Text.imageFailed (detail data)).

(** The image branch of [handleSend]. *)
Definition imageTurn (text : string) : M unit :=
  thinkingId <- addMessage assistant Text.painting true ;;
  tryFinally
    (tryCatch
       (imageRequest thinkingId text)
       (fun message => updateMessage thinkingId (Text.connectionError message)))
    (modify (set_isThinking false) ;; updateUIState).

(** The deep scan: the requests for the first two results leave together,
    then all of them are awaited ([Promise.all]). *)
Definition scrape (r : Result.t) : Request :=
  GetScrape (JS.encodeURIComponent (Result.href r)) true.

Definition deepScan (found : list Result.t) : M (list Body) :=
  answers <- mapM (fun r => start (scrape r)) (firstn 2 found) ;;
  mapM (fun a => res <- settle a ;; json res) answers.

(** [scrapeResults.map((s, idx) => ... results[idx].title ...)] *)
Fixpoint pages (found : list Result.t) (scrapeResults : list Body) : list string :=
  match found, scrapeResults with
  | r :: found', s :: rest => Text.page r s :: pages found' rest
  | _, _ => []
  end.

(** The web augmentation of the chat branch; the result is the value of
    [finalPromptForAI] after it. *)
Definition augment (text : string) : M string :=
  modifyDom (set_contextInfo_hidden false) ;;
  tryFinally
    (tryCatch
       (searchRes <- fetch (PostSearch text 8) ;;
        data <- json searchRes ;;
        match results data with
        | Some (r :: rest) =>
            let found := r :: rest in
            d <- getDom ;;
            contextText <-
              (if chromeToggle_checked d then
                 scrapeResults <- deepScan found ;;
                 ret (JS.join Text.rule (pages found scrapeResults))
               else ret (JS.join (Text.nl +:+ Text.nl) (map Text.snippet found))) ;;
            ret (Text.augmented contextText text)
        | _ => ret text
        end)
       (fun _ => ret text))
    (modifyDom (set_contextInfo_hidden true)).

(** [state.messages.filter(m => !m.isTransient).map(...)] *)
Definition conversationHistory (userMsgId : Z) (finalPromptForAI : string)
    (l : list Message.t) : list Outbound.t :=
  map (fun m => Outbound.mk (Message.role m)
                  (if (Message.id m =? userMsgId)%Z then finalPromptForAI
                   else Message.content m))
      (List.filter (fun m => negb (Message.isTransient m)) l).

(** The [try] block of the chat branch: the call to [/api/chat], the
    reply written over the placeholder, and the script file. *)
Definition chatRequest (thinkingId : Z) (history : list Outbound.t) : M unit :=
  s <- getState ;;
  let fullMessages := Outbound.mk system (Text.sys s) :: history in
  response <- fetch (PostChat fullMessages (JS.or (modelId s) "llama3")
                       (inferenceMode s) (ollamaUrl s) (temperature s) (maxTokens s)) ;;
  data <- json response ;;
  if (status response =? 400)%Z then
    updateMessage thinkingId (Text.badRequest data)
  else
    let content := Text.reply data in
    updateMessage thinkingId content ;;
    s <- getState ;;
    if scriptMode s && JS.truthy (outputFilename s) then
      fetch (PostSaveFile (outputFilename s) (extractCode content)) ;; ret tt
    else ret tt.

(** The chat branch of [handleSend]. *)
Definition chatTurn (text : string) : M unit :=
  userMsgId <- addMessage user text false ;;
  d <- getDom ;;
  finalPromptForAI <- (if webToggle_checked d then augment text else ret text) ;;
  s <- getState ;;
  let history := conversationHistory userMsgId finalPromptForAI (messages s) in
  thinkingId <- addMessage assistant Text.thinking true ;;
  tryFinally
    (tryCatch
       (chatRequest thinkingId history)
       (fun message => updateMessage thinkingId (Text.connectionError message)))
    (modify (set_isThinking false) ;; updateUIState ;; recordTurn).

(** What [handleSend] does once it has accepted the input, before it
    branches: a session if there is none, the input cleared, the gate
    closed. *)
Definition openTurn : M unit :=
  s <- getState ;;
  (if noSession (currentSessionId s) then createNewSession else ret tt) ;;
  modifyDom (set_input_value EmptyString) ;;
  modify (set_isThinking true) ;;
  updateUIState.

(** [handleSend()] *)
Definition handleSend : M unit :=
  d <- getDom ;;
  s <- getState ;;
  let text := JS.trim (input_value d) in
  if negb (JS.truthy text) || isThinking s then ret tt
  else if negb (isConnected s) then modifyDom (set_helpPanel_hidden false)
  else
    openTurn ;;
    d <- getDom ;;
    if imageToggle_checked d then imageTurn text else chatTurn text.

(** ** Reading a run *)

(** The text a turn is about: [dom.input.value.trim()]. *)
Definition text (w : World) : string := JS.trim (input_value (dom w)).

(** The dispatcher accepts the input: it is not empty, no turn is in
    flight, and the bridge is connected. *)
Definition accepted (w : World) : Prop :=
  JS.truthy (text w) = true /\ isThinking (state w) = false /\ isConnected (state w) = true.

(** The requests of a trace, in the order they left. *)
Definition requests (t : list Event) : list Request :=
  omap (fun ev => match ev with Call _ r _ => Some r | _ => None end) t.

(** The messages appended to the transcript, in order. *)
Definition appended (t : list Event) : list Message.t :=
  omap (fun ev => match ev with Appended m => Some m | _ => None end) t.

(** The [updateMessage] calls of a trace, in order. *)
Definition updates (t : list Event) : list Event :=
  List.filter (fun ev => match ev with Replaced _ _ _ | Missed _ => true | _ => false end) t.

(** The requests to the image endpoints (generation and model load) with
    the answers they got, in order. *)
Definition imageCalls (t : list Event) : list (Request * option Answer) :=
  omap (fun ev =>
          match ev with
          | Call _ (PostGenerateImage p s b) a => Some (PostGenerateImage p s b, a)
          | Call _ (PostLoadImageModel p b) a => Some (PostLoadImageModel p b, a)
          | _ => None
          end) t.

(** The requests to [/api/chat], in order. *)
Definition chatCalls (t : list Event) : list Request :=
  omap (fun ev =>
          match ev with
          | Call _ (PostChat m i o u c k) _ => Some (PostChat m i o u c k)
          | _ => None
          end) t.

(** The requests to [/save-file], in order. *)
Definition saveCalls (t : list Event) : list Request :=
  omap (fun ev =>
          match ev with
          | Call _ (PostSaveFile f c) _ => Some (PostSaveFile f c)
          | _ => None
          end) t.

(** A request of the web augmentation: the search or a page retrieval. *)
Definition isWeb (r : Request) : bool :=
  match r with
  | PostSearch _ _ | GetScrape _ _ => true
  | _ => false
  end.

(** The awaited call ends in an exception: the [fetch] rejects, or the
    body of the response cannot be parsed. *)
Definition throws (a : Answer) : bool :=
  match a with
  | Rejected _ => true
  | Resolved _ (Unparsable _) => true
  | Resolved _ (Parsed _) => false
  end.

(** The search answers without any result. *)
Definition noResults (a : Answer) : bool :=
  match a with
  | Resolved _ (Parsed data) =>
      match results data with
      | Some (_ :: _) => false
      | _ => true
      end
  | _ => false
  end.

(** How the awaited calls of the web augmentation ended, in order. *)
Definition webCalls (t : list Event) : list Answer :=
  omap (fun ev =>
          match ev with
          | Call _ r (Some a) => if isWeb r then Some a else None
          | _ => None
          end) t.

(** A call of the web augmentation in the trace has thrown. *)
Definition webFailure (t : list Event) : bool := existsb throws (webCalls t).

(** The prompt the model is sent: the content of the last item of the
    message list of a chat request. *)
Definition sentPrompt (r : Request) : option string :=
  match r with
  | PostChat l _ _ _ _ _ => option_map Outbound.content (last l)
  | _ => None
  end.

(** What the image branch writes over its placeholder, as decided by the
    way the generation call it looks at has ended. *)
Definition imageVerdict (text : string) (a : Answer) : string :=
  match a with
  | Rejected message => Text.connectionError message
  | Resolved _ (Unparsable message) => Text.connectionError message
  | Resolved st (Parsed data) =>
      if ok (mkResponse st (Parsed data))
      then Text.imageDone (image data) (saved_to data) text
      else Text.imageFailed (detail data)
  end.

(** The script-file save of the trace was rejected. *)
Definition saveRejected (t : list Event) : bool :=
  existsb (fun ev =>
             match ev with
             | Call _ (PostSaveFile _ _) (Some (Rejected _)) => true
             | _ => false
             end) t.

(** The clock never gives the same reading twice, and never the id of a
    message already in the transcript. *)
Definition freshClock (e : Env) (w : World) : Prop :=
  (forall j k, clock e j = clock e k -> j = k) /\
  (forall k m, In m (messages (state w)) -> Message.id m <> clock e k).

(** [n] calls of [createNewSession()] in a row. *)
Fixpoint creates (n : nat) : M unit :=
  match n with
  | O => ret tt
  | S k => createNewSession ;; creates k
  end.

(** The session that the [j]-th of a row of [createNewSession()] calls
    makes, when the row starts at the clock reading number [t0]: each call
    reads the clock twice, for the id and for the timestamp. *)
Definition created (e : Env) (t0 j : nat) : Session.t :=
  Session.mk (JS.toString (clock e (t0 + 2 * j))) "New Session" (clock e (t0 + 2 * j + 1)) [].

(** ** Concrete situations *)

Module Scenario.

(** One empty session, selected. *)
Definition session0 : Session.t :=
  Session.mk "1699999990000" "New Session" 1699999990000 [].

(** The defaults of [state] with one empty session selected, an empty
    transcript and no turn in flight; the chat model id, the image model
    id, script mode with its output file, and the connection flag as
    given. *)
Definition config (chatModel imageModel : string) (script : bool) (file : string)
    (connected : bool) : State :=
  mkState "http://localhost:5484" "http://localhost:11434/api/chat" chatModel "proxy"
    "D:/ggufs" "D:/images" imageModel EmptyString (7 # 10) 1024 EmptyString
    false script "Roblox Lua" file
    [session0] (Some "1699999990000") [] connected false.

Definition idle : State := config "llama3" EmptyString false EmptyString true.
Definition offline : State := config "llama3" EmptyString false EmptyString false.
Definition withImageModel : State := config "llama3" "sd15.safetensors" false EmptyString true.
Definition scripting : State := config "llama3" EmptyString true "script.lua" true.

(** The state right after the page has loaded: no session yet. *)
Definition blank : State :=
  mkState "http://localhost:5484" "http://localhost:11434/api/chat" "llama3" "proxy"
    "D:/ggufs" "D:/images" EmptyString EmptyString (7 # 10) 1024 EmptyString
    false false "Roblox Lua" EmptyString
    [] None [] true false.

(** The page with [input] typed in; toggles as given, panels hidden. *)
Definition page (input : string) (image web chrome : bool) : Dom :=
  mkDom input image web chrome true true false.

Definition world (s : State) (d : Dom) : World := mkWorld s d 0 0.

(** A clock that advances by one millisecond at every reading, and one
    that is read several times within the same millisecond. *)
Definition ticking : nat -> Z := fun k => (1700000000000 + Z.of_nat k)%Z.
Definition sameMs : nat -> Z := fun _ => 1700000000000%Z.

(** A bridge that answers every call the same way. *)
Definition always (a : Answer) : nat -> Answer := fun _ => a.

(** A bridge that answers the calls as listed, then with [rest]. *)
Definition script (l : list Answer) (rest : Answer) : nat -> Answer :=
  fun k => nth k l rest.

Definition okBody (b : Body) : Answer := Resolved 200 (Parsed b).

Definition chatReply (c : string) : Body :=
  mkBody None None None None None None (Some (MsgObject (Some c))) None.

Definition imageReply (file : string) : Body :=
  mkBody (Some file) None None None None None None None.

Definition modelReply (name : string) : Body :=
  mkBody None None None (Some name) None None None None.

Definition searchReply (l : list Result.t) : Body :=
  mkBody None None None None (Some l) None None None.

(** The error body of a bridge that has no image model loaded. *)
Definition noModel : Body :=
  mkBody None None (Some (mkDetail true "No image model loaded" "No image model loaded"))
    None None None None None.

Definition wx : Result.t := Result.mk "WX" "http://wx.example/today" "Sunny".

(** A reply with a fenced block, and one whose fenced block is empty. *)
Definition luaReply : string :=
  "Sure:" +:+ JS.nl +:+ "```lua" +:+ JS.nl +:+ "print(1)" +:+ JS.nl +:+ "```".
Definition emptyFence : string := "```lua" +:+ JS.nl +:+ "```".

(** The situations of the properties below. *)
Definition imageWorld : World := world idle (page "a cat" true false false).
Definition imageEnv : Env := mkEnv ticking (always (okBody (imageReply "out/cat.png"))).

Definition helloWorld : World := world idle (page "Hello" false false false).
Definition helloSameMs : Env := mkEnv sameMs (always (okBody (chatReply "Hi there"))).
Definition helloEnv : Env := mkEnv ticking (always (okBody (chatReply "Hi there"))).

Definition blankWorld : World := world blank (page EmptyString false false false).

Definition lazyWorld : World := world withImageModel (page "a cat" true false false).
Definition lazyEnv : Env :=
  mkEnv ticking
    (script [Resolved 400 (Parsed noModel); okBody (modelReply "sd15.safetensors")]
       (okBody (imageReply "out/cat.png"))).

Definition emptyOffline : World := world offline (page EmptyString false false false).
Definition hiOffline : World := world offline (page "hi" false false false).

Definition weatherWorld (chrome : bool) : World :=
  world idle (page "weather today" false true chrome).
Definition scrape500 : Env :=
  mkEnv ticking
    (script [okBody (searchReply [wx]); Resolved 500 (Parsed emptyBody)]
       (okBody (chatReply "It is sunny."))).
Definition searchDown : Env :=
  mkEnv ticking (script [Rejected "Failed to fetch"] (okBody (chatReply "I cannot tell."))).

Definition scriptWorld : World := world scripting (page "print one" false false false).
Definition luaEnv : Env := mkEnv ticking (always (okBody (chatReply luaReply))).
Definition emptyFenceEnv : Env := mkEnv ticking (always (okBody (chatReply emptyFence))).


End Scenario.

(** ** Reading the end of a turn *)

(** The registries posted to [/sessions], in order. *)
Definition sessionPosts (t : list Event) : list (list Session.t) :=
  omap (fun ev => match ev with Call _ (PostSessions l) _ => Some l | _ => None end) t.

(** What the chat branch writes over its placeholder, as decided by the
    way the call to [/api/chat] has ended. *)
Definition chatVerdict (a : Answer) : string :=
  match a with
  | Rejected message => Text.connectionError message
  | Resolved _ (Unparsable message) => Text.connectionError message
  | Resolved st (Parsed data) =>
      if (st =? 400)%Z then Text.badRequest data else Text.reply data
  end.

(** The selected session is one of the registry. *)
Definition listed (s : State) : bool :=
  match findSession (currentSessionId s) (sessions s) with
  | Some _ => true
  | None => false
  end.

(** Every code unit of a string is in a class. *)
Fixpoint every (p : ascii -> bool) (s : string) : bool :=
  match s with
  | EmptyString => true
  | String c t => p c && every p t
  end.

(** A string starts with another. *)
Fixpoint startsWith (p s : string) : bool :=
  match p, s with
  | EmptyString, _ => true
  | String a p', String b s' => Ascii.eqb a b && startsWith p' s'
  | String _ _, EmptyString => false
  end.

(** Three backticks in a row somewhere in a string. *)
Fixpoint hasFence (s : string) : bool :=
  startsWith "```" s ||
  match s with
  | String _ t => hasFence t
  | EmptyString => false
  end.

(** The backtick. *)
Definition isTick (c : ascii) : bool := Ascii.eqb c "`".

(** The image branch goes through the lazy load: the generation call
    answered with status 400 and an image model id is configured. *)
Definition lazyLoad (s : State) (a : Answer) : bool :=
  match a with
  | Resolved st _ => (st =? 400)%Z && JS.truthy (imageModelId s)
  | Rejected _ => false
  end.

(** The image model id once [loadImageModel] has got its answer. *)
Definition loadedModel (s : State) (a : Answer) : string :=
  match a with
  | Resolved st (Parsed data) =>
      if ok (mkResponse st (Parsed data)) then default EmptyString (model data)
      else imageModelId s
  | _ => imageModelId s
  end.

(** The dispatcher's gate is closed for a world: no input, a turn in
    flight, or no connection. *)
Definition refused (w : World) : Prop :=
  JS.truthy (text w) = false \/ isThinking (state w) = true \/ isConnected (state w) = false.

(** No session is selected, or the selected one is in the registry. *)
Definition selectionKept (s : State) : Prop :=
  noSession (currentSessionId s) = false -> listed s = true.

(** The registries posted while a turn is opened: the one with the
    session just made, if one was made. *)
Definition opened (e : Env) (w : World) : list (list Session.t) :=
  sessionPosts (trace (openTurn e w)).

(** The transcript once a turn is opened: a session made on the way
    empties the transcript and reads the clock twice. *)
Definition stored (w : World) : list Message.t :=
  if noSession (currentSessionId (state w)) then [] else messages (state w).

(** The position of the clock once a turn is opened. *)
Definition turnTick (w : World) : nat :=
  if noSession (currentSessionId (state w)) then S (S (ticks w)) else ticks w.

(** The [/save-file] requests of a chat turn, as decided by the settings
    and by the way the call to [/api/chat] has ended. *)
Definition savePlan (s : State) (a : Answer) : list Request :=
  match a with
  | Resolved st (Parsed data) =>
      if (st =? 400)%Z then []
      else if scriptMode s && JS.truthy (outputFilename s)
           then [PostSaveFile (outputFilename s) (extractCode (Text.reply data))]
           else []
  | _ => []
  end.

(** What a chat turn leaves in place of its placeholder, as decided by
    the way the chat call and, if the script file is saved, the save have
    ended: a save that is rejected puts the connection error over the
    reply. *)
Definition turnVerdict (s : State) (chat save : Answer) : string :=
  match savePlan s chat with
  | [] => chatVerdict chat
  | _ :: _ =>
      match save with
      | Rejected message => Text.connectionError message
      | Resolved _ _ => chatVerdict chat
      end
  end.

(** The page retrievals that follow a search: in deep mode, one for each
    of the first two results. *)
Definition scrapes (d : Dom) (a : Answer) : list Request :=
  if chromeToggle_checked d then
    match a with
    | Resolved _ (Parsed data) =>
        match results data with
        | Some found => map scrape (firstn 2 found)
        | None => []
        end
    | _ => []
    end
  else [].

(** The body of an answer that has one. *)
Definition parsed (a : Answer) : Body :=
  match a with
  | Resolved _ (Parsed b) => b
  | _ => emptyBody
  end.

(** A message as it goes out when it is not the one just asked. *)
Definition plain (m : Message.t) : Outbound.t :=
  Outbound.mk (Message.role m) (Message.content m).

(** A request to [/api/chat]. *)
Definition isChat (r : Request) : bool :=
  match r with
  | PostChat _ _ _ _ _ _ => true
  | _ => false
  end.

(** ** Parts of a text *)

(** [c] is a run of consecutive code units of [s]. *)
Definition partOf (c s : string) : Prop := exists pre post, s = pre +:+ c +:+ post.

(** A code unit that is not a backtick. *)
Definition noTick (c : ascii) : bool := negb (isTick c).

(** A reply with one fenced block: the text before it, the language tag,
    the block, the text after it. *)
Definition fenced (pre tag body post : string) : string :=
  pre +:+ "```" +:+ tag +:+ JS.nl +:+ body +:+ "```" +:+ post.

(** [s] is what is left of [content] from some position on. *)
Definition suffixOf (s content : string) : Prop := exists pre, content = pre +:+ s.

(** A capture, if there is one, is a part of [content]. *)
Definition captureOf (cap : option string) (content : string) : Prop :=
  forall x, cap = Some x -> partOf x content.

(** What a continuation of the matcher keeps: from what is left of
    [content] and a capture that is a part of it, a match captures a part
    of it. *)
Definition sound (content : string) (k : Regex.cont) (c : string) : Prop :=
  forall s cap, suffixOf s content -> captureOf cap content ->
    k s cap = Some (Some c) -> partOf c content.

(** A code unit that passes [encodeURIComponent] or comes out of it. *)
Definition urlSafe (c : ascii) : bool := JS.unreserved c || Ascii.eqb c "%".

(** The code units that delimit the parts of a URL and of its query. *)
Definition delimiter (c : ascii) : bool :=
  existsb (Ascii.eqb c) ["&"; "="; "?"; "#"; "/"; ":"; "+"; " "]%char.

(** ** The connection monitor, the registry sync, the settings

    [checkConnection], [syncSessions] and [loadLocalModel] await one call
    each, and are given the way it ends; they work on the same [State] as
    the dispatcher. The status line, the ping and the model display are
    rendering, and left out with the [localStorage] copy of the settings. *)

Definition set_isConnected (v : bool) (s : State) : State :=
  mkState (backendUrl s) (ollamaUrl s) (modelId s) (inferenceMode s) (modelsPath s)
    (imageModelsPath s) (imageModelId s) (imageSubfolder s) (temperature s) (maxTokens s)
    (systemOverride s) (compactMode s) (scriptMode s) (targetLang s) (outputFilename s)
    (sessions s) (currentSessionId s) (messages s) v (isThinking s).

Definition set_modelId (v : string) (s : State) : State :=
  mkState (backendUrl s) (ollamaUrl s) v (inferenceMode s) (modelsPath s)
    (imageModelsPath s) (imageModelId s) (imageSubfolder s) (temperature s) (maxTokens s)
    (systemOverride s) (compactMode s) (scriptMode s) (targetLang s) (outputFilename s)
    (sessions s) (currentSessionId s) (messages s) (isConnected s) (isThinking s).

(** How an awaited call whose body is read as a [B] ends: the [fetch]
    rejects; it resolves and [res.json()] rejects; it resolves with a
    body. *)
Inductive Reply (B : Type) :=
| Failed
| Garbled (status : Z)
| Read (status : Z) (data : B).
Arguments Failed {B}.
Arguments Garbled {B} status.
Arguments Read {B} status data.

(** [res.ok] *)
Definition okStatus (st : Z) : bool := ((200 <=? st) && (st <=? 299))%Z.

(** The body of [/api/status], through the property the monitor reads;
    a body that is not an object reads like one that does not parse. *)
Record Status := mkStatus { current_model : option string }.

(** The requests that [syncSessions] and [loadLocalModel] send or hold
    back. *)
Inductive Ask :=
| GetSessions
| PostLoad (path base_dir : string).

(** [checkConnection()]: the connection flag follows [res.ok] once the
    body has been parsed; the model the bridge reports is adopted in local
    mode. The request to [/api/status] leaves at every call. *)
Definition checkConnection (a : Reply Status) (s : State) : State :=
  match a with
  | Read st data =>
      let s1 := set_isConnected (okStatus st) s in
      if JS.present (current_model data) && String.eqb (inferenceMode s1) "local"
      then set_modelId (default EmptyString (current_model data)) s1
      else s1
  | _ => set_isConnected false s
  end.

(** [syncSessions()]: the registry of the bridge replaces the local one. *)
Definition syncSessions (a : Reply (list Session.t)) (s : State) : State * list Ask :=
  if negb (isConnected s) then (s, [])
  else
    (match a with
     | Read st data => if okStatus st then set_sessions data s else s
     | _ => s
     end,
     [GetSessions]).

(** [loadLocalModel(modelName)]; an absent [model] property leaves a
    falsy id. *)
Definition loadLocalModel (modelName : string) (a : Answer) (s : State) : State * list Ask :=
  if negb (isConnected s) then (s, [])
  else
    (match a with
     | Resolved st (Parsed data) =>
         if okStatus st then set_modelId (default EmptyString (model data)) s else s
     | _ => s
     end,
     [PostLoad modelName (modelsPath s)]).

(** The fields of the settings panel that [saveSettings] reads; the two
    numeric fields as the numbers they parse to. *)
Record Form := mkForm {
  inputBackend : string;
  inputOllama : string;
  inputInferenceMode : string;
  inputModelsPath : string;
  inputImageModelsPath : string;
  activeImageFolder : string;
  localModelSelector : string;
  inputModel : string;
  imageModelSelector : string;
  inputTemp : Q;
  inputTokens : Z;
  inputSystem : string;
  inputCompact : bool;
  scriptToggle : bool;
  langSelector : string;
  inputOutputFilename : string
}.

(** [saveSettings()] *)
Definition saveSettings (f : Form) (s : State) : State :=
  mkState (inputBackend f) (inputOllama f)
    (if String.eqb (inputInferenceMode f) "local"
     then JS.or (localModelSelector f) (modelId s)
     else JS.or (inputModel f) (modelId s))
    (inputInferenceMode f) (inputModelsPath f) (inputImageModelsPath f)
    (JS.or (imageModelSelector f) (imageModelId s))
    (JS.trim (activeImageFolder f))
    (inputTemp f) (inputTokens f) (inputSystem f) (inputCompact f) (scriptToggle f)
    (langSelector f) (inputOutputFilename f)
    (sessions s) (currentSessionId s) (messages s) (isConnected s) (isThinking s).

(** ** More concrete situations *)

Module Sample.

(** The first prompt after the page has loaded: no session yet. *)
Definition firstWorld : World :=
  Scenario.world Scenario.blank (Scenario.page "Hello" false false false).

(** An input of blanks and a line break. *)
Definition blanks : string := "  " +:+ JS.nl +:+ " ".
Definition blanksWorld : World :=
  Scenario.world Scenario.idle (Scenario.page blanks false false false).

(** A selected session that the registry does not hold. *)
Definition stray : State := set_sessions [] Scenario.idle.
Definition strayWorld : World :=
  Scenario.world stray (Scenario.page "Hello" false false false).

(** The chat answers with a fenced block, and the save of the script
    file cannot reach the bridge. *)
Definition saveDown : Env :=
  mkEnv Scenario.ticking
    (Scenario.script [Scenario.okBody (Scenario.chatReply Scenario.luaReply)]
       (Rejected "Failed to fetch")).

(** A deep scan: one result, and its page. *)
Definition pageReply (c : string) : Body :=
  mkBody None None None None None (Some c) None None.
Definition deepEnv : Env :=
  mkEnv Scenario.ticking
    (Scenario.script
       [Scenario.okBody (Scenario.searchReply [Scenario.wx]);
        Scenario.okBody (pageReply "Sunny all day.")]
       (Scenario.okBody (Scenario.chatReply "It is sunny."))).

Definition ready : Reply Status := Read 200 (mkStatus (Some "mistral.gguf")).

(** The page right after it has loaded, before the first status check:
    disconnected, no session. *)
Definition starting : State := set_isConnected false Scenario.blank.
Definition startWorld : World :=
  Scenario.world starting (Scenario.page EmptyString false false false).

(** A first prompt whose session is made within one millisecond: the
    two readings of [createNewSession] are the same, the later ones
    advance. *)
Definition burst : nat -> Z :=
  fun k => match k with
           | O | S O => 1700000000000
           | _ => 1700000000000 + Z.of_nat k
           end.
Definition firstEnv : Env :=
  mkEnv burst (Scenario.always (Scenario.okBody (Scenario.chatReply "Hi there"))).



(** An input that holds a no-break space and nothing else. *)
Definition nbsp : string := String (ascii_of_nat 160) EmptyString.
Definition nbspWorld (connected : bool) : World :=
  Scenario.world (if connected then Scenario.idle else Scenario.offline)
    (Scenario.page nbsp false false false).

(** A settings form that names no model. *)
Definition form : Form :=
  mkForm "http://localhost:5484" "http://localhost:11434/api/chat" "proxy" "D:/ggufs"
    "D:/images" " portraits " EmptyString EmptyString EmptyString (1 # 2) 2048
    "Be brief." true false "Python" EmptyString.

End Sample.

(** ** The ids and the answers of a turn *)

(** Every id that [addMessage] hands out in the turn is new to the
    transcript it is appended to: the one id of an image turn (the
    placeholder's) is the id of no stored message; of the two ids of a
    chat turn, the user message's is the id of no stored message, and the
    placeholder's is neither that one nor the id of a stored message.
    Nothing is asked of the other readings of the clock. *)
Definition newIds (e : Env) (w : World) : Prop :=
  let t := turnTick w in
  (forall m, In m (stored w) -> Message.id m <> clock e t) /\
  (imageToggle_checked (dom w) = false ->
   clock e (S t) <> clock e t /\
   forall m, In m (stored w) -> Message.id m <> clock e (S t)).

(** How the awaited calls to [/api/chat] of a trace have ended, in
    order. *)
Definition chatAnswers (t : list Event) : list Answer :=
  omap (fun ev =>
          match ev with
          | Call _ (PostChat _ _ _ _ _ _) (Some a) => Some a
          | _ => None
          end) t.

(** ** The connection monitor during a turn

    [setInterval(checkConnection, 5000)] keeps the monitor running while a
    turn waits for the bridge: a status check that completes then writes
    [state.isConnected] and, in local mode, [state.modelId], and the turn
    reads them when it goes on ([loadImageModel], [refreshImageSubfolders],
    [saveSessionsToBackend], the model of the chat request). *)

(** The status checks that complete while the [k]-th awaited call of a
    run is pending, each with the way it has ended, in the order they
    complete. A check that completes while the body of the answer is read
    ([res.json()]) counts with the call: the turn reads nothing of the
    state in between. *)
Definition Monitor : Type := nat -> list (Reply Status).

(** No status check completes during the run. *)
Definition quiet : Monitor := fun _ => [].

(** The state once the status checks have completed. *)
Definition watch (l : list (Reply Status)) (s : State) : State :=
  fold_left (fun s a => checkConnection a s) l s.

(** The handlers of a turn with the monitor at work: an awaited call hands
    the state back as the status checks that completed meanwhile have left
    it. Everything else is as in the handlers above, which are these under
    the [quiet] monitor. *)
Module Live.

(** A [fetch] whose promise is awaited. *)
Definition start (p : Monitor) (r : Request) : M Answer :=
  fun e w =>
    let a := net e (calls w) in
    mkRun (Normal a)
          (mkWorld (watch (p (calls w)) (state w)) (dom w) (ticks w) (S (calls w)))
          [Call (backendUrl (state w)) r (Some a)].

(** [await fetch(...)] *)
Definition fetch (p : Monitor) (r : Request) : M Response := a <- start p r ;; settle a.

(** [loadImageModel(modelName)] *)
Definition loadImageModel (p : Monitor) (modelName : string) : M unit :=
  s <- getState ;;
  if negb (isConnected s) then ret tt
  else
    tryCatch
      (res <- fetch p (PostLoadImageModel modelName (imageModelsPath s)) ;;
       if ok res then
         data <- json res ;;
         modify (set_imageModelId (default EmptyString (model data)))
       else ret tt)
      (fun _ => ret tt).

(** The [/api/generate-image] call of the image branch. *)
Definition generateImage (p : Monitor) (text : string) : M Response :=
  s <- getState ;;
  fetch p (PostGenerateImage text (imageSubfolder s) (imageModelsPath s)).

(** The [try] block of the image branch. *)
Definition imageRequest (p : Monitor) (thinkingId : Z) (text : string) : M unit :=
  res <- generateImage p text ;;
  s <- getState ;;
  res <- (if (status res =? 400)%Z && JS.truthy (imageModelId s)
          then loadImageModel p (imageModelId s) ;; generateImage p text
          else ret res) ;;
  data <- json res ;;
  if ok res then
    updateMessage thinkingId (Text.imageDone (image data) (saved_to data) text) ;;
    modifyDom (set_input_value EmptyString) ;;
    refreshImageSubfolders
  else updateMessage thinkingId (Text.imageFailed (detail data)).

(** The image branch of [handleSend]. *)
Definition imageTurn (p : Monitor) (text : string) : M unit :=
  thinkingId <- addMessage assistant Text.painting true ;;
  tryFinally
    (tryCatch
       (imageRequest p thinkingId text)
       (fun message => updateMessage thinkingId (Text.connectionError message)))
    (modify (set_isThinking false) ;; updateUIState).

(** The deep scan. *)
Definition deepScan (p : Monitor) (found : list Result.t) : M (list Body) :=
  answers <- mapM (fun r => start p (scrape r)) (firstn 2 found) ;;
  mapM (fun a => res <- settle a ;; json res) answers.

(** The web augmentation of the chat branch. *)
Definition augment (p : Monitor) (text : string) : M string :=
  modifyDom (set_contextInfo_hidden false) ;;
  tryFinally
    (tryCatch
       (searchRes <- fetch p (PostSearch text 8) ;;
        data <- json searchRes ;;
        match results data with
        | Some (r :: rest) =>
            let found := r :: rest in
            d <- getDom ;;
            contextText <-
              (if chromeToggle_checked d then
                 scrapeResults <- deepScan p found ;;
                 ret (JS.join Text.rule (pages found scrapeResults))
               else ret (JS.join (Text.nl +:+ Text.nl) (map Text.snippet found))) ;;
            ret (Text.augmented contextText text)
        | _ => ret text
        end)
       (fun _ => ret text))
    (modifyDom (set_contextInfo_hidden true)).

(** The [try] block of the chat branch. *)
Definition chatRequest (p : Monitor) (thinkingId : Z) (history : list Outbound.t) : M unit :=
  s <- getState ;;
  let fullMessages := Outbound.mk system (Text.sys s) :: history in
  response <- fetch p (PostChat fullMessages (JS.or (modelId s) "llama3")
                         (inferenceMode s) (ollamaUrl s) (temperature s) (maxTokens s)) ;;
  data <- json response ;;
  if (status response =? 400)%Z then
    updateMessage thinkingId (Text.badRequest data)
  else
    let content := Text.reply data in
    updateMessage thinkingId content ;;
    s <- getState ;;
    if scriptMode s && JS.truthy (outputFilename s) then
      fetch p (PostSaveFile (outputFilename s) (extractCode content)) ;; ret tt
    else ret tt.

(** The chat branch of [handleSend]. *)
Definition chatTurn (p : Monitor) (text : string) : M unit :=
  userMsgId <- addMessage user text false ;;
  d <- getDom ;;
  finalPromptForAI <- (if webToggle_checked d then augment p text else ret text) ;;
  s <- getState ;;
  let history := conversationHistory userMsgId finalPromptForAI (messages s) in
  thinkingId <- addMessage assistant Text.thinking true ;;
  tryFinally
    (tryCatch
       (chatRequest p thinkingId history)
       (fun message => updateMessage thinkingId (Text.connectionError message)))
    (modify (set_isThinking false) ;; updateUIState ;; recordTurn).

(** [handleSend()] *)
Definition handleSend (p : Monitor) : M unit :=
  d <- getDom ;;
  s <- getState ;;
  let text := JS.trim (input_value d) in
  if negb (JS.truthy text) || isThinking s then ret tt
  else if negb (isConnected s) then modifyDom (set_helpPanel_hidden false)
  else
    openTurn ;;
    d <- getDom ;;
    if imageToggle_checked d then imageTurn p text else chatTurn p text.

End Live.

(** The bridge still counts as connected when the answer to the first
    awaited call of a turn arrives. *)
Definition stillUp (p : Monitor) (w : World) : bool :=
  isConnected (watch (p (calls w)) (state w)).

(** The image calls of a turn, as decided by the way they end and by the
    connection flag at the moment of the lazy load: the generation, and
    after a 400 with an image model id configured the load, unless the
    flag is down, and the generation again. *)
Definition imagePlan (p : Monitor) (e : Env) (w : World) : list (Request * option Answer) :=
  let s := state w in
  let k := calls w in
  let generate := PostGenerateImage (text w) (imageSubfolder s) (imageModelsPath s) in
  let load := PostLoadImageModel (imageModelId s) (imageModelsPath s) in
  (generate, Some (net e k))
  :: (if lazyLoad s (net e k) then
        if stillUp p w
        then [(load, Some (net e (S k))); (generate, Some (net e (S (S k))))]
        else [(generate, Some (net e (S k)))]
      else []).

(** The answer to the last generation call of an image turn. *)
Definition lastGenerated (p : Monitor) (e : Env) (w : World) : Answer :=
  let k := calls w in
  if lazyLoad (state w) (net e k)
  then if stillUp p w then net e (S (S k)) else net e (S k)
  else net e k.

(** ** The monitor in concrete situations *)

Module Race.

(** A status check fails while the first call of the turn is pending. *)
Definition dropping : Monitor :=
  fun k => match k with O => [Failed] | S _ => [] end.

(** The bridge answers the first generation with a 400, then with an
    image. *)
Definition retryEnv : Env :=
  mkEnv Scenario.ticking
    (Scenario.script [Resolved 400 (Parsed Scenario.noModel)]
       (Scenario.okBody (Scenario.imageReply "out/cat.png"))).

(** The first prompt after the page has loaded, in image mode. *)
Definition firstImage : World :=
  Scenario.world Scenario.blank (Scenario.page "a cat" true false false).

End Race.

(** * Properties *)

(** ** Running the model symbolically

    A handler applied to an environment and a world unfolds one monadic
    step at a time; the texts and the searches in lists stay folded. *)

Arguments bind {A B} m f _ _ /.
Arguments ret {A} a _ _ /.
Arguments throw {A} msg _ _ /.
Arguments tryCatch {A} m h _ _ /.
Arguments tryFinally {A} m f _ _ /.
Arguments getState _ _ /.
Arguments getDom _ _ /.
Arguments modify f _ _ /.
Arguments modifyDom f _ _ /.
Arguments emit ev _ _ /.
Arguments now _ _ /.
Arguments fire r _ _ /.
Arguments start r _ _ /.
Arguments settle !a _ _ /.
Arguments fetch r _ _ /.
Arguments json res _ _ /.
Arguments addMessage role content isTransient _ _ /.
Arguments updateMessage id content _ _ /.
Arguments saveSessionsToBackend _ _ /.
Arguments createNewSession _ _ /.
Arguments loadSession id _ _ /.
Arguments recordTurn _ _ /.
Arguments loadImageModel modelName _ _ /.
Arguments refreshImageSubfolders _ _ /.
Arguments updateUIState _ _ /.
Arguments generateImage text _ _ /.
Arguments imageRequest thinkingId text _ _ /.
Arguments imageTurn : simpl never.
Arguments deepScan found _ _ /.
Arguments augment : simpl never.
Arguments chatRequest thinkingId history _ _ /.
Arguments chatTurn : simpl never.
Arguments openTurn _ _ /.
Arguments handleSend _ _ /.
Arguments set_imageModelId v s /.
Arguments set_sessions v s /.
Arguments set_currentSessionId v s /.
Arguments set_messages v s /.
Arguments set_isThinking v s /.
Arguments set_input_value v d /.
Arguments set_helpPanel_hidden v d /.
Arguments set_contextInfo_hidden v d /.
Arguments set_sendBtn_disabled v d /.
Arguments findMessage : simpl never.
Arguments findSession : simpl never.
Arguments retitled : simpl never.
Arguments conversationHistory : simpl never.
Arguments extractCode : simpl never.
Arguments Text.painting : simpl never.
Arguments Text.thinking : simpl never.
Arguments Text.imageDone : simpl never.
Arguments Text.imageFailed : simpl never.
Arguments Text.connectionError : simpl never.
Arguments Text.badRequest : simpl never.
Arguments Text.reply : simpl never.
Arguments Text.sys s /.
Arguments Text.snippet : simpl never.
Arguments Text.page : simpl never.
Arguments Text.augmented : simpl never.
Arguments Text.rule : simpl never.
Arguments Text.nl : simpl never.
Arguments JS.trim : simpl never.
Arguments JS.toString : simpl never.
Arguments JS.truthy : simpl never.
Arguments JS.or : simpl never.
Arguments JS.join : simpl never.
Arguments JS.slice0 : simpl never.
Arguments JS.encodeURIComponent : simpl never.
Arguments ok : simpl never.
Arguments String.eqb : simpl never.

Ltac hyp_rewrite :=
  match goal with
  | H : ?x = _ |- context [?x] => rewrite H
  end.

(** Unfold as far as the hypotheses decide the tests. *)
Ltac go := repeat (cbn; try hyp_rewrite).

(** Split on the way an awaited call ends. *)
Ltac case_answer e k :=
  let a := fresh "msg" in
  let st := fresh "st" in
  let d := fresh "data" in
  let E := fresh "Hnet" in
  destruct (net e k) as [a | st [d | a]] eqn:E.

(** ** Transcript and registry lookups *)

Lemma findMessage_last (l : list Message.t) (m : Message.t) :
  exists i m', findMessage (Message.id m) (l ++ [m]) = Some (i, m').
Proof.
  unfold findMessage.
  destruct (list_find (fun x => Message.id x = Message.id m) (l ++ [m])) as [[i m']|] eqn:E.
  - exists i, m'. reflexivity.
  - exfalso. rewrite list_find_None in E. rewrite Forall_app in E. destruct E as [_ E].
    inversion E; subst. congruence.
Qed.

Lemma findMessage_fresh (l : list Message.t) (m : Message.t) :
  (forall x, In x l -> Message.id x <> Message.id m) ->
  findMessage (Message.id m) (l ++ [m]) = Some (length l, m).
Proof.
  intros Hfresh. unfold findMessage. apply list_find_Some. repeat split.
  - rewrite lookup_app_r by lia. now rewrite Nat.sub_diag.
  - intros j y Hy Hj. rewrite lookup_app_l in Hy by exact Hj.
    apply Hfresh. apply list_elem_of_In. eapply list_elem_of_lookup_2. exact Hy.
Qed.

Lemma findMessage_resolved (id : Z) (l : list Message.t) (i : nat) (m : Message.t) (c : string) :
  findMessage id l = Some (i, m) ->
  findMessage id (<[i := Message.resolve c m]> l) = Some (i, Message.resolve c m).
Proof.
  unfold findMessage. intros H. apply list_find_Some in H. destruct H as (Hi & Hid & Hbefore).
  apply list_find_Some. repeat split.
  - apply list_lookup_insert_eq. eapply lookup_lt_Some. exact Hi.
  - exact Hid.
  - intros j y Hy Hj. rewrite list_lookup_insert_ne in Hy by lia. eapply Hbefore; eassumption.
Qed.

(** The placeholder appended last is found whatever else is stored, and
    found again once it is resolved. *)
Ltac find_last :=
  let Hf := fresh "Hfind" in
  match goal with
  | |- context [findMessage _ (?l0 ++ [?m])] =>
      destruct (findMessage_last l0 m) as (? & ? & Hf); cbn in Hf; rewrite Hf
  | |- context [findMessage _ [?m]] =>
      destruct (findMessage_last [] m) as (? & ? & Hf); cbn in Hf; rewrite Hf
  | Hf : findMessage ?id ?l = Some (?i, ?m)
    |- context [findMessage ?id (<[?i := Message.resolve ?c ?m]> ?l)] =>
      rewrite (findMessage_resolved id l i m c Hf)
  end.

(** One more split of a stuck run: a lookup, a test of the code, or the
    way the next awaited call ends. *)
Ltac split_run e :=
  first
    [ find_last
    | match goal with
      | |- context [findSession ?c ?l] => destruct (findSession c l) as [[? ?]|] eqn:?
      end
    | match goal with
      | |- context [(?st =? 400)%Z] => destruct (st =? 400)%Z eqn:?
      end
    | match goal with
      | |- context [ok ?r] => destruct (ok r) eqn:?
      end
    | match goal with
      | |- context [scriptMode ?s && _] => destruct (scriptMode s) eqn:?
      end
    | match goal with
      | |- context [if JS.truthy ?x then _ else _] => destruct (JS.truthy x) eqn:?
      end
    | match goal with
      | |- context [net e ?k] => case_answer e k
      end ].

Ltac run_all e := repeat (split_run e; go).

(** ** The web augmentation *)

(** The augmentation always hands a prompt on, touches nothing of the
    state, leaves the progress indicator hidden, and calls nothing but the
    search and the page retrieval. *)
Lemma augment_run (text : string) (e : Env) (w : World) :
  exists prompt c t,
    augment text e w
    = mkRun (Normal prompt)
        (mkWorld (state w) (set_contextInfo_hidden true (dom w)) (ticks w) c) t /\
    Forall (fun ev => exists b r a, ev = Call b r (Some a) /\ isWeb r = true) t.
Proof.
  unfold augment. cbn. case_answer e (calls w); go.
  - eexists _, _, _. split; [reflexivity|]. repeat constructor; eauto.
  - destruct (results data) as [[|r rest]|]; go.
    + eexists _, _, _. split; [reflexivity|]. repeat constructor; eauto.
    + destruct (chromeToggle_checked (dom w)) eqn:Hchrome; go.
      * destruct rest as [|r2 rest]; go.
        -- case_answer e (S (calls w)); go;
             (eexists _, _, _; split; [reflexivity|]; repeat constructor; eauto).
        -- case_answer e (S (calls w)); go;
           case_answer e (S (S (calls w))); go;
             (eexists _, _, _; split; [reflexivity|]; repeat constructor; eauto).
      * eexists _, _, _. split; [reflexivity|]. repeat constructor; eauto.
    + eexists _, _, _. split; [reflexivity|]. repeat constructor; eauto.
  - eexists _, _, _. split; [reflexivity|]. repeat constructor; eauto.
Qed.

(** ** Filters of a trace *)

Lemma chatCalls_app (t t' : list Event) : chatCalls (t ++ t') = chatCalls t ++ chatCalls t'.
Proof. unfold chatCalls. apply omap_app. Qed.

Lemma appended_app (t t' : list Event) : appended (t ++ t') = appended t ++ appended t'.
Proof. unfold appended. apply omap_app. Qed.

Lemma updates_app (t t' : list Event) : updates (t ++ t') = updates t ++ updates t'.
Proof. unfold updates. apply List.filter_app. Qed.

Lemma saveCalls_app (t t' : list Event) : saveCalls (t ++ t') = saveCalls t ++ saveCalls t'.
Proof. unfold saveCalls. apply omap_app. Qed.

Lemma web_only (t : list Event) :
  Forall (fun ev => exists b r a, ev = Call b r (Some a) /\ isWeb r = true) t ->
  chatCalls t = [] /\ appended t = [] /\ updates t = [] /\ saveCalls t = [].
Proof.
  induction 1 as [|ev t (b & r & a & -> & Hr) _ (IH1 & IH2 & IH3 & IH4)]; [easy|].
  destruct r; try discriminate; cbn; auto.
Qed.

(** ** The chat branch *)

(** A chat turn: the user's message, the augmentation, the placeholder,
    the chat request built from the transcript as it was before the
    placeholder, and a tail that appends nothing and calls [/api/chat] no
    more. *)
Lemma chatTurn_run (txt : string) (e : Env) (w : World) :
  isConnected (state w) = true ->
  let U := Message.mk (clock e (ticks w)) user txt false in
  let A := Message.mk (clock e (S (ticks w))) assistant Text.thinking true in
  let w1 := mkWorld (set_messages (messages (state w) ++ [U]) (state w)) (dom w)
              (S (ticks w)) (calls w) in
  exists prompt wa ta w' tail,
    (if webToggle_checked (dom w) then augment txt else ret txt) e w1
      = mkRun (Normal prompt) wa ta /\
    state wa = state w1 /\
    (webToggle_checked (dom w) = true -> contextInfo_hidden (dom wa) = true) /\
    chatTurn txt e w
      = mkRun (Normal tt) w'
          (Appended U :: ta ++ Appended A
           :: Call (backendUrl (state w))
                (PostChat
                   (Outbound.mk system (Text.sys (state w))
                    :: conversationHistory (Message.id U) prompt (messages (state w) ++ [U]))
                   (JS.or (modelId (state w)) "llama3") (inferenceMode (state w))
                   (ollamaUrl (state w)) (temperature (state w)) (maxTokens (state w)))
                (Some (net e (calls wa)))
           :: tail) /\
    chatCalls ta = [] /\ appended ta = [] /\ updates ta = [] /\ saveCalls ta = [] /\
    chatCalls tail = [] /\ appended tail = [] /\ webCalls tail = [] /\
    contextInfo_hidden (dom w') = contextInfo_hidden (dom wa) /\
    isThinking (state w') = false /\
    match findSession (currentSessionId (state w)) (sessions (state w)) with
    | Some (i, session) =>
        sessions (state w')
        = <[i := Session.mk (Session.id session) (retitled session (messages (state w')))
                   (Session.timestamp session) (messages (state w'))]> (sessions (state w)) /\
        last tail = Some (Call (backendUrl (state w)) (PostSessions (sessions (state w'))) None)
    | None => sessions (state w') = sessions (state w)
    end.
Proof.
  intros Hc. cbn zeta. unfold chatTurn. go.
  destruct (webToggle_checked (dom w)) eqn:Hweb.
  - match goal with
    | |- context [augment txt e ?w1] =>
        destruct (augment_run txt e w1) as (prompt & c & ta & Hrun & Hw)
    end.
    rewrite Hrun. destruct (web_only ta Hw) as (Hw1 & Hw2 & Hw3 & Hw4).
    go. run_all e;
      (eexists _, _, _, _, _;
       split; [reflexivity|]; split; [reflexivity|]; split; [intros; reflexivity|];
       split; [cbn; repeat hyp_rewrite; reflexivity|];
       repeat split; try assumption; reflexivity).
  - go. run_all e;
      (eexists _, _, _, _, _;
       split; [reflexivity|]; split; [reflexivity|]; split; [intros; discriminate|];
       split; [cbn; repeat hyp_rewrite; reflexivity|];
       repeat split; reflexivity).
Qed.

(** ** The helpers of the model on examples *)

Example trim_ex : JS.trim "  weather today " = "weather today".
Proof. reflexivity. Qed.

Example toString_ex : JS.toString 1700000000123 = "1700000000123".
Proof. reflexivity. Qed.

Example encode_ex : JS.encodeURIComponent "http://a.b/c d" = "http%3A%2F%2Fa.b%2Fc%20d".
Proof. reflexivity. Qed.

Example encode_utf8_ex :
  JS.encodeURIComponent (String (ascii_of_nat 233) EmptyString) = "%C3%A9".
Proof. reflexivity. Qed.

Example trim_no_break_space_ex :
  JS.trim (String (ascii_of_nat 160) (" hi" +:+ String (ascii_of_nat 160) EmptyString)) = "hi".
Proof. reflexivity. Qed.

Example extractCode_lua :
  extractCode ("Sure:" +:+ JS.nl +:+ "```lua" +:+ JS.nl +:+ "print(1)" +:+ JS.nl +:+ "```")
  = "print(1)" +:+ JS.nl.
Proof. reflexivity. Qed.

Example extractCode_plain : extractCode "print(1)" = "print(1)".
Proof. reflexivity. Qed.

Example extractCode_second_fence :
  extractCode ("```c++" +:+ JS.nl +:+ "a" +:+ JS.nl +:+ "```" +:+ JS.nl +:+ "b```")
  = "b".
Proof. reflexivity. Qed.

(** ** The gate of the dispatcher *)

(** C6, as amended: an empty input or a turn in flight leaves everything
    as it is; a disconnected bridge (with an input, and no turn in flight)
    only opens the help panel. In each case no message is appended and no
    request leaves. *)
Theorem handleSend_rejects (e : Env) (w : World) :
  JS.truthy (text w) = false \/ isThinking (state w) = true \/ isConnected (state w) = false ->
  let r := handleSend e w in
  trace r = [] /\
  state (final r) = state w /\
  (JS.truthy (text w) = false \/ isThinking (state w) = true -> final r = w) /\
  (JS.truthy (text w) = true -> isThinking (state w) = false ->
   dom (final r) = set_helpPanel_hidden false (dom w)).
Proof.
  intros H. unfold handleSend, text in *. cbn.
  destruct (JS.truthy (JS.trim (input_value (dom w)))) eqn:Ht;
    destruct (isThinking (state w)) eqn:Hk; cbn;
    try (destruct w; cbn; repeat split; intros; try congruence; tauto).
  destruct (isConnected (state w)) eqn:Hc; cbn.
  - exfalso. destruct H as [H | [H | H]]; congruence.
  - repeat split; intros; try congruence. destruct H0; congruence.
Qed.

(** Bring the run of the chat branch in the goal to the form of
    [chatTurn_run]. *)
Ltac chat_turn e :=
  match goal with
  | |- context [chatTurn ?t e ?W] =>
      destruct (chatTurn_run t e W)
        as (prompt & wa & ta & w' & tail & Haug & Hwa & Hctx & Hrun
            & Hta1 & Hta2 & Hta3 & Hta4 & Htl1 & Htl2 & Htl3 & Hdom & Hthink & Hrec);
      [cbn; try assumption; reflexivity |];
      cbn in Haug, Hwa, Hctx, Hrun; rewrite Hrun;
      unfold chatCalls, appended, saveCalls, updates, webFailure, webCalls in *
  end.

(** Filter a trace made of known events and of the parts [ta] and [tail]
    of a chat turn. *)
Ltac sift :=
  repeat (cbn; rewrite ?omap_app, ?List.filter_app; try hyp_rewrite).

(** ** The model id of a chat request *)


(** ** The outbound message list *)

Lemma conversationHistory_app (u : Z) (p : string) (l l' : list Message.t) :
  conversationHistory u p (l ++ l')
  = conversationHistory u p l ++ conversationHistory u p l'.
Proof. unfold conversationHistory. now rewrite List.filter_app, map_app. Qed.

(** The message just asked goes out last, with the final prompt as its
    content. *)
Lemma conversationHistory_asked (u : Z) (p txt : string) (l : list Message.t) :
  conversationHistory u p (l ++ [Message.mk u user txt false])
  = conversationHistory u p l ++ [Outbound.mk user p].
Proof.
  rewrite conversationHistory_app. f_equal.
  unfold conversationHistory. cbn. now rewrite Z.eqb_refl.
Qed.


(** ** What the augmentation returns *)


(** Any call of the augmentation that throws, and a search without
    results, leave the raw prompt. *)
Lemma augment_fallback (txt : string) (e : Env) (w : World) :
  webFailure (trace (augment txt e w)) = true \/ noResults (net e (calls w)) = true ->
  outcome (augment txt e w) = Normal txt.
Proof.
  unfold webFailure, webCalls, noResults, augment. cbn.
  case_answer e (calls w); go; try reflexivity.
  destruct (results data) as [[|r rest]|]; go; try reflexivity.
  destruct (chromeToggle_checked (dom w)) eqn:Hchrome; go.
  - destruct rest as [|r2 rest]; go.
    + case_answer e (S (calls w)); go; try reflexivity.
      intros [H | H]; discriminate.
    + case_answer e (S (calls w)); go;
        case_answer e (S (S (calls w))); go; try reflexivity.
      intros [H | H]; discriminate.
  - intros [H | H]; discriminate.
Qed.

(** ** Scenario 2: shallow augmentation *)


(** ** The fallback of the augmentation *)

Lemma sentPrompt_asked (sysmsg : Outbound.t) (hist : list Outbound.t) (p : string)
    (model mode url : string) (temp : Q) (tokens : Z) :
  sentPrompt (PostChat (sysmsg :: hist ++ [Outbound.mk user p]) model mode url temp tokens)
  = Some p.
Proof. cbn. now rewrite last_cons, last_snoc. Qed.

(** C9, as amended: in a chat turn with web augmentation, the progress
    indicator is hidden at the end and exactly one chat request leaves,
    whatever the search and the page retrievals do; when one of these calls
    throws (the fetch rejects or the body cannot be parsed), or when the
    search has no results, the prompt sent is the raw input. *)
Theorem augmentation_falls_back (e : Env) (w : World) :
  accepted w ->
  imageToggle_checked (dom w) = false ->
  webToggle_checked (dom w) = true ->
  let r := handleSend e w in
  exists req,
    chatCalls (trace r) = [req] /\
    (webFailure (trace r) = true \/ noResults (net e (calls w)) = true ->
     sentPrompt req = Some (text w)) /\
    contextInfo_hidden (dom (final r)) = true.
Proof.
  intros (Ht & Hk & Hc) Hi Hweb. unfold text in *. go.
  destruct (noSession (currentSessionId (state w))) eqn:Hs; go;
    chat_turn e; sift; rewrite ?app_nil_r;
    try match goal with
        | |- context [conversationHistory ?u ?p [?m]] =>
            change (conversationHistory u p [m]) with (conversationHistory u p ([] ++ [m]))
        end;
    rewrite conversationHistory_asked;
    (eexists; split; [reflexivity|]; split; [| rewrite ?Hdom; apply Hctx; reflexivity]);
    intros Hfail;
    match type of Haug with
    | augment ?t e ?W1 = _ =>
        assert (Hp : outcome (augment t e W1) = Normal t)
          by (apply augment_fallback; rewrite Haug; exact Hfail);
        rewrite Haug in Hp; injection Hp as ->
    end;
    apply sentPrompt_asked.
Qed.

(** ** The placeholder of a turn *)

Lemma web_only_saves (t : list Event) :
  Forall (fun ev => exists b r a, ev = Call b r (Some a) /\ isWeb r = true) t ->
  saveRejected t = false.
Proof.
  induction 1 as [|ev t (b & r & a & -> & Hr) _ IH]; [easy|].
  destruct r; try discriminate; cbn; auto.
Qed.

(** The image branch appends the placeholder and nothing else, and calls
    [updateMessage] exactly once, with the id of the placeholder. *)
Lemma imageTurn_run (txt : string) (e : Env) (w : World) :
  isConnected (state w) = true ->
  let A := Message.mk (clock e (ticks w)) assistant Text.painting true in
  exists w' tail i m c,
    imageTurn txt e w = mkRun (Normal tt) w' (Appended A :: tail) /\
    appended tail = [] /\
    updates tail = [Replaced i (Message.id A) c] /\
    findMessage (Message.id A) (messages (state w) ++ [A]) = Some (i, m) /\
    messages (state w') = <[i := Message.resolve c m]> (messages (state w) ++ [A]) /\
    isThinking (state w') = false /\
    sessions (state w') = sessions (state w).
Proof.
  intros Hc. cbn zeta. unfold imageTurn. go. run_all e;
    (eexists _, _, _, _, _; split; [reflexivity|]; split; [reflexivity|];
     split; [reflexivity|]; split; [first [eassumption | reflexivity]|];
     repeat split; reflexivity).
Qed.

(** The chat branch calls [updateMessage] exactly once, with the id of
    the placeholder, unless the save of the script file is rejected. *)
Lemma chatTurn_updates (txt : string) (e : Env) (w : World) :
  isConnected (state w) = true ->
  let U := Message.mk (clock e (ticks w)) user txt false in
  let A := Message.mk (clock e (S (ticks w))) assistant Text.thinking true in
  let r := chatTurn txt e w in
  saveRejected (trace r) = false ->
  exists i m c,
    updates (trace r) = [Replaced i (Message.id A) c] /\
    findMessage (Message.id A) ((messages (state w) ++ [U]) ++ [A]) = Some (i, m) /\
    messages (state (final r))
    = <[i := Message.resolve c m]> ((messages (state w) ++ [U]) ++ [A]).
Proof.
  intros Hc. cbn zeta. unfold chatTurn. go.
  destruct (webToggle_checked (dom w)) eqn:Hweb.
  - match goal with
    | |- context [augment txt e ?w1] =>
        destruct (augment_run txt e w1) as (prompt & c & ta & Hrun & Hw)
    end.
    rewrite Hrun. destruct (web_only ta Hw) as (Hw1 & Hw2 & Hw3 & Hw4).
    pose proof (web_only_saves ta Hw) as Hw5.
    unfold updates, saveRejected in *.
    go. run_all e; rewrite ?existsb_app, ?List.filter_app, ?Hw3, ?Hw5; cbn;
      intros Hsave; try discriminate;
      (eexists _, _, _; split; [reflexivity|];
       split; [first [eassumption | reflexivity]|]; reflexivity).
  - unfold updates, saveRejected in *.
    go. run_all e; intros Hsave; try discriminate;
      (eexists _, _, _; split; [reflexivity|];
       split; [first [eassumption | reflexivity]|]; reflexivity).
Qed.

(** With a clock that never repeats, the placeholder is the message that
    [updateMessage] finds. *)
Lemma fresh_placeholder (l : list Message.t) (A : Message.t) (i : nat) (m : Message.t)
    (c : string) (final : list Message.t) :
  (forall x, In x l -> Message.id x <> Message.id A) ->
  findMessage (Message.id A) (l ++ [A]) = Some (i, m) ->
  final = <[i := Message.resolve c m]> (l ++ [A]) ->
  final !! i = Some (Message.resolve c A).
Proof.
  intros Hfresh Hfind ->. rewrite (findMessage_fresh l A Hfresh) in Hfind.
  injection Hfind as <- <-. apply list_lookup_insert_eq. rewrite length_app. cbn. lia.
Qed.

(** ** The order of a turn *)

(** C2, as amended: an accepted chat turn appends the user's message and
    then the assistant placeholder; an accepted image turn appends the
    placeholder only, and no user message. In both, when every id handed
    out in the turn is new to the transcript ([newIds]: nothing is asked
    of the readings of the clock that [createNewSession] takes) and the
    save of the script file is not rejected, [updateMessage] is called
    exactly once and replaces the placeholder. *)
Theorem turn_order (e : Env) (w : World) :
  accepted w ->
  let r := handleSend e w in
  (if imageToggle_checked (dom w)
   then exists A,
       appended (trace r) = [A] /\
       Message.role A = assistant /\ Message.isTransient A = true
   else exists U A,
       appended (trace r) = [U; A] /\
       Message.role U = user /\ Message.content U = text w /\
       Message.isTransient U = false /\
       Message.role A = assistant /\ Message.isTransient A = true) /\
  (newIds e w ->
   saveRejected (trace r) = false ->
   exists A i c,
     last (appended (trace r)) = Some A /\
     updates (trace r) = [Replaced i (Message.id A) c] /\
     messages (state (final r)) !! i = Some (Message.resolve c A)).
Proof.
  intros (Ht & Hk & Hc). unfold text in *. cbn zeta.
  destruct (imageToggle_checked (dom w)) eqn:Hi.
  - go.
    destruct (noSession (currentSessionId (state w))) eqn:Hs; go;
      match goal with
      | |- context [imageTurn ?t e ?W] =>
          destruct (imageTurn_run t e W)
            as (w' & tail & i & m & c & Hrun & Happ & Hupd & Hfind & Hmsgs & Hthink & Hsess);
          [reflexivity |]; cbn in Hrun, Hfind, Hmsgs, Hupd; rewrite Hrun
      end;
      unfold appended, updates, saveRejected in *; sift;
      (split; [eexists; repeat split; reflexivity |]);
      intros Hnew Hsave; cbv [newIds stored turnTick] in Hnew; rewrite ?Hs in Hnew;
      destruct Hnew as (Hstored & _);
      eexists _, i, c; (split; [reflexivity|]); (split; [reflexivity|]).
    + eapply (fresh_placeholder []); [| exact Hfind | reflexivity]. intros x [].
    + eapply fresh_placeholder; [| exact Hfind | reflexivity].
      intros x Hx. cbn. apply Hstored. exact Hx.
  - go.
    destruct (noSession (currentSessionId (state w))) eqn:Hs; go;
      match goal with
      | |- context [chatTurn ?t e ?W] =>
          pose proof (chatTurn_updates t e W eq_refl) as Hupd; cbn zeta in Hupd;
          destruct (chatTurn_run t e W)
            as (prompt & wa & ta & w' & tail & Haug & Hwa & Hctx & Hrun
                & Hta1 & Hta2 & Hta3 & Hta4 & Htl1 & Htl2 & Htl3 & Hdom & Hthink & Hrec);
          [reflexivity |]; cbn in Hrun; rewrite Hrun in Hupd |- *
      end;
      cbn [trace final] in Hupd; revert Hupd;
      unfold appended, updates, saveRejected in *; sift; intros Hupd;
      (split; [eexists _, _; repeat split; reflexivity |]);
      intros Hnew Hsave; cbv [newIds stored turnTick] in Hnew; rewrite ?Hs in Hnew;
      destruct Hnew as (_ & Hnew); destruct (Hnew Hi) as (Hdiff & Hstored);
      destruct (Hupd Hsave) as (i & m & c & Hu & Hfind & Hmsgs);
      eexists _, i, c; (split; [reflexivity|]); (split; [exact Hu|]).
    + eapply (fresh_placeholder [_]); [| exact Hfind | exact Hmsgs].
      intros x [<- | []]. cbn. intros Heq. apply Hdiff. symmetry. exact Heq.
    + eapply (fresh_placeholder (_ ++ [_])); [| exact Hfind | exact Hmsgs].
      intros x Hx. apply in_app_or in Hx. destruct Hx as [Hx | [<- | []]]; cbn.
      * apply Hstored. exact Hx.
      * intros Heq. apply Hdiff. symmetry. exact Heq.
Qed.

(** ** Recording a turn *)

Lemma last_behind {A : Type} (l1 l2 : list A) (x : A) :
  last l2 = Some x -> last (l1 ++ l2) = Some x.
Proof. intros H. rewrite last_app, H. reflexivity. Qed.

Lemma findSession_bound (cur : option string) (l : list Session.t) (i : nat) (s : Session.t) :
  findSession cur l = Some (i, s) -> (i < length l)%nat.
Proof.
  unfold findSession. intros H. apply list_find_Some in H. destruct H as (H & _).
  eapply lookup_lt_Some. exact H.
Qed.

(** The chat branch ends every turn, whatever its outcome, with the gate
    reopened and, when the selected session is in the registry, with the
    transcript copied into it, the default title rewritten, and the
    registry sent to the bridge. *)
Lemma chat_turn_recorded (e : Env) (w : World) :
  accepted w ->
  imageToggle_checked (dom w) = false ->
  let w0 := final (openTurn e w) in
  let r := handleSend e w in
  let s' := state (final r) in
  isThinking s' = false /\
  forall i session,
    findSession (currentSessionId (state w0)) (sessions (state w0)) = Some (i, session) ->
    sessions s' !! i
    = Some (Session.mk (Session.id session) (retitled session (messages s'))
              (Session.timestamp session) (messages s')) /\
    last (trace r) = Some (Call (backendUrl (state w)) (PostSessions (sessions s')) None).
Proof.
  intros (Ht & Hk & Hc) Hi. unfold text in *. cbn zeta. go.
  destruct (noSession (currentSessionId (state w))) eqn:Hs; go;
    chat_turn e; cbn; (split; [exact Hthink|]);
    intros i session Hfound; cbn in Hrec; rewrite Hfound in Hrec;
    destruct Hrec as (Hsessions & Hlast);
    (split;
     [ rewrite Hsessions; apply list_lookup_insert_eq; eapply findSession_bound; exact Hfound
     | repeat (rewrite last_cons || rewrite last_app); rewrite Hlast; reflexivity ]).
Qed.

(** ** Transcript ids *)

Lemma insert_last {A : Type} (l : list A) (x y : A) : <[length l := y]> (l ++ [x]) = l ++ [y].
Proof. rewrite insert_app_r_alt by lia. now rewrite Nat.sub_diag. Qed.

(** When the clock reading is not an id of the transcript, [addMessage]
    keeps the ids distinct. *)
Lemma addMessage_distinct (role0 : Role) (c : string) (t : bool) (e : Env) (w : World) :
  NoDup (map Message.id (messages (state w))) ->
  ~ In (clock e (ticks w)) (map Message.id (messages (state w))) ->
  NoDup (map Message.id (messages (state (final (addMessage role0 c t e w))))).
Proof.
  intros Hnd Hfresh. cbn. rewrite map_app. cbn.
  apply NoDup_app. repeat split.
  - exact Hnd.
  - intros x Hx Hin. apply list_elem_of_In in Hx, Hin. cbn in Hin.
    destruct Hin as [<- | []]. contradiction.
  - apply NoDup_singleton.
Qed.

(** X28: when the clock reading is not an id of the transcript, an update
    with the id that [addMessage] returned gives exactly one message with
    that id: the appended one, with the new content and no longer
    transient. *)
Lemma append_then_update (role0 : Role) (c c' : string) (t : bool) (e : Env) (w : World) :
  (forall x, In x (messages (state w)) -> Message.id x <> clock e (ticks w)) ->
  let r := (id <- addMessage role0 c t ;; updateMessage id c') e w in
  let m' := Message.mk (clock e (ticks w)) role0 c' false in
  messages (state (final r)) = messages (state w) ++ [m'] /\
  List.filter (fun m => (Message.id m =? clock e (ticks w))%Z) (messages (state (final r)))
  = [m'].
Proof.
  intros Hfresh. cbn zeta. go.
  pose proof (findMessage_fresh (messages (state w))
                (Message.mk (clock e (ticks w)) role0 c t) Hfresh) as Hf.
  cbn in Hf. go. rewrite insert_last. split; [reflexivity|].
  rewrite List.filter_app. cbn. rewrite Z.eqb_refl.
  replace (List.filter _ (messages (state w))) with (@nil Message.t); [reflexivity|].
  symmetry. clear Hf. induction (messages (state w)) as [|x l IH]; [reflexivity|]. cbn.
  destruct (Z.eqb_spec (Message.id x) (clock e (ticks w))) as [Heq | _].
  - exfalso. eapply Hfresh; [left; reflexivity | exact Heq].
  - apply IH. intros y Hy. apply Hfresh. right. exact Hy.
Qed.

(** ** Session ids *)

(** Two clock readings with the same decimal rendering are equal. *)
Lemma toString_inj (a b : Z) : JS.toString a = JS.toString b -> a = b.
Proof.
  unfold JS.toString. intros H.
  assert (Hnn : forall z, Z.to_int z <> Decimal.Pos Decimal.Nil /\
                          Z.to_int z <> Decimal.Neg Decimal.Nil).
  { intros [|p|p]; cbn; split; try discriminate; intros [= Hp];
      eapply Unsigned.to_uint_nonnil; exact Hp. }
  assert (Hi : forall z, NilZero.int_of_string (NilZero.string_of_int (Z.to_int z))
                         = Some (Z.to_int z)).
  { intros z. destruct (Hnn z). now apply NilZero.isi. }
  pose proof (Hi a) as Ha. rewrite H, Hi in Ha. injection Ha as Ha.
  rewrite <- (DecimalZ.of_to a), <- (DecimalZ.of_to b). now rewrite Ha.
Qed.

Arguments created : simpl never.

Lemma created_shift (e : Env) (t0 j : nat) :
  created e t0 (S j) = created e (S (S t0)) j.
Proof.
  unfold created.
  replace (t0 + 2 * S j)%nat with (S (S t0) + 2 * j)%nat by lia.
  reflexivity.
Qed.

(** The registry after [n] calls of [createNewSession()]: the sessions
    made, the latest first, in front of the ones that were there. *)
Lemma creates_registry (n : nat) (e : Env) (w : World) :
  let r := creates n e w in
  sessions (state (final r))
  = rev (map (created e (ticks w)) (seq 0 n)) ++ sessions (state w) /\
  ticks (final r) = (ticks w + 2 * n)%nat /\
  currentSessionId (state (final r))
  = match n with
    | O => currentSessionId (state w)
    | S k => Some (Session.id (created e (ticks w) k))
    end.
Proof.
  revert w. induction n as [|n IH]; intros w; cbn zeta.
  - cbn. repeat split. lia.
  - cbn [creates]. cbn [bind createNewSession]. cbn.
    assert (H0 : created e (ticks w) 0
                 = Session.mk (JS.toString (clock e (ticks w))) "New Session"
                     (clock e (S (ticks w))) []).
    { unfold created. replace (ticks w + 2 * 0)%nat with (ticks w) by lia.
      replace (ticks w + 1)%nat with (S (ticks w)) by lia. reflexivity. }
    destruct (isConnected (state w)); cbn;
      match goal with
      | |- context [creates n e ?w1] =>
          pose proof (IH w1) as IH1; cbn zeta in IH1;
          destruct (creates n e w1) as [o w2 t2]
      end;
      cbn [final state ticks sessions currentSessionId] in IH1 |- *;
      destruct IH1 as (Hs & Ht & Hc); rewrite Hs, Ht, Hc;
      (split; [| split; [lia|]]).
    all: try (rewrite <- app_assoc; cbn [app]; rewrite H0;
              rewrite <- seq_shift, map_map;
              f_equal; f_equal; apply map_ext; intros j; symmetry; apply created_shift).
    all: destruct n as [|k]; [rewrite H0; reflexivity | now rewrite created_shift].
Qed.

(** X27: after every call of [createNewSession()] the session just made
    is the first of the registry, and it is the selected one, also when
    ids repeat. *)
Lemma creates_newest_first (n : nat) (e : Env) (w : World) :
  let r := creates (S n) e w in
  exists rest,
    sessions (state (final r)) = created e (ticks w) n :: rest /\
    currentSessionId (state (final r)) = Some (Session.id (created e (ticks w) n)).
Proof.
  destruct (creates_registry (S n) e w) as (Hs & _ & Hc). cbn zeta.
  rewrite Hs, Hc.
  rewrite seq_S, map_app, rev_app_distr. cbn [map rev app Nat.add].
  eexists. split; reflexivity.
Qed.

(** X26: session ids are distinct when the clock readings taken for them
    are, and none renders as an id already in the registry. *)
Lemma creates_distinct (n : nat) (e : Env) (w : World) :
  NoDup (map Session.id (sessions (state w))) ->
  (forall j k, (j < n)%nat -> (k < n)%nat ->
     clock e (ticks w + 2 * j) = clock e (ticks w + 2 * k) -> j = k) ->
  (forall j, (j < n)%nat ->
     ~ In (JS.toString (clock e (ticks w + 2 * j))) (map Session.id (sessions (state w)))) ->
  NoDup (map Session.id (sessions (state (final (creates n e w))))).
Proof.
  intros Hnd Hinj Hnew.
  destruct (creates_registry n e w) as (Hs & _ & _). cbn zeta in Hs. rewrite Hs.
  rewrite map_app, map_rev, map_map. apply NoDup_app. repeat split.
  - apply NoDup_ListNoDup, List.NoDup_rev, NoDup_map_NoDup_ForallPairs.
    + intros j k Hj Hk Heq. apply in_seq in Hj, Hk. cbn in Heq.
      apply toString_inj in Heq. apply Hinj; [lia | lia | exact Heq].
    + apply seq_NoDup.
  - intros x Hx Hin. apply list_elem_of_In in Hx, Hin. apply in_rev in Hx.
    apply in_map_iff in Hx. destruct Hx as (j & <- & Hj). apply in_seq in Hj.
    eapply Hnew; [| exact Hin]. lia.
  - exact Hnd.
Qed.

(** ** The properties on concrete turns *)

Lemma accepted_run (w : World) :
  JS.truthy (text w) = true -> isThinking (state w) = false -> isConnected (state w) = true ->
  accepted w.
Proof. intros. repeat split; assumption. Qed.

(** C1: an image turn that succeeds. The gate is reopened and the
    transcript holds the image message, but the selected session is left
    as it was (no messages, default title) and no request goes to
    [/sessions]: the image branch returns without the session step that
    the chat branch ends with (lemma [chat_turn_recorded]). *)
Theorem image_turn_not_recorded :
  let w := Scenario.imageWorld in
  let r := handleSend Scenario.imageEnv w in
  accepted w /\
  imageToggle_checked (dom w) = true /\
  isThinking (state (final r)) = false /\
  messages (state (final r))
  = [Message.mk 1700000000000 assistant
       (Text.imageDone (Some "out/cat.png") None "a cat") false] /\
  sessions (state (final r)) = [Scenario.session0] /\
  Session.messages Scenario.session0 = [] /\
  requests (trace r)
  = [PostGenerateImage "a cat" EmptyString "D:/images"; GetImageSubfolders "D:/images"].
Proof. vm_compute. repeat split; reflexivity. Qed.

(** C2, counterexample: an accepted image turn appends the assistant
    placeholder and no user message. *)
Lemma image_turn_appends_no_user_message :
  let w := Scenario.imageWorld in
  let r := handleSend Scenario.imageEnv w in
  accepted w /\
  appended (trace r) = [Message.mk 1700000000000 assistant Text.painting true] /\
  Forall (fun m => Message.role m <> user) (appended (trace r)).
Proof.
  vm_compute. repeat split; try reflexivity. repeat constructor. discriminate.
Qed.

(** C3: a chat turn whose two [addMessage] calls fall in the same
    millisecond. Both messages get the same id; the reply is written over
    the user's message (the first with that id) and the placeholder stays
    transient. *)
Theorem same_ms_ids_collide :
  let w := Scenario.helloWorld in
  let r := handleSend Scenario.helloSameMs w in
  accepted w /\
  appended (trace r)
  = [Message.mk 1700000000000 user "Hello" false;
     Message.mk 1700000000000 assistant Text.thinking true] /\
  updates (trace r) = [Replaced 0 1700000000000 "Hi there"] /\
  messages (state (final r))
  = [Message.mk 1700000000000 user "Hi there" false;
     Message.mk 1700000000000 assistant Text.thinking true] /\
  ~ NoDup (map Message.id (messages (state (final r)))).
Proof.
  vm_compute. repeat split; try reflexivity.
  intros H. apply NoDup_cons in H. destruct H as [H _]. apply H. left.
Qed.

(** C4: two calls of [createNewSession()] in the same millisecond make two
    sessions with the same id. *)
Theorem same_ms_session_ids_collide :
  let e := mkEnv Scenario.sameMs (Scenario.always (Rejected "unused")) in
  let r := creates 2 e Scenario.blankWorld in
  map Session.id (sessions (state (final r))) = ["1700000000000"; "1700000000000"] /\
  ~ NoDup (map Session.id (sessions (state (final r)))).
Proof.
  vm_compute. split; [reflexivity|].
  intros H. apply NoDup_cons in H. destruct H as [H _]. apply H. left.
Qed.

(** C6, counterexample: empty input while the bridge is disconnected.
    The dispatch is rejected, and the help panel stays hidden. *)
Lemma no_prompt_for_empty_input :
  let w := Scenario.emptyOffline in
  let r := handleSend Scenario.helloEnv w in
  isConnected (state w) = false /\
  helpPanel_hidden (dom w) = true /\
  final r = w /\
  helpPanel_hidden (dom (final r)) = true.
Proof. vm_compute. repeat split; reflexivity. Qed.

(** C8: script mode with an output file, and a reply whose fenced block
    is empty. The pattern finds the block and captures the empty body, yet
    the whole reply, fences included, is what goes to [/save-file]. *)
Theorem empty_fence_saves_whole_reply :
  let w := Scenario.scriptWorld in
  let r := handleSend Scenario.emptyFenceEnv w in
  accepted w /\
  Regex.exec Regex.fence Scenario.emptyFence = Some (Some EmptyString) /\
  saveCalls (trace r) = [PostSaveFile "script.lua" Scenario.emptyFence] /\
  Scenario.emptyFence <> EmptyString.
Proof. vm_compute. repeat split; try reflexivity. discriminate. Qed.

(** Scenario 4 of the specification holds: the fenced block only. *)
Example scenario_4_saves_fenced_block :
  saveCalls (trace (handleSend Scenario.luaEnv Scenario.scriptWorld))
  = [PostSaveFile "script.lua" ("print(1)" +:+ JS.nl)].
Proof. vm_compute. reflexivity. Qed.

(** C9, counterexample: deep mode, one search result, and a page
    retrieval that fails with HTTP 500 and a body without [content]. The
    prompt sent is not the raw input: it is augmented with the title of the
    result and an empty content. *)
Lemma scrape_error_still_augments :
  let w := Scenario.weatherWorld true in
  let r := handleSend Scenario.scrape500 w in
  accepted w /\
  webCalls (trace r)
  = [Scenario.okBody (Scenario.searchReply [Scenario.wx]); Resolved 500 (Parsed emptyBody)] /\
  map sentPrompt (chatCalls (trace r))
  = [Some ("Context:" +:+ JS.nl +:+ "Source: WX" +:+ JS.nl +:+ "Content: "
           +:+ JS.nl +:+ JS.nl +:+ "Task: weather today")] /\
  map sentPrompt (chatCalls (trace r)) <> [Some (text w)].
Proof. vm_compute. repeat split; try reflexivity. discriminate. Qed.

(** ** The theorems at work *)

(** [turn_order] on a first prompt: the session is made within one
    millisecond, so the clock gives the same reading twice, and the ids of
    the two messages are new all the same. *)
Lemma turn_order_witness :
  let w := Sample.firstWorld in
  let e := Sample.firstEnv in
  let r := handleSend e w in
  accepted w /\
  clock e 0 = clock e 1 /\
  newIds e w /\
  saveRejected (trace r) = false /\
  exists A i c,
    last (appended (trace r)) = Some A /\
    updates (trace r) = [Replaced i (Message.id A) c] /\
    messages (state (final r)) !! i = Some (Message.resolve c A).
Proof.
  assert (Ha : accepted Sample.firstWorld) by (apply accepted_run; reflexivity).
  assert (Hn : newIds Sample.firstEnv Sample.firstWorld).
  { split; [intros m []|]. intros _. split; [|intros m []]. vm_compute. discriminate. }
  assert (Hs : saveRejected (trace (handleSend Sample.firstEnv Sample.firstWorld)) = false)
    by (vm_compute; reflexivity).
  split; [exact Ha|]. split; [reflexivity|]. split; [exact Hn|]. split; [exact Hs|].
  exact (proj2 (turn_order Sample.firstEnv Sample.firstWorld Ha) Hn Hs).
Defined.

(** An input made of a no-break space is empty once trimmed: the
    dispatcher returns without a word, connected or not. *)
Example no_break_space_is_blank :
  JS.trim Sample.nbsp = EmptyString /\
  (forall connected,
     let w := Sample.nbspWorld connected in
     let r := handleSend Scenario.helloEnv w in
     final r = w /\ trace r = []).
Proof. split; [reflexivity|]. intros []; split; reflexivity. Qed.

(** [handleSend_rejects]: an input while the bridge is disconnected. *)
Lemma handleSend_rejects_witness :
  let w := Scenario.hiOffline in
  let r := handleSend Scenario.helloEnv w in
  isConnected (state w) = false /\
  trace r = [] /\
  state (final r) = state w /\
  dom (final r) = set_helpPanel_hidden false (dom w).
Proof.
  destruct (handleSend_rejects Scenario.helloEnv Scenario.hiOffline
              (or_intror (or_intror eq_refl))) as (Ht & Hs & _ & Hd).
  split; [reflexivity|]. split; [exact Ht|]. split; [exact Hs|].
  apply Hd; reflexivity.
Defined.



(** [augmentation_falls_back]: the search cannot reach the bridge. *)
Lemma augmentation_falls_back_witness :
  let w := Scenario.weatherWorld false in
  let r := handleSend Scenario.searchDown w in
  accepted w /\
  webFailure (trace r) = true /\
  exists req,
    chatCalls (trace r) = [req] /\
    sentPrompt req = Some "weather today" /\
    contextInfo_hidden (dom (final r)) = true.
Proof.
  assert (Ha : accepted (Scenario.weatherWorld false)) by (apply accepted_run; reflexivity).
  assert (Hf : webFailure (trace (handleSend Scenario.searchDown (Scenario.weatherWorld false)))
               = true) by (vm_compute; reflexivity).
  split; [exact Ha|]. split; [exact Hf|].
  destruct (augmentation_falls_back Scenario.searchDown (Scenario.weatherWorld false)
              Ha eq_refl eq_refl) as (req & Hreq & Hprompt & Hctx).
  exists req. split; [exact Hreq|]. split; [|exact Hctx].
  apply Hprompt. left. exact Hf.
Defined.


(** * Further properties: whole turns, the registry, the handlers around
    the dispatcher *)

(** ** The end of a turn *)

Lemma sessionPosts_app (t t' : list Event) :
  sessionPosts (t ++ t') = sessionPosts t ++ sessionPosts t'.
Proof. unfold sessionPosts. apply omap_app. Qed.

Lemma web_only_posts (t : list Event) :
  Forall (fun ev => exists b r a, ev = Call b r (Some a) /\ isWeb r = true) t ->
  sessionPosts t = [] /\ imageCalls t = [].
Proof.
  induction 1 as [|ev t (b & r & a & -> & Hr) _ (IH1 & IH2)]; [easy|].
  destruct r; try discriminate; cbn; auto.
Qed.

(** The last three parts of [chatTurn_end], once the way the chat call
    ended is known. *)
Ltac verdict e :=
  match goal with
  | H : net e ?k = _ |- _ =>
      cbn [calls]; unfold turnVerdict, savePlan, chatVerdict; rewrite H; cbn;
      repeat hyp_rewrite; cbn;
      split; [reflexivity |];
      split; [rewrite ?app_nil_r; reflexivity |];
      reflexivity
  end.

(** Where a chat turn ends: nothing is thrown; of the state only the
    transcript, the gate and the registry change; the transcript is the
    stored one with the user's message and the placeholder, the latter
    resolved; the requests are those of the augmentation, the chat
    request, the save of the script file if the settings and the answer
    ask for it, and the registry if the selected session is in it. *)
Lemma chatTurn_end (txt : string) (e : Env) (w : World) :
  isConnected (state w) = true ->
  let U := Message.mk (clock e (ticks w)) user txt false in
  let A := Message.mk (clock e (S (ticks w))) assistant Text.thinking true in
  let w1 := mkWorld (set_messages (messages (state w) ++ [U]) (state w)) (dom w)
              (S (ticks w)) (calls w) in
  let r := chatTurn txt e w in
  let s := state w in
  exists i m c prompt wa ta,
    (if webToggle_checked (dom w) then augment txt else ret txt) e w1
      = mkRun (Normal prompt) wa ta /\
    outcome r = Normal tt /\
    findMessage (Message.id A) ((messages s ++ [U]) ++ [A]) = Some (i, m) /\
    state (final r)
    = set_sessions (sessions (state (final r)))
        (set_messages (<[i := Message.resolve c m]> ((messages s ++ [U]) ++ [A]))
           (set_isThinking false s)) /\
    dom (final r)
    = set_sendBtn_disabled false
        (if webToggle_checked (dom w) then set_contextInfo_hidden true (dom w) else dom w) /\
    ticks (final r) = S (S (ticks w)) /\
    sessions (state (final r))
    = match findSession (currentSessionId s) (sessions s) with
      | Some (j, session) =>
          <[j := Session.mk (Session.id session)
                   (retitled session (messages (state (final r))))
                   (Session.timestamp session) (messages (state (final r)))]>
            (sessions s)
      | None => sessions s
      end /\
    sessionPosts (trace r)
    = (if listed s then [sessions (state (final r))] else []) /\
    imageCalls (trace r) = [] /\
    saveCalls (trace r) = savePlan s (net e (calls wa)) /\
    requests (trace r)
    = requests ta
      ++ PostChat
           (Outbound.mk system (Text.sys s)
            :: conversationHistory (Message.id U) prompt (messages s ++ [U]))
           (JS.or (modelId s) "llama3") (inferenceMode s) (ollamaUrl s)
           (temperature s) (maxTokens s)
         :: savePlan s (net e (calls wa))
      ++ (if listed s then [PostSessions (sessions (state (final r)))] else []) /\
    c = turnVerdict s (net e (calls wa)) (net e (S (calls wa))).
Proof.
  intros Hc. cbn zeta. unfold chatTurn, listed. go.
  destruct (webToggle_checked (dom w)) eqn:Hweb.
  - match goal with
    | |- context [augment txt e ?w1] =>
        destruct (augment_run txt e w1) as (prompt & c & ta & Hrun & Hw)
    end.
    rewrite Hrun. destruct (web_only_posts ta Hw) as (Hw1 & Hw2).
    destruct (web_only ta Hw) as (_ & _ & _ & Hw4).
    unfold sessionPosts, imageCalls, saveCalls, requests in *.
    go. run_all e; rewrite ?omap_app, ?Hw1, ?Hw2, ?Hw4; cbn;
      rewrite ?list_insert_insert_eq;
      (eexists _, _, _, _, _, _; split; [reflexivity|]; split; [reflexivity|];
       split; [first [eassumption | reflexivity]|];
       split; [reflexivity|]; split; [reflexivity|]; split; [reflexivity|];
       split; [reflexivity|]; split; [reflexivity|]; split; [reflexivity|];
       verdict e).
  - unfold sessionPosts, imageCalls, saveCalls, requests in *.
    go. run_all e; cbn; rewrite ?list_insert_insert_eq;
      (eexists _, _, _, _, _, _; split; [reflexivity|]; split; [reflexivity|];
       split; [first [eassumption | reflexivity]|];
       split; [reflexivity|]; split; [reflexivity|]; split; [reflexivity|];
       split; [reflexivity|]; split; [reflexivity|]; split; [reflexivity|];
       verdict e).
Qed.

(** Where an image turn ends: nothing is thrown; of the state only the
    transcript, the gate and (through the lazy load) the image model id
    change; the calls are the generation, and after a 400 with a model id
    configured one load and one more generation; the placeholder takes
    the text that the generation call looked at last decides. *)
Lemma imageTurn_end (txt : string) (e : Env) (w : World) :
  isConnected (state w) = true ->
  let A := Message.mk (clock e (ticks w)) assistant Text.painting true in
  let s := state w in
  let generate := PostGenerateImage txt (imageSubfolder s) (imageModelsPath s) in
  let load := PostLoadImageModel (imageModelId s) (imageModelsPath s) in
  let a0 := net e (calls w) in
  let a1 := net e (S (calls w)) in
  let a2 := net e (S (S (calls w))) in
  let r := imageTurn txt e w in
  exists i m,
    outcome r = Normal tt /\
    findMessage (Message.id A) (messages s ++ [A]) = Some (i, m) /\
    state (final r)
    = set_imageModelId (if lazyLoad s a0 then loadedModel s a1 else imageModelId s)
        (set_messages
           (<[i := Message.resolve (imageVerdict txt (if lazyLoad s a0 then a2 else a0)) m]>
              (messages s ++ [A]))
           (set_isThinking false s)) /\
    (dom (final r) = set_sendBtn_disabled false (dom w) \/
     dom (final r) = set_sendBtn_disabled false (set_input_value EmptyString (dom w))) /\
    ticks (final r) = S (ticks w) /\
    imageCalls (trace r)
    = (if lazyLoad s a0
       then [(generate, Some a0); (load, Some a1); (generate, Some a2)]
       else [(generate, Some a0)]) /\
    sessionPosts (trace r) = [] /\ chatCalls (trace r) = [] /\
    webCalls (trace r) = [] /\ saveCalls (trace r) = [].
Proof.
  intros Hc. cbn zeta. unfold imageTurn. go. run_all e;
    unfold lazyLoad, loadedModel, imageVerdict; go;
    (eexists _, _; split; [reflexivity|]; split; [first [eassumption | reflexivity]|];
     split; [reflexivity|]; split; [first [left; reflexivity | right; reflexivity]|];
     repeat split; reflexivity).
Qed.

(** ** A turn from the gate to its end *)

(** The opening of a turn: a session is made if none is selected, the
    input is cleared and the gate closed; the registry is posted when a
    session was made. *)
Lemma openTurn_run (e : Env) (w : World) :
  let o := openTurn e w in
  let new := Session.mk (JS.toString (clock e (ticks w))) "New Session"
               (clock e (S (ticks w))) [] in
  let s := state w in
  outcome o = Normal tt /\
  state (final o)
  = set_isThinking true
      (if noSession (currentSessionId s)
       then set_messages [] (set_currentSessionId (Some (Session.id new))
              (set_sessions (new :: sessions s) s))
       else s) /\
  dom (final o) = set_sendBtn_disabled true (set_input_value EmptyString (dom w)) /\
  ticks (final o) = (if noSession (currentSessionId s) then S (S (ticks w)) else ticks w) /\
  calls (final o) = calls w /\
  trace o
  = (if noSession (currentSessionId s) && isConnected s
     then [Call (backendUrl s) (PostSessions (new :: sessions s)) None]
     else []).
Proof.
  cbn zeta. go. destruct (noSession (currentSessionId (state w))); go.
  - destruct (isConnected (state w)); go; repeat split; reflexivity.
  - repeat split; reflexivity.
Qed.

(** An accepted turn is the opening and then the branch the image toggle
    selects, run on the trimmed input. *)
Lemma handleSend_open (e : Env) (w : World) :
  accepted w ->
  let o := openTurn e w in
  let b := (if imageToggle_checked (dom w) then imageTurn (text w) else chatTurn (text w))
             e (final o) in
  isConnected (state (final o)) = true /\
  handleSend e w = mkRun (outcome b) (final b) (trace o ++ trace b).
Proof.
  intros (Ht & Hk & Hc). unfold text in *. cbn zeta. go.
  destruct (noSession (currentSessionId (state w))); go;
    (split; [reflexivity|]);
    destruct (imageToggle_checked (dom w)); go;
    match goal with
    | |- context [imageTurn ?t e ?W] => destruct (imageTurn t e W) as [[] ? ?]
    | |- context [chatTurn ?t e ?W] => destruct (chatTurn t e W) as [[] ? ?]
    end; reflexivity.
Qed.

Lemma accepted_or_refused (w : World) : accepted w \/ refused w.
Proof.
  unfold accepted, refused.
  destruct (JS.truthy (text w)), (isThinking (state w)), (isConnected (state w)); auto.
Qed.

(** A refused input: nothing is thrown, nothing leaves, the state stays. *)
Lemma handleSend_refused (e : Env) (w : World) :
  refused w ->
  let r := handleSend e w in
  outcome r = Normal tt /\ state (final r) = state w /\ trace r = [] /\
  ticks (final r) = ticks w /\ calls (final r) = calls w.
Proof.
  unfold refused, text. intros H. cbn zeta. cbn.
  destruct (JS.truthy (JS.trim (input_value (dom w)))) eqn:Ht;
    destruct (isThinking (state w)) eqn:Hk; cbn; try (repeat split; reflexivity).
  destruct (isConnected (state w)) eqn:Hc; cbn; [|repeat split; reflexivity].
  exfalso. destruct H as [H | [H | H]]; congruence.
Qed.

(** ** The gate at the end of a turn *)

(** X1: [handleSend] never lets an error of the bridge escape, and it
    never leaves the gate closed: whatever the clock and the bridge do,
    the run ends normally with [isThinking] as it found it. After an
    accepted turn the send button is enabled and the input is empty. *)
Theorem handleSend_settles (e : Env) (w : World) :
  let r := handleSend e w in
  outcome r = Normal tt /\
  isThinking (state (final r)) = isThinking (state w) /\
  (accepted w ->
   sendBtn_disabled (dom (final r)) = false /\ input_value (dom (final r)) = EmptyString).
Proof.
  cbn zeta. destruct (accepted_or_refused w) as [Ha | Hr].
  - destruct (handleSend_open e w Ha) as (Hc & ->).
    destruct (openTurn_run e w) as (_ & Hs & Hd & _).
    destruct Ha as (Ht & Hk & Hconn). rewrite Hk. cbn [outcome final].
    destruct (imageToggle_checked (dom w)).
    + destruct (imageTurn_end (text w) e (final (openTurn e w)) Hc)
        as (i & m & Ho & _ & Hst & Hdom & _).
      cbn zeta in *. rewrite Ho, Hst. split; [reflexivity|]. split; [reflexivity|].
      intros _. destruct Hdom as [-> | ->]; rewrite ?Hd; split; reflexivity.
    + destruct (chatTurn_end (text w) e (final (openTurn e w)) Hc)
        as (i & m & c & prompt & wa & ta & _ & Ho & _ & Hst & Hdom & _).
      cbn zeta in *. rewrite Ho, Hst, Hdom, Hd. split; [reflexivity|]. split; [reflexivity|].
      intros _. cbn. destruct (webToggle_checked (dom w)); split; reflexivity.
  - destruct (handleSend_refused e w Hr) as (Ho & Hs & _). cbn zeta in *.
    rewrite Ho, Hs. split; [reflexivity|]. split; [reflexivity|].
    intros (Ht & Hk & Hc). exfalso. destruct Hr as [H | [H | H]]; congruence.
Qed.

(** ** White space *)

Lemma trimStart_blank (s : string) :
  every JS.isSpace s = true -> JS.trimStart s = EmptyString.
Proof.
  induction s as [|c t IH]; [reflexivity|]. cbn [JS.trimStart every].
  destruct (JS.isSpace c); [exact IH | discriminate].
Qed.

(** X2: white space is no input. When the input holds nothing but
    blanks, tabs and line breaks, [handleSend] returns at once, with the
    world as it was and without any event, also when the bridge is
    connected and no turn is in flight. *)
Theorem blank_input_ignored (e : Env) (w : World) :
  every JS.isSpace (input_value (dom w)) = true ->
  handleSend e w = mkRun (Normal tt) w [].
Proof.
  intros H. unfold handleSend. cbn.
  unfold JS.trim. rewrite (trimStart_blank _ H). cbn. destruct w; reflexivity.
Qed.

(** ** The selected session and the registry *)

(** The decimal rendering of a clock reading is never empty. *)
Lemma toString_truthy (z : Z) : JS.truthy (JS.toString z) = true.
Proof.
  unfold JS.toString, NilZero.string_of_int.
  destruct (Z.to_int z) as [d | d]; [|reflexivity].
  destruct d; reflexivity.
Qed.

Lemma findSession_head (x : Session.t) (l : list Session.t) :
  findSession (Some (Session.id x)) (x :: l) = Some (0%nat, x).
Proof. unfold findSession. cbn. rewrite decide_True by reflexivity. reflexivity. Qed.

Lemma findSession_insert (cur : option string) (l : list Session.t) (j : nat)
    (x y : Session.t) :
  findSession cur l = Some (j, x) ->
  Session.id y = Session.id x ->
  findSession cur (<[j := y]> l) = Some (j, y).
Proof.
  unfold findSession. intros H Hid. apply list_find_Some in H. destruct H as (Hj & Hx & Hbefore).
  apply list_find_Some. repeat split.
  - apply list_lookup_insert_eq. eapply lookup_lt_Some. exact Hj.
  - rewrite Hid. exact Hx.
  - intros k z Hz Hk. rewrite list_lookup_insert_ne in Hz by lia. eapply Hbefore; eassumption.
Qed.

Lemma findSession_selected (cur : option string) (l : list Session.t) (j : nat)
    (x : Session.t) :
  findSession cur l = Some (j, x) -> cur = Some (Session.id x) /\ l !! j = Some x.
Proof.
  unfold findSession. intros H. apply list_find_Some in H. destruct H as (Hj & Hx & _).
  split; [symmetry; exact Hx | exact Hj].
Qed.

(** Once the turn is opened a session is selected. *)
Lemma openTurn_selects_id (e : Env) (w : World) :
  noSession (currentSessionId (state (final (openTurn e w)))) = false.
Proof.
  destruct (openTurn_run e w) as (_ & -> & _). cbn zeta.
  destruct (noSession (currentSessionId (state w))) eqn:Hn; cbn; [|exact Hn].
  now rewrite toString_truthy.
Qed.

(** Once the turn is opened a session is selected, and it is in the
    registry if the selection was kept before. *)
Lemma openTurn_selects (e : Env) (w : World) :
  selectionKept (state w) ->
  let s0 := state (final (openTurn e w)) in
  noSession (currentSessionId s0) = false /\ listed s0 = true /\
  length (sessions s0)
  = (length (sessions (state w))
     + if noSession (currentSessionId (state w)) then 1 else 0)%nat.
Proof.
  intros Hinv. cbn zeta. destruct (openTurn_run e w) as (_ & -> & _). cbn zeta.
  destruct (noSession (currentSessionId (state w))) eqn:Hn; cbn.
  - rewrite toString_truthy. split; [reflexivity|]. split; [|lia].
    unfold listed. cbn.
    match goal with
    | |- context [findSession (Some ?i) (?x :: ?l)] =>
        change (findSession (Some i) (x :: l)) with (findSession (Some (Session.id x)) (x :: l))
    end.
    rewrite findSession_head. reflexivity.
  - split; [exact Hn|]. split; [|lia]. unfold listed in *. cbn. apply Hinv. exact Hn.
Qed.

(** X3: the selection is never left dangling by a turn. If no session is
    selected or the selected one is in the registry, the same holds after
    [handleSend], whatever the bridge answers; after an accepted turn a
    session is selected and it is in the registry, and the registry has
    grown by one session exactly when none was selected before. *)
Theorem selection_kept (e : Env) (w : World) :
  selectionKept (state w) ->
  let s' := state (final (handleSend e w)) in
  selectionKept s' /\
  (accepted w ->
   noSession (currentSessionId s') = false /\ listed s' = true /\
   length (sessions s')
   = (length (sessions (state w))
      + if noSession (currentSessionId (state w)) then 1 else 0)%nat).
Proof.
  intros Hinv. cbn zeta. destruct (accepted_or_refused w) as [Ha | Hr].
  - assert (Hgoal : let s' := state (final (handleSend e w)) in
              noSession (currentSessionId s') = false /\ listed s' = true /\
              length (sessions s')
              = (length (sessions (state w))
                 + if noSession (currentSessionId (state w)) then 1 else 0)%nat).
    { cbn zeta. destruct (handleSend_open e w Ha) as (Hc & ->). cbn [final].
      destruct (openTurn_selects e w Hinv) as (Hsel & Hlist & Hlen). cbn zeta in *.
      set (w0 := final (openTurn e w)) in *. clearbody w0.
      set (txt := text w) in *. clearbody txt.
      destruct (imageToggle_checked (dom w)).
      - destruct (imageTurn_end txt e w0 Hc)
          as (i & m & _ & _ & Hst & _).
        cbn zeta in Hst. rewrite Hst. unfold listed in *. cbn.
        split; [exact Hsel|]. split; [exact Hlist | exact Hlen].
      - destruct (chatTurn_end txt e w0 Hc)
          as (i & m & c & prompt & wa & ta & _ & _ & _ & Hst & _ & _ & Hsess & _).
        cbn zeta in Hst, Hsess. rewrite Hst, Hsess. unfold listed in *. cbn.
        destruct (findSession (currentSessionId (state w0)) (sessions (state w0)))
          as [[j session]|] eqn:Hf;
          [|discriminate].
        split; [exact Hsel|]. split.
        + erewrite findSession_insert; [reflexivity | exact Hf | reflexivity].
        + rewrite length_insert. exact Hlen. }
    cbn zeta in Hgoal. split; [|intros _; exact Hgoal].
    intros _. apply Hgoal.
  - destruct (handleSend_refused e w Hr) as (_ & Hs & _). cbn zeta in Hs. rewrite Hs.
    split; [exact Hinv|].
    intros (Ht & Hk & Hc). exfalso. destruct Hr as [H | [H | H]]; congruence.
Qed.

(** ** The registry after a chat turn *)

(** An accepted chat turn, seen from the world the opening leaves. *)
Lemma chat_turn_end (e : Env) (w : World) :
  accepted w ->
  imageToggle_checked (dom w) = false ->
  let w0 := final (openTurn e w) in
  let r := handleSend e w in
  let s := state w in
  let U := Message.mk (clock e (ticks w0)) user (text w) false in
  let A := Message.mk (clock e (S (ticks w0))) assistant Text.thinking true in
  let w1 := mkWorld (set_messages (messages (state w0) ++ [U]) (state w0))
              (set_sendBtn_disabled true (set_input_value EmptyString (dom w)))
              (S (ticks w0)) (calls w) in
  exists i m c prompt wa ta,
    (if webToggle_checked (dom w) then augment (text w) else ret (text w)) e w1
      = mkRun (Normal prompt) wa ta /\
    findMessage (Message.id A) ((messages (state w0) ++ [U]) ++ [A]) = Some (i, m) /\
    messages (state (final r))
    = <[i := Message.resolve c m]> ((messages (state w0) ++ [U]) ++ [A]) /\
    currentSessionId (state (final r)) = currentSessionId (state w0) /\
    sessions (state (final r))
    = match findSession (currentSessionId (state w0)) (sessions (state w0)) with
      | Some (j, session) =>
          <[j := Session.mk (Session.id session)
                   (retitled session (messages (state (final r))))
                   (Session.timestamp session) (messages (state (final r)))]>
            (sessions (state w0))
      | None => sessions (state w0)
      end /\
    sessionPosts (trace r)
    = opened e w ++ (if listed (state w0) then [sessions (state (final r))] else []) /\
    saveCalls (trace r) = savePlan s (net e (calls wa)) /\
    requests (trace r)
    = requests (trace (openTurn e w)) ++ requests ta
      ++ PostChat
           (Outbound.mk system (Text.sys s)
            :: conversationHistory (Message.id U) prompt (messages (state w0))
            ++ [Outbound.mk user prompt])
           (JS.or (modelId s) "llama3") (inferenceMode s) (ollamaUrl s)
           (temperature s) (maxTokens s)
         :: savePlan s (net e (calls wa))
      ++ (if listed (state w0) then [PostSessions (sessions (state (final r)))] else []) /\
    c = turnVerdict s (net e (calls wa)) (net e (S (calls wa))) /\
    state (final r)
    = set_sessions (sessions (state (final r)))
        (set_messages (messages (state (final r))) (set_isThinking false (state w0))) /\
    dom (final r)
    = set_sendBtn_disabled false
        (set_input_value EmptyString
           (if webToggle_checked (dom w) then set_contextInfo_hidden true (dom w)
            else dom w)) /\
    ticks (final r) = S (S (ticks w0)).
Proof.
  intros Ha Hi. cbn zeta.
  destruct (handleSend_open e w Ha) as (Hc & ->). rewrite Hi. cbn [final trace].
  destruct (openTurn_run e w) as (_ & Hs & Hd & _ & Hcalls & Htr).
  assert (Hnone : saveCalls (trace (openTurn e w)) = []).
  { rewrite Htr. destruct (_ && _); reflexivity. }
  assert (Hset : (forall a, savePlan (state (final (openTurn e w))) a = savePlan (state w) a) /\
                 (forall a b, turnVerdict (state (final (openTurn e w))) a b
                              = turnVerdict (state w) a b) /\
                 Text.sys (state (final (openTurn e w))) = Text.sys (state w) /\
                 modelId (state (final (openTurn e w))) = modelId (state w) /\
                 inferenceMode (state (final (openTurn e w))) = inferenceMode (state w) /\
                 ollamaUrl (state (final (openTurn e w))) = ollamaUrl (state w) /\
                 temperature (state (final (openTurn e w))) = temperature (state w) /\
                 maxTokens (state (final (openTurn e w))) = maxTokens (state w)).
  { cbn zeta in Hs. rewrite Hs. unfold turnVerdict, savePlan.
    destruct (noSession _); repeat split; reflexivity. }
  destruct Hset as (Hplan0 & Hverdict0 & Hsys & H1 & H2 & H3 & H4 & H5).
  unfold opened.
  set (w0 := final (openTurn e w)) in *. clearbody w0.
  set (t0 := trace (openTurn e w)) in *. clearbody t0.
  set (txt := text w) in *. clearbody txt.
  destruct (chatTurn_end txt e w0 Hc)
    as (i & m & c & prompt & wa & ta & Haug & _ & Hfind & Hst & Hdom & Hticks & Hsess & Hposts
        & _ & Hplan & Hreq & Hverdict).
  cbn zeta in *.
  rewrite Hd, Hcalls in Haug. cbn [webToggle_checked set_sendBtn_disabled set_input_value] in Haug.
  exists i, m, c, prompt, wa, ta. split; [exact Haug|]. split; [exact Hfind|].
  split; [rewrite Hst; reflexivity|]. split; [rewrite Hst; reflexivity|].
  split; [exact Hsess|]. split; [rewrite sessionPosts_app, Hposts; reflexivity|].
  split; [rewrite <- Hplan0, <- Hplan; unfold saveCalls in *; rewrite omap_app, Hnone;
          reflexivity|].
  split.
  { unfold requests in *. rewrite omap_app, Hreq.
    rewrite conversationHistory_asked, Hplan0, Hsys, H1, H2, H3, H4, H5. reflexivity. }
  split; [rewrite <- Hverdict0; exact Hverdict|].
  split; [rewrite Hst at 1; rewrite Hst; reflexivity|].
  split; [|exact Hticks].
  rewrite Hdom, Hd. destruct (dom w) as [? ? web ? ? ? ?]. cbn. destruct web; reflexivity.
Qed.

(** Without web augmentation the prompt is the input, and the chat call
    is the first awaited one. *)
Lemma plain_prompt (txt prompt : string) (e : Env) (w1 wa : World) (ta : list Event) :
  ret txt e w1 = mkRun (Normal prompt) wa ta -> prompt = txt /\ wa = w1 /\ ta = [].
Proof. cbn. intros [= <- <- <-]. repeat split. Qed.

(** X5: a turn in a session that is not in the registry is lost. When a
    session is selected that the registry does not hold, an accepted chat
    turn grows the transcript by the two messages of the turn, but the
    registry stays as it was and nothing is posted to [/sessions]. *)
Theorem unlisted_turn_lost (e : Env) (w : World) :
  accepted w ->
  imageToggle_checked (dom w) = false ->
  noSession (currentSessionId (state w)) = false ->
  listed (state w) = false ->
  let r := handleSend e w in
  length (messages (state (final r))) = (length (messages (state w)) + 2)%nat /\
  sessions (state (final r)) = sessions (state w) /\
  sessionPosts (trace r) = [].
Proof.
  intros Ha Hi Hsel Hlist. cbn zeta.
  destruct (chat_turn_end e w Ha Hi)
    as (i & m & c & prompt & wa & ta & _ & _ & Hmsgs & _ & Hsess & Hposts & _).
  destruct (openTurn_run e w) as (_ & Hs & _ & _ & _ & Htr).
  cbn zeta in *. unfold opened in Hposts. rewrite Htr in Hposts.
  set (r := handleSend e w) in *. clearbody r.
  set (t0 := ticks (final (openTurn e w))) in *. clearbody t0.
  rewrite Hs in Hmsgs, Hsess, Hposts. rewrite Hsel in Hmsgs, Hsess, Hposts.
  unfold listed in *. cbn in Hmsgs, Hsess, Hposts.
  destruct (findSession _ _); [discriminate|].
  rewrite Hmsgs, Hsess, Hposts. rewrite length_insert, !length_app. cbn.
  split; [lia|]. split; reflexivity.
Qed.

(** ** Switching sessions *)

Lemma findSession_behind (id : string) (x : Session.t) (l : list Session.t) (j : nat)
    (y : Session.t) :
  Session.id x <> id ->
  findSession (Some id) l = Some (j, y) ->
  findSession (Some id) (x :: l) = Some (S j, y).
Proof.
  unfold findSession. intros Hne H. cbn.
  rewrite decide_False by congruence. rewrite H. reflexivity.
Qed.

(** X6: leaving a session and coming back shows what the registry holds
    for it. After [createNewSession()] and then [loadSession(sid)], for a
    session [sid] of the registry, the transcript is the message list
    recorded in that session and [sid] is selected again, provided the
    clock reading taken for the new session does not render as [sid]; if
    it does, the new, empty session is the one found and the transcript is
    empty. *)
Theorem switch_back_shows_registry (e : Env) (w : World) (sid : string) (j : nat)
    (session : Session.t) :
  findSession (Some sid) (sessions (state w)) = Some (j, session) ->
  let r := (createNewSession ;; loadSession sid) e w in
  currentSessionId (state (final r)) = Some sid /\
  messages (state (final r))
  = (if String.eqb (JS.toString (clock e (ticks w))) sid then []
     else Session.messages session).
Proof.
  intros Hf. cbn zeta. go.
  destruct (String.eqb_spec (JS.toString (clock e (ticks w))) sid) as [Heq | Hne].
  - rewrite <- Heq.
    destruct (isConnected (state w)); go;
      match goal with
      | |- context [findSession (Some ?i) (?x :: ?l)] =>
          change (findSession (Some i) (x :: l))
            with (findSession (Some (Session.id x)) (x :: l));
          rewrite findSession_head
      end; go; split; reflexivity.
  - destruct (isConnected (state w)); go;
      match goal with
      | |- context [findSession (Some sid) (?x :: ?l)] =>
          rewrite (findSession_behind sid x l j session Hne Hf)
      end; go; split; reflexivity.
Qed.

(** ** The title of a new session *)

(** X7: the first prompt names the session. An accepted chat turn with
    no session selected leaves, when the two clock readings taken for its
    messages differ, a registry whose first entry is the session just
    made, titled with the first 30 code units of the prompt and holding
    the transcript of the turn: the user's message and the resolved
    placeholder; the sessions that were there follow unchanged. *)
Theorem first_prompt_titles_session (e : Env) (w : World) :
  accepted w ->
  imageToggle_checked (dom w) = false ->
  noSession (currentSessionId (state w)) = true ->
  clock e (S (S (ticks w))) <> clock e (S (S (S (ticks w)))) ->
  let r := handleSend e w in
  let s' := state (final r) in
  exists c,
    messages s'
    = [Message.mk (clock e (S (S (ticks w)))) user (text w) false;
       Message.mk (clock e (S (S (S (ticks w))))) assistant c false] /\
    sessions s'
    = Session.mk (JS.toString (clock e (ticks w))) (JS.slice0 30 (text w))
        (clock e (S (ticks w))) (messages s')
      :: sessions (state w) /\
    currentSessionId s' = Some (JS.toString (clock e (ticks w))).
Proof.
  intros Ha Hi Hsel Hclock. cbn zeta.
  destruct (chat_turn_end e w Ha Hi)
    as (i & m & c & prompt & wa & ta & _ & Hfind & Hmsgs & Hcur & Hsess & _).
  destruct (openTurn_run e w) as (_ & Hs & _ & Ht & _).
  cbn zeta in *.
  set (r := handleSend e w) in *. clearbody r.
  rewrite Ht, Hsel in Hfind, Hmsgs. rewrite Hs, Hsel in Hfind, Hmsgs, Hcur, Hsess.
  cbn in Hfind, Hmsgs, Hcur, Hsess.
  unfold findMessage in Hfind. cbn in Hfind.
  rewrite decide_False in Hfind by exact Hclock.
  rewrite decide_True in Hfind by reflexivity. cbn in Hfind. injection Hfind as <- <-.
  cbn in Hmsgs.
  match type of Hsess with
  | context [findSession (Some ?i) (?x :: ?l)] =>
      change (findSession (Some i) (x :: l))
        with (findSession (Some (Session.id x)) (x :: l)) in Hsess;
      rewrite findSession_head in Hsess
  end.
  cbn in Hsess. exists c. rewrite Hsess, Hcur. split; [exact Hmsgs|]. split; [|reflexivity].
  rewrite Hmsgs. unfold retitled. cbn. reflexivity.
Qed.

(** ** The transcript over a turn *)

Lemma opened_transcript (e : Env) (w : World) :
  messages (state (final (openTurn e w))) = stored w /\
  ticks (final (openTurn e w)) = turnTick w.
Proof.
  destruct (openTurn_run e w) as (_ & Hs & _ & Ht & _). cbn zeta in *.
  rewrite Hs, Ht. unfold stored, turnTick.
  destruct (noSession (currentSessionId (state w))); split; reflexivity.
Qed.

(** An accepted image turn, seen from the world the opening leaves. *)
Lemma image_turn_end (e : Env) (w : World) :
  accepted w ->
  imageToggle_checked (dom w) = true ->
  let r := handleSend e w in
  let s := state w in
  let A := Message.mk (clock e (turnTick w)) assistant Text.painting true in
  let generate := PostGenerateImage (text w) (imageSubfolder s) (imageModelsPath s) in
  let load := PostLoadImageModel (imageModelId s) (imageModelsPath s) in
  let a0 := net e (calls w) in
  let a1 := net e (S (calls w)) in
  let a2 := net e (S (S (calls w))) in
  exists i m,
    findMessage (Message.id A) (stored w ++ [A]) = Some (i, m) /\
    messages (state (final r))
    = <[i := Message.resolve (imageVerdict (text w) (if lazyLoad s a0 then a2 else a0)) m]>
        (stored w ++ [A]) /\
    imageModelId (state (final r))
    = (if lazyLoad s a0 then loadedModel s a1 else imageModelId s) /\
    imageCalls (trace r)
    = (if lazyLoad s a0
       then [(generate, Some a0); (load, Some a1); (generate, Some a2)]
       else [(generate, Some a0)]) /\
    chatCalls (trace r) = [] /\ webCalls (trace r) = [] /\ saveCalls (trace r) = [] /\
    sessionPosts (trace r) = opened e w.
Proof.
  intros Ha Hi. cbn zeta.
  destruct (handleSend_open e w Ha) as (Hc & ->). rewrite Hi. cbn [final trace].
  destruct (opened_transcript e w) as (Hm & Ht).
  destruct (openTurn_run e w) as (_ & Hs & _ & _ & Hcalls & Htr).
  assert (Hset : imageSubfolder (state (final (openTurn e w))) = imageSubfolder (state w) /\
                 imageModelsPath (state (final (openTurn e w))) = imageModelsPath (state w) /\
                 imageModelId (state (final (openTurn e w))) = imageModelId (state w)).
  { cbn zeta in Hs. rewrite Hs. destruct (noSession _); repeat split; reflexivity. }
  destruct Hset as (Hsub & Hpath & Hid).
  assert (Hquiet : imageCalls (trace (openTurn e w)) = [] /\ chatCalls (trace (openTurn e w)) = []
                   /\ webCalls (trace (openTurn e w)) = []
                   /\ saveCalls (trace (openTurn e w)) = []).
  { cbn zeta in Htr. rewrite Htr. destruct (_ && _); repeat split; reflexivity. }
  destruct Hquiet as (Hq1 & Hq2 & Hq3 & Hq4).
  unfold opened.
  set (w0 := final (openTurn e w)) in *. clearbody w0.
  set (t0 := trace (openTurn e w)) in *. clearbody t0.
  set (txt := text w) in *. clearbody txt.
  destruct (imageTurn_end txt e w0 Hc)
    as (i & m & _ & Hfind & Hst & _ & _ & Himg & Hposts & Hchat & Hweb & Hsave).
  cbn zeta in *.
  unfold lazyLoad, loadedModel in *.
  rewrite Hm, Ht, ?Hsub, ?Hpath, ?Hid, ?Hcalls in *.
  exists i, m. split; [exact Hfind|].
  split; [rewrite Hst; reflexivity|]. split; [rewrite Hst; reflexivity|].
  unfold imageCalls, chatCalls, webCalls, saveCalls in *.
  rewrite sessionPosts_app, !omap_app, Hq1, Hq2, Hq3, Hq4, Himg, Hposts, Hchat, Hweb, Hsave.
  rewrite ?app_nil_r. cbn [app]. repeat split; reflexivity.
Qed.

Lemma insert_map_same {A B : Type} (f : A -> B) (l : list A) (i : nat) (x y : A) :
  l !! i = Some y -> f x = f y -> map f (<[i := x]> l) = map f l.
Proof.
  revert i. induction l as [|a l IH]; intros [|i] Hl Hf; cbn in *; try discriminate.
  - injection Hl as ->. now rewrite Hf.
  - f_equal. now apply IH.
Qed.

Lemma resolve_keeps (id : Z) (l : list Message.t) (i : nat) (m : Message.t) (c : string) :
  findMessage id l = Some (i, m) ->
  map Message.id (<[i := Message.resolve c m]> l) = map Message.id l /\
  map Message.role (<[i := Message.resolve c m]> l) = map Message.role l.
Proof.
  unfold findMessage. intros H. apply list_find_Some in H. destruct H as (Hi & _).
  split; eapply insert_map_same; try exact Hi; reflexivity.
Qed.

(** X8: a turn only adds to the transcript. Whatever the clock and the
    bridge do (also when ids repeat), an accepted turn keeps every message
    that was shown, in its place and with its id and role, and adds the
    messages of the turn at the end: the user's and the assistant's in chat
    mode, the assistant's alone in image mode. *)
Theorem turn_appends (e : Env) (w : World) :
  accepted w ->
  let l' := messages (state (final (handleSend e w))) in
  let t := turnTick w in
  map Message.id l'
  = map Message.id (stored w)
    ++ (if imageToggle_checked (dom w) then [clock e t] else [clock e t; clock e (S t)]) /\
  map Message.role l'
  = map Message.role (stored w)
    ++ (if imageToggle_checked (dom w) then [assistant] else [user; assistant]).
Proof.
  intros Ha. cbn zeta. destruct (imageToggle_checked (dom w)) eqn:Hi.
  - destruct (image_turn_end e w Ha Hi) as (i & m & Hfind & -> & _). cbn zeta in *.
    destruct (resolve_keeps _ _ _ _ (imageVerdict (text w)
                (if lazyLoad (state w) (net e (calls w))
                 then net e (S (S (calls w))) else net e (calls w))) Hfind) as (-> & ->).
    rewrite !map_app. split; reflexivity.
  - destruct (chat_turn_end e w Ha Hi) as (i & m & c & prompt & wa & ta & _ & Hfind & -> & _). cbn zeta in *.
    destruct (opened_transcript e w) as (Hm & Ht). rewrite Hm, Ht in *.
    destruct (resolve_keeps _ _ _ _ c Hfind) as (-> & ->).
    rewrite !map_app, <- !app_assoc. split; reflexivity.
Qed.

(** X9: the transcript after a chat turn. When the clock never repeats a
    reading nor gives the id of a stored message, an accepted chat turn
    leaves the stored messages untouched, followed by the user's message
    with the trimmed input and by one assistant message that is no longer
    transient. Without web augmentation its content is decided by the
    answers to the chat call and to the save of the script file: the reply,
    the 400 report, or the connection error, also when only the save has
    failed. *)
Theorem chat_turn_transcript (e : Env) (w : World) :
  accepted w ->
  imageToggle_checked (dom w) = false ->
  freshClock e w ->
  let r := handleSend e w in
  exists c,
    messages (state (final r))
    = stored w
      ++ [Message.mk (clock e (turnTick w)) user (text w) false;
          Message.mk (clock e (S (turnTick w))) assistant c false] /\
    (webToggle_checked (dom w) = false ->
     c = turnVerdict (state w) (net e (calls w)) (net e (S (calls w)))).
Proof.
  intros Ha Hi (Hinj & Hstored). cbn zeta.
  destruct (chat_turn_end e w Ha Hi)
    as (i & m & c & prompt & wa & ta & Haug & Hfind & -> & _ & _ & _ & _ & _ & Hverdict & _).
  cbn zeta in *.
  destruct (opened_transcript e w) as (Hm & Ht). rewrite Hm, Ht in *.
  rewrite findMessage_fresh in Hfind.
  - injection Hfind as <- <-. rewrite insert_last. exists c. split.
    + rewrite <- app_assoc. reflexivity.
    + intros Hweb. rewrite Hweb in Haug.
      destruct (plain_prompt _ _ _ _ _ _ Haug) as (_ & -> & _). exact Hverdict.
  - intros x Hx. cbn. apply in_app_or in Hx. destruct Hx as [Hx | [<- | []]].
    + apply Hstored. unfold stored in Hx. destruct (noSession _); [destruct Hx | exact Hx].
    + cbn. intros Heq. apply Hinj in Heq. lia.
Qed.


(** ** The requests of the web augmentation *)

(** The augmentation sends the search, with at most eight results asked
    for, and in deep mode one page retrieval for each of the first two
    results. *)
Lemma augment_requests (txt : string) (e : Env) (w : World) :
  requests (trace (augment txt e w))
  = PostSearch txt 8 :: scrapes (dom w) (net e (calls w)).
Proof.
  unfold augment, scrapes, requests. cbn. case_answer e (calls w); go.
  - destruct (chromeToggle_checked (dom w)); reflexivity.
  - destruct (results data) as [[|r rest]|]; go.
    + destruct (chromeToggle_checked (dom w)); reflexivity.
    + destruct (chromeToggle_checked (dom w)) eqn:Hchrome; go; [|reflexivity].
      destruct rest as [|r2 rest]; go.
      * case_answer e (S (calls w)); go; reflexivity.
      * case_answer e (S (calls w)); go; case_answer e (S (S (calls w))); go; reflexivity.
    + destruct (chromeToggle_checked (dom w)); reflexivity.
  - destruct (chromeToggle_checked (dom w)); reflexivity.
Qed.

(** Deep mode: the pages of the first two results, each under the title
    of its result, separated by a rule. *)
Lemma augment_deep (txt : string) (e : Env) (w : World) (st : Z) (data : Body)
    (r : Result.t) (rest : list Result.t) :
  chromeToggle_checked (dom w) = true ->
  net e (calls w) = Resolved st (Parsed data) ->
  results data = Some (r :: rest) ->
  throws (net e (S (calls w))) = false ->
  rest = [] \/ throws (net e (S (S (calls w)))) = false ->
  outcome (augment txt e w)
  = Normal (Text.augmented
              (JS.join Text.rule
                 (pages (r :: rest)
                    [parsed (net e (S (calls w))); parsed (net e (S (S (calls w))))]))
              txt).
Proof.
  intros Hchrome Hnet Hres H1 H2. unfold augment. go.
  destruct rest as [|r2 rest]; go.
  - case_answer e (S (calls w)); try discriminate; go. reflexivity.
  - destruct H2 as [H2 | H2]; [discriminate|].
    case_answer e (S (calls w)); try discriminate; go.
    case_answer e (S (S (calls w))); try discriminate; go. reflexivity.
Qed.

Lemma scrapes_web (d : Dom) (a : Answer) :
  List.filter isWeb (scrapes d a) = scrapes d a /\ (length (scrapes d a) <= 2)%nat.
Proof.
  unfold scrapes. destruct (chromeToggle_checked d); [|split; [reflexivity | cbn; lia]].
  destruct a as [|st [data|]]; try (split; [reflexivity | cbn; lia]).
  destruct (results data) as [found|]; [|split; [reflexivity | cbn; lia]].
  split.
  - induction (firstn 2 found) as [|x l IH]; [reflexivity|]. cbn. now rewrite IH.
  - rewrite length_map, length_firstn. lia.
Qed.

Lemma savePlan_web (s : State) (a : Answer) : List.filter isWeb (savePlan s a) = [].
Proof.
  unfold savePlan. destruct a as [|st [data|]]; try reflexivity.
  destruct (st =? 400)%Z; [reflexivity|]. destruct (_ && _); reflexivity.
Qed.

(** The requests of the augmentation part of an accepted chat turn. *)
Lemma turn_augment_requests (txt prompt : string) (e : Env) (d : Dom) (w1 wa : World)
    (ta : list Event) :
  dom w1 = set_sendBtn_disabled true (set_input_value EmptyString d) ->
  (if webToggle_checked d then augment txt else ret txt) e w1 = mkRun (Normal prompt) wa ta ->
  requests ta
  = (if webToggle_checked d then PostSearch txt 8 :: scrapes d (net e (calls w1)) else []).
Proof.
  intros Hd Haug. destruct (webToggle_checked d).
  - pose proof (augment_requests txt e w1) as H. rewrite Haug in H. cbn [trace] in H.
    rewrite H. unfold scrapes. rewrite Hd. reflexivity.
  - destruct (plain_prompt _ _ _ _ _ _ Haug) as (_ & _ & ->). reflexivity.
Qed.

(** X11: the web requests of a chat turn. Without web augmentation an
    accepted chat turn sends nothing to the search or the page retrieval;
    with it, it sends one search for the trimmed input, asking for eight
    results, and in deep mode one retrieval for each of the first two
    results the search returned, and none in shallow mode: never more than
    three web requests. *)
Theorem web_requests_of_turn (e : Env) (w : World) :
  accepted w ->
  imageToggle_checked (dom w) = false ->
  let web := List.filter isWeb (requests (trace (handleSend e w))) in
  web = (if webToggle_checked (dom w)
         then PostSearch (text w) 8 :: scrapes (dom w) (net e (calls w))
         else []) /\
  (length web <= 3)%nat.
Proof.
  intros Ha Hi. cbn zeta.
  destruct (chat_turn_end e w Ha Hi)
    as (i & m & c & prompt & wa & ta & Haug & _ & _ & _ & _ & _ & _ & Hreq & _).
  destruct (openTurn_run e w) as (_ & _ & _ & _ & _ & Htr).
  cbn zeta in *. rewrite Hreq, Htr.
  apply turn_augment_requests in Haug; [|reflexivity]. cbn [calls] in Haug. rewrite Haug.
  rewrite !List.filter_app. cbn [List.filter isWeb]. rewrite ?List.filter_app, savePlan_web.
  destruct (scrapes_web (dom w) (net e (calls w))) as (Hweb & Hlen).
  replace (List.filter isWeb (requests (if _ && _ then _ else []))) with (@nil Request)
    by (destruct (_ && _); reflexivity).
  replace (List.filter isWeb (if listed _ then _ else [])) with (@nil Request)
    by (destruct (listed _); reflexivity).
  destruct (webToggle_checked (dom w)); cbn [List.filter isWeb app].
  - rewrite Hweb, app_nil_r. split; [reflexivity | cbn; lia].
  - split; [reflexivity | cbn; lia].
Qed.

(** ** The chat request *)

Lemma chatCalls_requests (t : list Event) : chatCalls t = List.filter isChat (requests t).
Proof.
  unfold chatCalls, requests. induction t as [|ev t IH]; [reflexivity|].
  destruct ev as [b r a| | |]; cbn; try exact IH.
  destruct r; cbn; rewrite <- IH; reflexivity.
Qed.

Lemma scrapes_chat (d : Dom) (a : Answer) : List.filter isChat (scrapes d a) = [].
Proof.
  unfold scrapes. destruct (chromeToggle_checked d); [|reflexivity].
  destruct a as [|st [data|]]; try reflexivity.
  destruct (results data) as [found|]; [|reflexivity].
  induction (firstn 2 found) as [|x l IH]; [reflexivity|]. exact IH.
Qed.

Lemma savePlan_chat (s : State) (a : Answer) : List.filter isChat (savePlan s a) = [].
Proof.
  unfold savePlan. destruct a as [|st [data|]]; try reflexivity.
  destruct (st =? 400)%Z; [reflexivity|]. destruct (_ && _); reflexivity.
Qed.

(** An accepted chat turn sends one chat request: the system message,
    the stored messages, the prompt the augmentation hands on, and the
    settings. *)
Lemma chat_turn_request (e : Env) (w : World) :
  accepted w ->
  imageToggle_checked (dom w) = false ->
  let s := state w in
  let U := Message.mk (clock e (turnTick w)) user (text w) false in
  let w1 := mkWorld (set_messages (stored w ++ [U]) (state (final (openTurn e w))))
              (set_sendBtn_disabled true (set_input_value EmptyString (dom w)))
              (S (turnTick w)) (calls w) in
  exists prompt wa ta,
    (if webToggle_checked (dom w) then augment (text w) else ret (text w)) e w1
      = mkRun (Normal prompt) wa ta /\
    chatCalls (trace (handleSend e w))
    = [PostChat
         (Outbound.mk system (Text.sys s)
          :: conversationHistory (Message.id U) prompt (stored w)
          ++ [Outbound.mk user prompt])
         (JS.or (modelId s) "llama3") (inferenceMode s) (ollamaUrl s)
         (temperature s) (maxTokens s)].
Proof.
  intros Ha Hi. cbn zeta.
  destruct (chat_turn_end e w Ha Hi)
    as (i & m & c & prompt & wa & ta & Haug & _ & _ & _ & _ & _ & _ & Hreq & _).
  destruct (openTurn_run e w) as (_ & _ & _ & _ & _ & Htr).
  destruct (opened_transcript e w) as (Hm & Ht).
  cbn zeta in *. rewrite Hm, Ht in *.
  exists prompt, wa, ta. split; [exact Haug|].
  rewrite chatCalls_requests, Hreq, Htr.
  apply turn_augment_requests in Haug; [|reflexivity]. rewrite Haug.
  rewrite !List.filter_app. cbn [List.filter isChat]. rewrite ?List.filter_app, savePlan_chat.
  replace (List.filter isChat (requests (if _ && _ then _ else []))) with (@nil Request)
    by (destruct (_ && _); reflexivity).
  replace (List.filter isChat (if listed _ then _ else [])) with (@nil Request)
    by (destruct (listed _); reflexivity).
  replace (List.filter isChat (if webToggle_checked (dom w) then _ else [])) with (@nil Request).
  - reflexivity.
  - destruct (webToggle_checked (dom w)); [|reflexivity].
    cbn [List.filter isChat]. now rewrite scrapes_chat.
Qed.

(** X12: the prompt of a deep scan. In a chat turn with web augmentation
    in deep mode, when the search returns results and the retrievals of
    the first two of them answer with a body that parses (whatever their
    status), the one chat request ends with the user's message holding
    the context block made of these pages, each under the title of its
    result and separated by a rule, followed by the task. *)
Theorem deep_prompt (e : Env) (w : World) (st : Z) (data : Body) (r1 : Result.t)
    (rest : list Result.t) :
  accepted w ->
  imageToggle_checked (dom w) = false ->
  webToggle_checked (dom w) = true ->
  chromeToggle_checked (dom w) = true ->
  net e (calls w) = Resolved st (Parsed data) ->
  results data = Some (r1 :: rest) ->
  throws (net e (S (calls w))) = false ->
  rest = [] \/ throws (net e (S (S (calls w)))) = false ->
  exists req,
    chatCalls (trace (handleSend e w)) = [req] /\
    sentPrompt req
    = Some (Text.augmented
              (JS.join Text.rule
                 (pages (r1 :: rest)
                    [parsed (net e (S (calls w))); parsed (net e (S (S (calls w))))]))
              (text w)).
Proof.
  intros Ha Hi Hweb Hchrome Hnet Hres H1 H2.
  destruct (chat_turn_request e w Ha Hi) as (prompt & wa & ta & Haug & ->).
  cbn zeta in Haug. rewrite Hweb in Haug.
  match type of Haug with
  | augment ?t e ?W1 = _ =>
      pose proof (augment_deep t e W1 st data r1 rest Hchrome Hnet Hres H1 H2) as Hp
  end.
  rewrite Haug in Hp. injection Hp as ->.
  eexists. split; [reflexivity|]. apply sentPrompt_asked.
Qed.

Lemma conversationHistory_plain (u : Z) (p : string) (l : list Message.t) :
  (forall m, In m l -> Message.id m <> u) ->
  conversationHistory u p l
  = map plain (List.filter (fun m => negb (Message.isTransient m)) l).
Proof.
  unfold conversationHistory. intros H. apply map_ext_in. intros m Hm.
  apply filter_In in Hm. destruct Hm as (Hm & _). unfold plain.
  destruct (Z.eqb_spec (Message.id m) u) as [Heq | _]; [|reflexivity].
  exfalso. exact (H m Hm Heq).
Qed.


(** ** What a turn leaves alone *)


(** ** The fenced block of a reply *)

(** Unfold [+:+] on a string that starts with known code units. *)
Ltac sapp :=
  repeat match goal with
         | |- context [String ?x ?a +:+ ?b] =>
             change (String x a +:+ b) with (String x (a +:+ b))
         | |- context [EmptyString +:+ ?b] => change (EmptyString +:+ b) with b
         end.

Lemma append_assoc (a b c : string) : (a +:+ b) +:+ c = a +:+ (b +:+ c).
Proof. induction a as [|x a IH]; [reflexivity|]. sapp. simpl. now rewrite IH. Qed.

Lemma append_empty (a : string) : a +:+ EmptyString = a.
Proof. induction a as [|x a IH]; [reflexivity|]. sapp. simpl. now rewrite IH. Qed.

Lemma length_append (a b : string) :
  String.length (a +:+ b) = (String.length a + String.length b)%nat.
Proof. induction a as [|x a IH]; [reflexivity|]. sapp. simpl. now rewrite IH. Qed.

Lemma substring_append (a b : string) : substring 0 (String.length a) (a +:+ b) = a.
Proof. induction a as [|x a IH]; [destruct b; reflexivity|]. sapp. simpl. now rewrite IH. Qed.

Lemma substring_prefix (n : nat) (s : string) : exists post, s = substring 0 n s +:+ post.
Proof.
  revert n. induction s as [|c s IH]; intros [|n]; simpl.
  - exists EmptyString. reflexivity.
  - exists EmptyString. reflexivity.
  - exists (String c s). reflexivity.
  - destruct (IH n) as (post & H). exists post. sapp. now rewrite <- H.
Qed.

(** The pattern starts with three backticks: where there are none, it
    does not match. *)
Lemma go_fence_start (k : Regex.cont) (s : string) (cap : option string) :
  startsWith "```" s = false -> Regex.go Regex.fence k s cap = None.
Proof.
  intros H. unfold Regex.fence, Regex.backticks.
  destruct s as [|c1 [|c2 [|c3 s]]]; cbn -[Ascii.eqb] in *; try reflexivity.
  - destruct (Ascii.eqb "`" c1); reflexivity.
  - destruct (Ascii.eqb "`" c1); [|reflexivity].
    destruct (Ascii.eqb "`" c2); reflexivity.
  - destruct (Ascii.eqb "`" c1); [|reflexivity].
    destruct (Ascii.eqb "`" c2); [|reflexivity].
    destruct (Ascii.eqb "`" c3); [discriminate | reflexivity].
Qed.

(** X16: a reply without a fence is saved whole. When the reply has no
    three backticks in a row anywhere, the content written to the script
    file is the reply itself. *)
Theorem extractCode_no_fence (content : string) :
  hasFence content = false -> extractCode content = content.
Proof.
  intros H. unfold extractCode.
  assert (Hnone : Regex.exec Regex.fence content = None).
  { induction content as [|c s IH]; [reflexivity|].
    cbn [hasFence] in H. apply orb_false_iff in H. destruct H as (H1 & H2).
    cbn [Regex.exec]. rewrite (go_fence_start _ _ _ H1). apply IH. exact H2. }
  now rewrite Hnone.
Qed.

(** The language tag: [\w+] takes all of it when a code unit that is not
    of a word follows. *)
Lemma plus_tag (k : Regex.cont) (tag rest : string) (cap : option string)
    (r : option string) :
  every Regex.word tag = true ->
  tag <> EmptyString ->
  Regex.plus Regex.word k rest cap = None ->
  k rest cap = Some r ->
  Regex.plus Regex.word k (tag +:+ rest) cap = Some r.
Proof.
  intros Hw Hne Hstop Hk. induction tag as [|c t IH]; [congruence|].
  cbn [every] in Hw. apply andb_true_iff in Hw. destruct Hw as (Hc & Ht).
  sapp. cbn [Regex.plus]. rewrite Hc.
  destruct t as [|c' t'].
  - sapp. rewrite Hstop. exact Hk.
  - rewrite IH; [reflexivity | exact Ht | discriminate].
Qed.

(** The block: [[\s\S]*?] stops at the first place where the rest of the
    pattern matches, and the rest starts with a backtick. *)
Lemma starLazy_body (k : Regex.cont) (body rest : string) (cap : option string) :
  every noTick body = true ->
  (forall c t cap', isTick c = false -> k (String c t) cap' = None) ->
  Regex.starLazy Regex.any k (body +:+ rest) cap = Regex.starLazy Regex.any k rest cap.
Proof.
  intros Hb Hk. induction body as [|c b IH]; [reflexivity|].
  cbn [every] in Hb. apply andb_true_iff in Hb. destruct Hb as (Hc & Hb).
  unfold noTick in Hc. apply negb_true_iff in Hc.
  sapp. cbn [Regex.starLazy]. rewrite (Hk c _ cap Hc). cbn [Regex.any]. apply IH. exact Hb.
Qed.

Lemma go_backticks (k : Regex.cont) (s : string) (cap : option string) :
  Regex.go Regex.backticks k ("```" +:+ s) cap = k s cap.
Proof. reflexivity. Qed.

Lemma go_backticks_stop (k : Regex.cont) (c : ascii) (t : string) (cap : option string) :
  isTick c = false -> Regex.go Regex.backticks k (String c t) cap = None.
Proof.
  unfold isTick. intros H. unfold Regex.backticks. cbn -[Ascii.eqb].
  rewrite Ascii.eqb_sym, H. reflexivity.
Qed.

(** The pattern on a text that starts with a fenced block. *)
Lemma go_fence_block (tag body post : string) :
  every Regex.word tag = true ->
  every noTick body = true ->
  Regex.go Regex.fence (fun _ cap => Some cap)
    ("```" +:+ tag +:+ JS.nl +:+ body +:+ "```" +:+ post) None
  = Some (Some body).
Proof.
  intros Htag Hbody. unfold Regex.fence.
  change (Regex.go (Regex.Seq ?a ?b) ?k ?s ?c) with (Regex.go a (Regex.go b k) s c).
  rewrite go_backticks.
  change (Regex.go (Regex.Seq ?a ?b) ?k ?s ?c) with (Regex.go a (Regex.go b k) s c).
  set (K1 := Regex.go (Regex.Seq (Regex.Chr "010")
                         (Regex.Seq (Regex.Group (Regex.StarLazy Regex.any)) Regex.backticks))
               (fun _ cap => Some cap)).
  assert (HK1 : K1 (JS.nl +:+ body +:+ "```" +:+ post) None = Some (Some body)).
  { unfold K1, JS.nl. sapp. cbn [Regex.go]. rewrite Ascii.eqb_refl.
    rewrite starLazy_body; [| exact Hbody | intros c t cap' Hc; apply go_backticks_stop; exact Hc].
    sapp. cbn [Regex.starLazy].
    change (String "`" (String "`" (String "`" post))) with ("```" +:+ post).
    rewrite go_backticks.
    replace (String.length (body +:+ "```" +:+ post) - String.length ("```" +:+ post))%nat
      with (String.length body) by (rewrite length_append; lia).
    rewrite substring_append. reflexivity. }
  assert (Hstop : Regex.plus Regex.word K1 (JS.nl +:+ body +:+ "```" +:+ post) None = None)
    by reflexivity.
  clearbody K1.
  change (Regex.go (Regex.Opt ?a) ?k ?s ?c)
    with (match Regex.go a k s c with Some r => Some r | None => k s c end).
  change (Regex.go (Regex.Plus ?p) ?k ?s ?c) with (Regex.plus p k s c).
  destruct tag as [|c t].
  - change (EmptyString +:+ ?x) with x. rewrite Hstop. exact HK1.
  - rewrite (plus_tag K1 (String c t) _ None (Some body) Htag); [reflexivity | discriminate
      | exact Hstop | exact HK1].
Qed.

(** The search for the leftmost match passes over everything that is not
    a backtick. *)
Lemma exec_skip (pre s : string) :
  every noTick pre = true -> Regex.exec Regex.fence (pre +:+ s) = Regex.exec Regex.fence s.
Proof.
  intros Hpre. induction pre as [|c p IH]; [reflexivity|].
  cbn [every] in Hpre. apply andb_true_iff in Hpre. destruct Hpre as (Hc & Hp).
  unfold noTick in Hc. apply negb_true_iff in Hc.
  sapp. cbn [Regex.exec]. rewrite go_fence_start.
  - apply IH. exact Hp.
  - cbn -[Ascii.eqb]. unfold isTick in Hc. rewrite Ascii.eqb_sym, Hc. reflexivity.
Qed.

Lemma exec_here (r : Regex.t) (s : string) (cap : option string) :
  Regex.go r (fun _ cap => Some cap) s None = Some cap -> Regex.exec r s = Some cap.
Proof. intros H. destruct s; cbn [Regex.exec]; rewrite H; reflexivity. Qed.

(** X17: the fenced block is what is saved. For a reply made of a text
    without backticks, a fence with a language tag of word characters (or
    none), a block without backticks and the closing fence, followed by
    anything, the content written to the script file is the block; when
    the block is empty it is the whole reply. *)
Theorem extractCode_fenced (pre tag body post : string) :
  every noTick pre = true ->
  every Regex.word tag = true ->
  every noTick body = true ->
  extractCode (fenced pre tag body post)
  = (if JS.truthy body then body else fenced pre tag body post).
Proof.
  intros Hpre Htag Hbody. unfold extractCode, fenced.
  rewrite exec_skip by exact Hpre.
  assert (H : Regex.exec Regex.fence ("```" +:+ tag +:+ JS.nl +:+ body +:+ "```" +:+ post)
              = Some (Some body)).
  { apply exec_here, go_fence_block; assumption. }
  rewrite H. unfold JS.or. reflexivity.
Qed.

(** ** What is saved is text of the reply *)

Section Part.

Variable content : string.

Lemma suffix_tail (c : ascii) (t : string) :
  suffixOf (String c t) content -> suffixOf t content.
Proof.
  intros (pre & ->). exists (pre +:+ String c EmptyString).
  rewrite append_assoc. reflexivity.
Qed.

Lemma prefix_part (n : nat) (s : string) :
  suffixOf s content -> partOf (substring 0 n s) content.
Proof.
  intros (pre & ->). destruct (substring_prefix n s) as (post & H).
  exists pre, post. now rewrite <- H.
Qed.

Lemma plus_part (p : ascii -> bool) (k : Regex.cont) (c : string) :
  sound content k c -> sound content (Regex.plus p k) c.
Proof.
  intros Hk s. induction s as [|x t IH]; intros cap Hs Hcap H; cbn [Regex.plus] in H.
  - discriminate.
  - destruct (p x); [|discriminate].
    apply suffix_tail in Hs.
    destruct (Regex.plus p k t cap) as [r|] eqn:E.
    + injection H as ->. exact (IH cap Hs Hcap E).
    + exact (Hk t cap Hs Hcap H).
Qed.

Lemma starLazy_part (p : ascii -> bool) (k : Regex.cont) (c : string) :
  sound content k c -> sound content (Regex.starLazy p k) c.
Proof.
  intros Hk s. induction s as [|x t IH]; intros cap Hs Hcap H; cbn [Regex.starLazy] in H.
  - destruct (k EmptyString cap) as [r|] eqn:E; [|discriminate].
    injection H as ->. exact (Hk _ cap Hs Hcap E).
  - destruct (k (String x t) cap) as [r|] eqn:E.
    + injection H as ->. exact (Hk _ cap Hs Hcap E).
    + destruct (p x); [|discriminate].
      apply suffix_tail in Hs. exact (IH cap Hs Hcap H).
Qed.

Lemma go_part (r : Regex.t) (k : Regex.cont) (c : string) :
  sound content k c -> sound content (Regex.go r k) c.
Proof.
  revert k. induction r as [x | a IHa b IHb | a IHa | p | p | a IHa]; intros k Hk.
  - intros s cap Hs Hcap H. cbn [Regex.go] in H.
    destruct s as [|x' t]; [discriminate|].
    destruct (Ascii.eqb x x'); [|discriminate].
    apply suffix_tail in Hs. exact (Hk t cap Hs Hcap H).
  - change (Regex.go (Regex.Seq a b) k) with (fun s cap => Regex.go a (Regex.go b k) s cap).
    apply (IHa (Regex.go b k)). apply IHb. exact Hk.
  - intros s cap Hs Hcap H. cbn [Regex.go] in H.
    destruct (Regex.go a k s cap) as [r|] eqn:E.
    + injection H as ->. exact (IHa k Hk s cap Hs Hcap E).
    + exact (Hk s cap Hs Hcap H).
  - apply plus_part. exact Hk.
  - apply starLazy_part. exact Hk.
  - intros s cap Hs Hcap H. cbn [Regex.go] in H.
    refine (IHa _ _ s cap Hs Hcap H).
    intros s' cap' Hs' _ H'. refine (Hk s' _ Hs' _ H').
    intros y [= <-]. apply prefix_part. exact Hs.
Qed.

Lemma exec_part (r : Regex.t) (s c : string) :
  suffixOf s content -> Regex.exec r s = Some (Some c) -> partOf c content.
Proof.
  assert (H0 : sound content (fun _ cap => Some cap) c).
  { intros s' cap _ Hcap [= ->]. apply Hcap. reflexivity. }
  assert (Hnone : captureOf None content) by (intros x; discriminate).
  induction s as [|x t IH]; intros Hs H; cbn [Regex.exec] in H.
  - destruct (Regex.go r _ EmptyString None) as [cap|] eqn:E; [|discriminate].
    injection H as ->. exact (go_part r _ c H0 _ None Hs Hnone E).
  - destruct (Regex.go r _ (String x t) None) as [cap|] eqn:E.
    + injection H as ->. exact (go_part r _ c H0 _ None Hs Hnone E).
    + apply IH; [eapply suffix_tail; exact Hs | exact H].
Qed.

End Part.

(** Whatever the reply, the content that [extractCode] hands to the file
    save is a run of consecutive code units of the reply, and it is empty
    only if the reply is. *)
Lemma extractCode_part (content : string) :
  partOf (extractCode content) content /\
  (content <> EmptyString -> extractCode content <> EmptyString).
Proof.
  assert (Hself : partOf content content).
  { exists EmptyString, EmptyString. now rewrite append_empty. }
  unfold extractCode.
  destruct (Regex.exec Regex.fence content) as [[code|]|] eqn:E;
    try (split; [exact Hself | tauto]).
  unfold JS.or, JS.truthy. destruct code as [|x code'].
  - split; [exact Hself | tauto].
  - split; [|discriminate].
    apply (exec_part content Regex.fence content); [|exact E].
    exists EmptyString. reflexivity.
Qed.

(** ** The reply of the model *)

Lemma orElse_truthy (o : option string) (b : string) :
  JS.truthy b = true -> JS.truthy (JS.orElse o b) = true.
Proof.
  intros H. destruct o as [a|]; [|exact H]. unfold JS.orElse, JS.or.
  destruct (JS.truthy a) eqn:E; [exact E | exact H].
Qed.

(** The model's reply is never empty: an empty one reads "No response.". *)
Lemma reply_truthy (data : Body) : JS.truthy (Text.reply data) = true.
Proof. unfold Text.reply. apply orElse_truthy, orElse_truthy. reflexivity. Qed.

(** ** The answer to the chat call *)

Lemma chatAnswers_app (t t' : list Event) :
  chatAnswers (t ++ t') = chatAnswers t ++ chatAnswers t'.
Proof. unfold chatAnswers. apply omap_app. Qed.

Lemma chatAnswers_none (t : list Event) : chatCalls t = [] -> chatAnswers t = [].
Proof.
  induction t as [|ev t IH]; [reflexivity|].
  destruct ev as [b r [a|]| | |]; try exact IH; destruct r; cbn; try exact IH; discriminate.
Qed.

(** An accepted chat turn awaits one call to [/api/chat]: the one that
    follows the calls of the augmentation. *)
Lemma chat_turn_answer (e : Env) (w : World) :
  accepted w ->
  imageToggle_checked (dom w) = false ->
  let w0 := final (openTurn e w) in
  let U := Message.mk (clock e (ticks w0)) user (text w) false in
  let w1 := mkWorld (set_messages (messages (state w0) ++ [U]) (state w0))
              (set_sendBtn_disabled true (set_input_value EmptyString (dom w)))
              (S (ticks w0)) (calls w) in
  exists prompt wa ta,
    (if webToggle_checked (dom w) then augment (text w) else ret (text w)) e w1
      = mkRun (Normal prompt) wa ta /\
    chatAnswers (trace (handleSend e w)) = [net e (calls wa)].
Proof.
  intros Ha Hi. cbn zeta.
  destruct (handleSend_open e w Ha) as (Hc & ->). rewrite Hi. cbn [final trace].
  destruct (openTurn_run e w) as (_ & _ & Hd & _ & Hcalls & Htr).
  assert (Hnone : chatAnswers (trace (openTurn e w)) = []).
  { rewrite Htr. destruct (_ && _); reflexivity. }
  set (w0 := final (openTurn e w)) in *. clearbody w0.
  set (t0 := trace (openTurn e w)) in *. clearbody t0.
  set (txt := text w) in *. clearbody txt.
  destruct (chatTurn_run txt e w0 Hc)
    as (prompt & wa & ta & w' & tail & Haug & _ & _ & Hrun & Hta & _ & _ & _ & Htl & _).
  cbn zeta in *.
  rewrite Hd, Hcalls in Haug. cbn [webToggle_checked set_sendBtn_disabled set_input_value] in Haug.
  exists prompt, wa, ta. split; [exact Haug|].
  rewrite Hrun. cbn [trace]. rewrite chatAnswers_app, Hnone. cbn [app].
  match goal with
  | |- chatAnswers (?u :: ta ++ ?a :: ?c :: tail) = _ =>
      change (chatAnswers ([u] ++ ta ++ [a; c] ++ tail) = [net e (calls wa)])
  end.
  rewrite !chatAnswers_app, (chatAnswers_none ta Hta), (chatAnswers_none tail Htl).
  reflexivity.
Qed.

(** ** The script file *)

(** X18: what a chat turn writes to disk. An accepted chat turn, with or
    without web augmentation, awaits exactly one call to [/api/chat]; with
    [a] the way that call ended, the turn sends at most one request to
    [/save-file], and sends one exactly when script mode is on, an output
    file is named, and [a] is an answer with a body that parses and a
    status other than 400. The file is the named one, and its content is
    never empty and always a run of consecutive code units of the reply
    read from [a]. *)
Theorem script_file_saved (e : Env) (w : World) :
  accepted w ->
  imageToggle_checked (dom w) = false ->
  let r := handleSend e w in
  let s := state w in
  exists a,
    chatAnswers (trace r) = [a] /\
    (webToggle_checked (dom w) = false -> a = net e (calls w)) /\
    saveCalls (trace r) = savePlan s a /\
    (length (saveCalls (trace r)) <= 1)%nat /\
    (saveCalls (trace r) <> [] <->
     scriptMode s = true /\ outputFilename s <> EmptyString /\
     exists st data, a = Resolved st (Parsed data) /\ st <> 400) /\
    (forall f c, In (PostSaveFile f c) (saveCalls (trace r)) ->
     f = outputFilename s /\ c <> EmptyString /\
     exists st data, a = Resolved st (Parsed data) /\ partOf c (Text.reply data)).
Proof.
  intros Ha Hi. cbn zeta.
  destruct (chat_turn_end e w Ha Hi)
    as (i & m & c & prompt & wa & ta & Haug & _ & _ & _ & _ & _ & Hplan & _).
  destruct (chat_turn_answer e w Ha Hi) as (prompt' & wa' & ta' & Haug' & Hans).
  cbn zeta in *. rewrite Haug in Haug'. injection Haug' as <- <- <-.
  exists (net e (calls wa)). split; [exact Hans|]. split; [|split; [exact Hplan|]].
  - intros Hweb. rewrite Hweb in Haug.
    destruct (plain_prompt _ _ _ _ _ _ Haug) as (_ & -> & _). reflexivity.
  - rewrite Hplan. unfold savePlan.
    destruct (net e (calls wa)) as [msg | st [data | msg]].
    + split; [cbn; lia|]. split; [|intros f c0 []].
      split; [congruence | intros (_ & _ & st & data & H & _); discriminate].
    + destruct (Z.eqb_spec st 400) as [-> | Hst].
      * split; [cbn; lia|]. split; [|intros f c0 []].
        split; [congruence | intros (_ & _ & st & data' & [= <- _] & H); congruence].
      * destruct (scriptMode (state w)); cbn [andb].
        -- unfold JS.truthy. destruct (outputFilename (state w)) as [|x name] eqn:Hname.
           ++ split; [cbn; lia|]. split; [|intros f c0 []].
              split; [congruence | intros (_ & H & _); congruence].
           ++ split; [cbn; lia|]. split.
              ** split; [|discriminate]. intros _. split; [reflexivity|].
                 split; [discriminate|]. exists st, data. split; [reflexivity | exact Hst].
              ** intros f c0 [[= <- <-] | []].
                 destruct (extractCode_part (Text.reply data)) as (Hpart & Hne).
                 split; [reflexivity|]. split.
                 --- apply Hne. intros Hempty.
                     pose proof (reply_truthy data) as Ht. rewrite Hempty in Ht. discriminate.
                 --- exists st, data. split; [reflexivity | exact Hpart].
        -- split; [cbn; lia|]. split; [|intros f c0 []].
           split; [congruence | intros (H & _); discriminate].
    + split; [cbn; lia|]. split; [|intros f c0 []].
      split; [congruence | intros (_ & _ & st' & data & H & _); discriminate].
Qed.

(** ** The address of a page retrieval *)

Lemma hex_safe (c : ascii) :
  let n := nat_of_ascii c in
  forall byte, In byte [n; 192 + n / 64; 128 + n mod 64]%nat ->
    JS.unreserved (JS.hexDigit (byte / 16)) = true /\
    JS.unreserved (JS.hexDigit (byte mod 16)) = true.
Proof.
  destruct c as [[] [] [] [] [] [] [] []]; intros n byte [<- | [<- | [<- | []]]];
    split; vm_compute; reflexivity.
Qed.

Lemma urlSafe_delimiter (c : ascii) : urlSafe c = true -> delimiter c = false.
Proof.
  destruct c as [[] [] [] [] [] [] [] []]; vm_compute; intros H;
    first [reflexivity | discriminate].
Qed.

Lemma encode_cons (c : ascii) (t : string) :
  JS.encodeURIComponent (String c t)
  = (if JS.unreserved c then String c (JS.encodeURIComponent t)
     else if (nat_of_ascii c <? 128)%nat
          then JS.percent (nat_of_ascii c) (JS.encodeURIComponent t)
          else JS.percent (192 + nat_of_ascii c / 64)
                 (JS.percent (128 + nat_of_ascii c mod 64) (JS.encodeURIComponent t))).
Proof. reflexivity. Qed.

(** A byte written [%XX] adds nothing but safe code units. *)
Lemma percent_safe (c : ascii) (byte : nat) (rest : string) :
  In byte [nat_of_ascii c; 192 + nat_of_ascii c / 64; 128 + nat_of_ascii c mod 64]%nat ->
  every urlSafe rest = true ->
  every (fun c => negb (delimiter c)) rest = true ->
  every urlSafe (JS.percent byte rest) = true /\
  every (fun c => negb (delimiter c)) (JS.percent byte rest) = true.
Proof.
  intros Hb H1 H2. destruct (hex_safe c byte Hb) as (Hh & Hl).
  assert (Hs1 : urlSafe (JS.hexDigit (byte / 16)) = true)
    by (unfold urlSafe; now rewrite Hh).
  assert (Hs2 : urlSafe (JS.hexDigit (byte mod 16)) = true)
    by (unfold urlSafe; now rewrite Hl).
  unfold JS.percent. cbn [every].
  rewrite H1, H2, Hs1, Hs2, (urlSafe_delimiter _ Hs1), (urlSafe_delimiter _ Hs2).
  split; reflexivity.
Qed.

(** What [encodeURIComponent] returns holds unreserved code units and
    percent signs only, and so none of the delimiters of a URL. *)
Lemma encode_safe (s : string) :
  every urlSafe (JS.encodeURIComponent s) = true /\
  every (fun c => negb (delimiter c)) (JS.encodeURIComponent s) = true.
Proof.
  induction s as [|c t (IH1 & IH2)]; [split; reflexivity|].
  rewrite encode_cons.
  destruct (JS.unreserved c) eqn:Hc.
  - cbn [every]. rewrite IH1, IH2.
    assert (Hs : urlSafe c = true) by (unfold urlSafe; now rewrite Hc).
    rewrite Hs, (urlSafe_delimiter c Hs). split; reflexivity.
  - destruct (nat_of_ascii c <? 128)%nat.
    + apply (percent_safe c); [left; reflexivity | exact IH1 | exact IH2].
    + apply (percent_safe c); [right; left; reflexivity | |];
        apply (percent_safe c); try (right; right; left; reflexivity); assumption.
Qed.

(** The page retrievals of an accepted chat turn are those of the deep
    scan. *)
Lemma turn_scrapes (e : Env) (w : World) (url : string) (browser : bool) :
  accepted w ->
  imageToggle_checked (dom w) = false ->
  In (GetScrape url browser) (requests (trace (handleSend e w))) ->
  webToggle_checked (dom w) = true /\
  In (GetScrape url browser) (scrapes (dom w) (net e (calls w))).
Proof.
  intros Ha Hi. 
  destruct (chat_turn_end e w Ha Hi)
    as (i & m & c & prompt & wa & ta & Haug & _ & _ & _ & _ & _ & _ & Hreq & _).
  destruct (openTurn_run e w) as (_ & _ & _ & _ & _ & Htr).
  cbn zeta in *. rewrite Hreq, Htr.
  apply turn_augment_requests in Haug; [|reflexivity]. cbn [calls] in Haug. rewrite Haug.
  intros Hin. repeat (apply in_app_or in Hin; destruct Hin as [Hin | Hin]).
  - destruct (_ && _); [destruct Hin as [Hin | []]; discriminate | destruct Hin].
  - destruct (webToggle_checked (dom w)); [|destruct Hin]. split; [reflexivity|].
    destruct Hin as [Hin | Hin]; [discriminate | exact Hin].
  - destruct Hin as [Hin | Hin]; [discriminate|].
    apply in_app_or in Hin. destruct Hin as [Hin | Hin].
    + exfalso. unfold savePlan in Hin. destruct (net e (calls wa)) as [|st [data|]];
        try destruct Hin. destruct (st =? 400)%Z; [destruct Hin|].
      destruct (scriptMode _ && _); [destruct Hin as [Hin | []]; discriminate | destruct Hin].
    + exfalso. destruct (listed _); [destruct Hin as [Hin | []]; discriminate | destruct Hin].
Qed.

(** X19: a page retrieval cannot break its query. Every request to
    [/scrape] that an accepted chat turn sends belongs to the deep scan of
    a search that returned results: it asks for the browser, and its [url]
    parameter is [encodeURIComponent(href)] for one of the first two
    results, that is the unreserved code units of [href] as they are and
    any other as the bytes of its UTF-8 form, each written [%XX]. So
    whatever the search returned as [href], the address sent holds only
    unreserved code units and percent signs, and none of the delimiters
    [& = ? # / : +] nor a blank. *)
Theorem scrape_url_safe (e : Env) (w : World) (url : string) (browser : bool) :
  accepted w ->
  imageToggle_checked (dom w) = false ->
  In (GetScrape url browser) (requests (trace (handleSend e w))) ->
  browser = true /\
  webToggle_checked (dom w) = true /\
  chromeToggle_checked (dom w) = true /\
  (exists st data found r,
     net e (calls w) = Resolved st (Parsed data) /\
     results data = Some found /\
     In r (firstn 2 found) /\
     url = JS.encodeURIComponent (Result.href r)) /\
  every urlSafe url = true /\
  every (fun c => negb (delimiter c)) url = true.
Proof.
  intros Ha Hi Hin. destruct (turn_scrapes e w url browser Ha Hi Hin) as (Hweb & Hs).
  unfold scrapes in Hs.
  destruct (chromeToggle_checked (dom w)); [|destruct Hs].
  destruct (net e (calls w)) as [|st [data|]] eqn:Hnet; try destruct Hs.
  destruct (results data) as [found|] eqn:Hres; [|destruct Hs].
  apply in_map_iff in Hs. destruct Hs as (r & Hr & Hfound).
  unfold scrape in Hr. injection Hr as <- <-.
  destruct (encode_safe (Result.href r)) as (H1 & H2).
  split; [reflexivity|]. split; [exact Hweb|]. split; [reflexivity|].
  split; [|split; assumption].
  exists st, data, found, r. split; [reflexivity|]. split; [exact Hres|].
  split; [exact Hfound | reflexivity].
Qed.

(** ** The connection monitor *)

Arguments set_isConnected v s /.
Arguments set_modelId v s /.

Lemma checkConnection_flag (a : Reply Status) (s : State) :
  isConnected (checkConnection a s)
  = match a with
    | Read st _ => okStatus st
    | _ => false
    end.
Proof.
  destruct a as [| st | st data]; try reflexivity.
  unfold checkConnection. cbn zeta. destruct (_ && _); reflexivity.
Qed.

(** X20: what the monitor takes for a connection. After
    [checkConnection] the bridge counts as connected exactly when the
    status call resolved with a 2xx status and a body that parses: a
    rejected call, an error status, and also a 200 whose body is not JSON
    leave it disconnected. Nothing but the connection flag and the chat
    model id is touched, and while the flag is down [handleSend] sends
    nothing and leaves the state alone, whatever is typed. *)
Theorem probe_gates_send (a : Reply Status) (s : State) (d : Dom) (t c : nat) (e : Env) :
  let s1 := checkConnection a s in
  let r := handleSend e (mkWorld s1 d t c) in
  (isConnected s1 = true <-> exists st data, a = Read st data /\ 200 <= st <= 299) /\
  s1 = set_modelId (modelId s1) (set_isConnected (isConnected s1) s) /\
  (isConnected s1 = false -> trace r = [] /\ state (final r) = s1).
Proof.
  cbn zeta. split; [|split].
  - rewrite checkConnection_flag. destruct a as [| st | st data].
    + split; [discriminate | intros (st & data & H & _); discriminate].
    + split; [discriminate | intros (st' & data & H & _); discriminate].
    + unfold okStatus. rewrite andb_true_iff, !Z.leb_le. split.
      * intros H. exists st, data. split; [reflexivity | exact H].
      * intros (st' & data' & [= <- _] & H). exact H.
  - destruct a as [| st | st data]; unfold checkConnection; cbn zeta;
      try destruct (_ && _); destruct s; reflexivity.
  - intros Hoff.
    destruct (handleSend_refused e (mkWorld (checkConnection a s) d t c)) as (_ & Hs & Ht & _).
    + right. right. exact Hoff.
    + cbn zeta in *. split; [exact Ht | exact Hs].
Qed.


(** ** The registry sync *)

(** X22: the sync forgets a session made before it. A session made by
    [createNewSession()] stays selected when [checkConnection] and then
    [syncSessions] succeed, but the registry the bridge returns replaces
    the local one: unless it holds a session with the new id, the selected
    session is no longer in the registry. *)
Theorem sync_drops_new_session (e : Env) (w : World) (a : Reply Status) (st : Z)
    (reg : list Session.t) :
  let id := JS.toString (clock e (ticks w)) in
  let s1 := state (final (createNewSession e w)) in
  let s2 := checkConnection a s1 in
  let s3 := fst (syncSessions (Read st reg) s2) in
  isConnected s2 = true ->
  okStatus st = true ->
  (forall x, In x reg -> Session.id x <> id) ->
  listed s1 = true /\
  currentSessionId s3 = Some id /\
  noSession (currentSessionId s3) = false /\
  sessions s3 = reg /\
  listed s3 = false.
Proof.
  cbn zeta. intros Hc Hok Hnew.
  set (s1 := state (final (createNewSession e w))) in *.
  assert (H1 : currentSessionId s1 = Some (JS.toString (clock e (ticks w))) /\
               listed s1 = true).
  { unfold s1, listed. cbn. destruct (isConnected (state w)); cbn;
      (split; [reflexivity|]);
      match goal with
      | |- context [findSession (Some ?i) (?x :: ?l)] =>
          change (findSession (Some i) (x :: l))
            with (findSession (Some (Session.id x)) (x :: l));
          rewrite findSession_head
      end; reflexivity. }
  destruct H1 as (Hcur & Hlisted). clearbody s1.
  assert (H2 : currentSessionId (checkConnection a s1) = currentSessionId s1).
  { destruct a as [| st' | st' data]; unfold checkConnection; cbn zeta;
      try destruct (_ && _); reflexivity. }
  unfold syncSessions. rewrite Hc, Hok. cbn [negb fst].
  split; [exact Hlisted|]. unfold listed. cbn. rewrite H2, Hcur.
  split; [reflexivity|]. split; [cbn; now rewrite toString_truthy|]. split; [reflexivity|].
  replace (findSession _ reg) with (@None (nat * Session.t)); [reflexivity|].
  symmetry. unfold findSession. apply list_find_None. apply Forall_forall.
  intros x Hx [= Heq]. apply list_elem_of_In in Hx. exact (Hnew x Hx Heq).
Qed.

(** ** The settings panel *)

(** X23: saving the settings twice is saving them once, and an id is
    never cleared by it. [saveSettings] leaves the registry, the
    selection, the transcript, the connection flag and the gate alone;
    applied again to the same form it changes nothing more; and a chat
    or image model id that was set stays set, since an empty field keeps
    the id there was. *)
Theorem saveSettings_settles (f : Form) (s : State) :
  let s1 := saveSettings f s in
  saveSettings f s1 = s1 /\
  (sessions s1, currentSessionId s1, messages s1, isConnected s1, isThinking s1)
  = (sessions s, currentSessionId s, messages s, isConnected s, isThinking s) /\
  (JS.truthy (modelId s) = true -> JS.truthy (modelId s1) = true) /\
  (JS.truthy (imageModelId s) = true -> JS.truthy (imageModelId s1) = true).
Proof.
  cbn zeta. unfold saveSettings. cbn. split; [|split; [reflexivity|split]].
  - assert (Hor : forall a b, JS.or a (JS.or a b) = JS.or a b)
      by (intros a b; unfold JS.or; destruct (JS.truthy a); reflexivity).
    destruct (String.eqb (inputInferenceMode f) "local"); now rewrite !Hor.
  - intros H. destruct (String.eqb (inputInferenceMode f) "local"); unfold JS.or;
      match goal with |- context [if JS.truthy ?x then _ else _] =>
        destruct (JS.truthy x) eqn:E end; assumption.
  - intros H. unfold JS.or. destruct (JS.truthy (imageModelSelector f)) eqn:E; assumption.
Qed.

(** ** The chat model id *)

(** X24: who can clear the chat model id. A chat model id that is set
    stays set over [checkConnection] and [syncSessions], whatever the
    bridge answers; [loadLocalModel] clears it in one case only: the
    bridge is connected and answers the load with a 2xx status and a body
    that names no model. Offline, [syncSessions] and [loadLocalModel] send
    nothing and change nothing. *)
Theorem model_id_cleared_by_load_only (s : State) :
  JS.truthy (modelId s) = true ->
  (forall a, JS.truthy (modelId (checkConnection a s)) = true) /\
  (forall a, JS.truthy (modelId (fst (syncSessions a s))) = true) /\
  (forall name a,
     JS.truthy (modelId (fst (loadLocalModel name a s))) = false <->
     isConnected s = true /\
     exists st data, a = Resolved st (Parsed data) /\ okStatus st = true /\
                     JS.present (model data) = false) /\
  (isConnected s = false ->
   (forall a, syncSessions a s = (s, [])) /\
   (forall name a, loadLocalModel name a s = (s, []))).
Proof.
  intros Ht. split; [|split; [|split]].
  - intros [| st | st data]; unfold checkConnection; cbn zeta; try exact Ht.
    destruct (current_model data) as [m|] eqn:Hm; cbn [JS.present andb]; [|exact Ht].
    destruct (JS.truthy m) eqn:E; cbn [andb]; [|exact Ht].
    destruct (String.eqb _ _); cbn; [exact E | exact Ht].
  - intros a. unfold syncSessions. destruct (isConnected s); cbn [negb fst]; [|exact Ht].
    destruct a as [| st | st data]; try exact Ht. destruct (okStatus st); exact Ht.
  - intros name a. unfold loadLocalModel.
    destruct (isConnected s); cbn [negb fst].
    + destruct a as [msg | st [data | msg]].
      * rewrite Ht. split; [discriminate | intros (_ & st & data & H & _); discriminate].
      * destruct (okStatus st) eqn:Hok.
        -- cbn. destruct (model data) as [m|] eqn:Hm; cbn.
           ++ split.
              ** intros H. split; [reflexivity|]. exists st, data.
                 rewrite Hm. cbn. repeat split; assumption.
              ** intros (_ & st' & data' & [= <- <-] & _ & H). rewrite Hm in H. exact H.
           ++ split.
              ** intros _. split; [reflexivity|]. exists st, data.
                 rewrite Hm. repeat split; assumption.
              ** reflexivity.
        -- rewrite Ht. split; [discriminate|].
           intros (_ & st' & data' & [= <- <-] & H & _). congruence.
      * rewrite Ht. split; [discriminate | intros (_ & st' & data & H & _); discriminate].
    + rewrite Ht. split; [discriminate | intros (H & _); discriminate].
  - intros Hoff. unfold syncSessions, loadLocalModel. rewrite Hoff. split; reflexivity.
Qed.

(** ** Two turns in a row *)

(** X25: the next turn remembers the last one. After an accepted chat
    turn without web augmentation, under a clock that never repeats a
    reading nor gives the id of a stored message, a second chat turn sends
    one chat request that carries, after the system message and the
    messages stored before, the first prompt, then as the assistant's
    message whatever the first turn left in place of its placeholder (the
    reply, but also a 400 report or a connection error), then the new
    prompt. *)
Theorem second_turn_remembers (e : Env) (w : World) (text2 : string) :
  accepted w ->
  imageToggle_checked (dom w) = false ->
  webToggle_checked (dom w) = false ->
  freshClock e w ->
  JS.truthy (JS.trim text2) = true ->
  let w1 := final (handleSend e w) in
  let w2 := mkWorld (state w1) (set_input_value text2 (dom w1)) (ticks w1) (calls w1) in
  let s := state w in
  chatCalls (trace (handleSend e w2))
  = [PostChat
       (Outbound.mk system (Text.sys s)
        :: map plain (List.filter (fun m => negb (Message.isTransient m)) (stored w))
        ++ [Outbound.mk user (text w);
            Outbound.mk assistant (turnVerdict s (net e (calls w)) (net e (S (calls w))));
            Outbound.mk user (JS.trim text2)])
       (JS.or (modelId s) "llama3") (inferenceMode s) (ollamaUrl s)
       (temperature s) (maxTokens s)].
Proof.
  intros Ha Hi Hweb (Hinj & Hstored) Ht2. cbn zeta.
  destruct (chat_turn_end e w Ha Hi)
    as (i & m & c & prompt & wa & ta & Haug & Hfind & Hmsgs & Hcur & _ & _ & _ & _ & Hverdict
        & Hframe & Hdom & Hticks).
  destruct (handleSend_open e w Ha) as (Hc & _).
  pose proof (openTurn_selects_id e w) as Hsel.
  destruct (openTurn_run e w) as (_ & Hs & _).
  destruct (opened_transcript e w) as (Hm & Ht).
  cbn zeta in *. rewrite Hm, Ht in *. rewrite Hweb in Haug, Hdom.
  destruct (plain_prompt _ _ _ _ _ _ Haug) as (_ & -> & _). cbn [calls] in Hverdict.
  assert (Hfresh : forall x, In x (stored w ++ [Message.mk (clock e (turnTick w)) user (text w) false])
                     -> Message.id x
                        <> Message.id (Message.mk (clock e (S (turnTick w))) assistant
                                         Text.thinking true)).
  { intros x Hx. cbn. apply in_app_or in Hx. destruct Hx as [Hx | [<- | []]].
    - apply Hstored. unfold stored in Hx. destruct (noSession (currentSessionId (state w))); [destruct Hx | exact Hx].
    - cbn. intros Heq. apply Hinj in Heq. lia. }
  rewrite (findMessage_fresh _ _ Hfresh) in Hfind. injection Hfind as <- <-.
  rewrite insert_last, <- app_assoc in Hmsgs. cbn [app Message.resolve Message.id Message.role] in Hmsgs.
  assert (Hset : Text.sys (state (final (handleSend e w))) = Text.sys (state w) /\
                 modelId (state (final (handleSend e w))) = modelId (state w) /\
                 inferenceMode (state (final (handleSend e w))) = inferenceMode (state w) /\
                 ollamaUrl (state (final (handleSend e w))) = ollamaUrl (state w) /\
                 temperature (state (final (handleSend e w))) = temperature (state w) /\
                 maxTokens (state (final (handleSend e w))) = maxTokens (state w) /\
                 isThinking (state (final (handleSend e w))) = false /\
                 isConnected (state (final (handleSend e w))) = true).
  { destruct Ha as (_ & _ & Hconn). rewrite Hs in Hframe. rewrite Hframe.
    destruct (noSession (currentSessionId (state w))); cbn; repeat split;
      first [reflexivity | exact Hconn]. }
  destruct Hset as (H0 & H1 & H2 & H3 & H4 & H5 & H6 & H7).
  set (w1 := final (handleSend e w)) in *. clearbody w1.
  set (w2 := mkWorld (state w1) (set_input_value text2 (dom w1)) (ticks w1) (calls w1)).
  assert (Hi2 : imageToggle_checked (dom w2) = false) by (unfold w2; rewrite Hdom; exact Hi).
  assert (Hweb2 : webToggle_checked (dom w2) = false) by (unfold w2; rewrite Hdom; exact Hweb).
  assert (Ha2 : accepted w2).
  { unfold accepted, text, w2. cbn. repeat split; assumption. }
  assert (Hstored2 : stored w2 = stored w
                       ++ [Message.mk (clock e (turnTick w)) user (text w) false;
                           Message.mk (clock e (S (turnTick w))) assistant c false]).
  { unfold stored at 1, w2. cbn [state]. rewrite Hcur, Hsel. exact Hmsgs. }
  assert (Htick2 : turnTick w2 = S (S (turnTick w))).
  { unfold turnTick at 1, w2. cbn [state ticks]. rewrite Hcur, Hsel. exact Hticks. }
  assert (Htext2 : text w2 = JS.trim text2) by reflexivity.
  change (state w2) with (state w1) in *.
  destruct (chat_turn_request e w2 Ha2 Hi2) as (prompt2 & wa2 & ta2 & Haug2 & ->).
  cbn zeta in Haug2. rewrite Hweb2 in Haug2.
  destruct (plain_prompt _ _ _ _ _ _ Haug2) as (-> & _).
  rewrite Hstored2, Htick2. cbn [Message.id].
  rewrite conversationHistory_plain.
  - change (state w2) with (state w1). rewrite H0, H1, H2, H3, H4, H5, Htext2.
    rewrite List.filter_app, map_app, <- app_assoc.
    cbn [List.filter Message.isTransient negb map app].
    unfold plain at 2 3. cbn [Message.role Message.content].
    rewrite Hverdict. reflexivity.
  - intros x Hx. apply in_app_or in Hx. destruct Hx as [Hx | [<- | [<- | []]]].
    + apply Hstored. unfold stored in Hx. destruct (noSession (currentSessionId (state w))); [destruct Hx | exact Hx].
    + cbn. intros Heq. apply Hinj in Heq. lia.
    + cbn. intros Heq. apply Hinj in Heq. lia.
Qed.

(** * The connection monitor during a turn *)

Arguments Live.start p r _ _ /.
Arguments Live.fetch p r _ _ /.
Arguments Live.loadImageModel : simpl never.
Arguments Live.generateImage p text _ _ /.
Arguments Live.imageRequest p thinkingId text _ _ /.
Arguments Live.imageTurn : simpl never.
Arguments Live.deepScan p found _ _ /.
Arguments Live.augment : simpl never.
Arguments Live.chatRequest : simpl never.
Arguments Live.chatTurn : simpl never.
Arguments Live.handleSend p _ _ /.
Arguments watch : simpl never.
Arguments loadedModel : simpl never.

(** The handlers of the dispatcher are the handlers under the quiet
    monitor. *)
Lemma quiet_handleSend : Live.handleSend quiet = handleSend.
Proof. reflexivity. Qed.

(** ** What a status check leaves of the state *)

Lemma checkConnection_frame (a : Reply Status) (s : State) :
  exists b m, checkConnection a s = set_modelId m (set_isConnected b s).
Proof.
  destruct a as [|st|st data]; cbn.
  - exists false, (modelId s). reflexivity.
  - exists false, (modelId s). reflexivity.
  - destruct (JS.present (current_model data) && String.eqb (inferenceMode s) "local").
    + eexists _, _. reflexivity.
    + exists (okStatus st), (modelId s). reflexivity.
Qed.

(** The status checks write the connection flag and the chat model id,
    and nothing else. *)
Lemma watch_frame (l : list (Reply Status)) (s : State) :
  exists b m, watch l s = set_modelId m (set_isConnected b s).
Proof.
  unfold watch. revert s. induction l as [|a l IH]; intros s.
  - exists (isConnected s), (modelId s). destruct s; reflexivity.
  - cbn [fold_left]. destruct (checkConnection_frame a s) as (b & m & ->).
    destruct (IH (set_modelId m (set_isConnected b s))) as (b' & m' & ->).
    exists b', m'. reflexivity.
Qed.

(** The flag they leave depends on the flag they find only. *)
Lemma watch_flag (l : list (Reply Status)) (s s' : State) :
  isConnected s = isConnected s' ->
  isConnected (watch l s) = isConnected (watch l s').
Proof.
  unfold watch. revert s s'. induction l as [|a l IH]; intros s s' H; [exact H|].
  cbn [fold_left]. apply IH.
  destruct a as [|st|st data]; cbn; try reflexivity.
  destruct (_ && _), (_ && _); reflexivity.
Qed.

(** Replace the state that an awaited call hands back by the state before
    the call, with the flag and the model id the checks have left. *)
Ltac watched :=
  match goal with
  | |- context [watch ?l ?s] =>
      let b := fresh "up" in
      let m := fresh "mid" in
      let F := fresh "F" in
      let Hb := fresh "Hup" in
      destruct (watch_frame l s) as (b & m & F);
      assert (Hb : isConnected (watch l s) = b) by (rewrite F; reflexivity);
      rewrite F; clear F
  end.

(** ** The image branch *)

(** [loadImageModel] sends nothing when the flag is down; otherwise it
    sends the load, and the image model id follows the answer. *)
Lemma loadImageModel_run (p : Monitor) (name : string) (e : Env) (w : World) :
  Live.loadImageModel p name e w
  = if isConnected (state w)
    then
      let a := net e (calls w) in
      let s' := watch (p (calls w)) (state w) in
      mkRun (Normal tt)
        (mkWorld (set_imageModelId (loadedModel (state w) a) s') (dom w) (ticks w)
           (S (calls w)))
        [Call (backendUrl (state w))
           (PostLoadImageModel name (imageModelsPath (state w))) (Some a)]
    else mkRun (Normal tt) w [].
Proof.
  unfold Live.loadImageModel, loadedModel. cbn.
  destruct (isConnected (state w)); cbn; [|destruct w; reflexivity].
  destruct (watch_frame (p (calls w)) (state w)) as (b & m & ->). cbn.
  case_answer e (calls w); cbn; try reflexivity.
  - destruct (ok _); cbn; reflexivity.
  - destruct (ok _); cbn; reflexivity.
Qed.

(** One more split of a stuck run under the monitor. *)
Ltac split_live e :=
  first
    [ rewrite loadImageModel_run
    | watched
    | match goal with
      | |- context [if negb ?b then _ else _] => is_var b; destruct b
      | |- context [if ?b then _ else _] => is_var b; destruct b
      end
    | split_run e ].

Ltac live e := repeat (split_live e; go).

(** Where an image turn ends under the monitor: nothing is thrown; the
    calls are the generation and, after a 400 with a model id configured,
    the load, if the flag is still up when that answer arrives, and one
    more generation; the placeholder takes the text that the generation
    call looked at last decides. *)
Lemma imageTurn_live (p : Monitor) (txt : string) (e : Env) (w : World) :
  let A := Message.mk (clock e (ticks w)) assistant Text.painting true in
  let s := state w in
  let k := calls w in
  let up := isConnected (watch (p k) s) in
  let lazy := lazyLoad s (net e k) in
  let generate := PostGenerateImage txt (imageSubfolder s) (imageModelsPath s) in
  let load := PostLoadImageModel (imageModelId s) (imageModelsPath s) in
  let c := imageVerdict txt
             (if lazy then if up then net e (S (S k)) else net e (S k) else net e k) in
  let r := Live.imageTurn p txt e w in
  exists i m,
    outcome r = Normal tt /\
    findMessage (Message.id A) (messages s ++ [A]) = Some (i, m) /\
    messages (state (final r)) = <[i := Message.resolve c m]> (messages s ++ [A]) /\
    imageModelId (state (final r))
    = (if lazy && up then loadedModel s (net e (S k)) else imageModelId s) /\
    sessions (state (final r)) = sessions s /\
    currentSessionId (state (final r)) = currentSessionId s /\
    isThinking (state (final r)) = false /\
    appended (trace r) = [A] /\
    updates (trace r) = [Replaced i (Message.id A) c] /\
    imageCalls (trace r)
    = (generate, Some (net e k))
      :: (if lazy then
            if up
            then [(load, Some (net e (S k))); (generate, Some (net e (S (S k))))]
            else [(generate, Some (net e (S k)))]
          else []) /\
    sessionPosts (trace r) = [] /\ chatCalls (trace r) = [] /\
    webCalls (trace r) = [] /\ saveCalls (trace r) = [].
Proof.
  cbn zeta.
  set (up := isConnected (watch (p (calls w)) (state w))).
  assert (Hflag : forall s', isConnected s' = isConnected (state w) ->
                    isConnected (watch (p (calls w)) s') = up)
    by (intros s' H; apply watch_flag; exact H).
  clearbody up.
  unfold Live.imageTurn. go. watched.
  match type of Hup with
  | isConnected (watch _ ?X) = _ => rewrite (Hflag X eq_refl) in Hup
  end.
  subst up0. go.
  live e; unfold lazyLoad, loadedModel, imageVerdict; go;
    (eexists _, _; split; [reflexivity|]; split; [first [eassumption | reflexivity]|];
     repeat split; reflexivity).
Qed.

(** An accepted turn under the monitor is the opening and then the branch
    the image toggle selects. *)
Lemma handleSend_live (p : Monitor) (e : Env) (w : World) :
  accepted w ->
  let o := openTurn e w in
  let b := (if imageToggle_checked (dom w)
            then Live.imageTurn p (text w) else Live.chatTurn p (text w)) e (final o) in
  isConnected (state (final o)) = true /\
  Live.handleSend p e w = mkRun (outcome b) (final b) (trace o ++ trace b).
Proof.
  intros (Ht & Hk & Hc). unfold text in *. cbn zeta. go.
  destruct (noSession (currentSessionId (state w))); go;
    (split; [reflexivity|]);
    destruct (imageToggle_checked (dom w)); go;
    match goal with
    | |- context [Live.imageTurn p ?t e ?W] => destruct (Live.imageTurn p t e W) as [[] ? ?]
    | |- context [Live.chatTurn p ?t e ?W] => destruct (Live.chatTurn p t e W) as [[] ? ?]
    end; reflexivity.
Qed.

(** An accepted image turn under the monitor, seen from the world the
    opening leaves. *)
Lemma image_turn_live (p : Monitor) (e : Env) (w : World) :
  accepted w ->
  imageToggle_checked (dom w) = true ->
  let r := Live.handleSend p e w in
  let s := state w in
  let A := Message.mk (clock e (turnTick w)) assistant Text.painting true in
  let c := imageVerdict (text w) (lastGenerated p e w) in
  exists i m,
    findMessage (Message.id A) (stored w ++ [A]) = Some (i, m) /\
    messages (state (final r)) = <[i := Message.resolve c m]> (stored w ++ [A]) /\
    imageModelId (state (final r))
    = (if lazyLoad s (net e (calls w)) && stillUp p w
       then loadedModel s (net e (S (calls w))) else imageModelId s) /\
    appended (trace r) = [A] /\
    updates (trace r) = [Replaced i (Message.id A) c] /\
    imageCalls (trace r) = imagePlan p e w /\
    chatCalls (trace r) = [] /\ webCalls (trace r) = [] /\ saveCalls (trace r) = [] /\
    sessionPosts (trace r) = opened e w.
Proof.
  intros Ha Hi. cbn zeta.
  destruct (handleSend_live p e w Ha) as (Hc & ->). rewrite Hi. cbn [final trace].
  destruct (opened_transcript e w) as (Hm & Ht).
  destruct (openTurn_run e w) as (_ & Hs & _ & _ & Hcalls & Htr).
  assert (Hset : imageSubfolder (state (final (openTurn e w))) = imageSubfolder (state w) /\
                 imageModelsPath (state (final (openTurn e w))) = imageModelsPath (state w) /\
                 imageModelId (state (final (openTurn e w))) = imageModelId (state w)).
  { cbn zeta in Hs. rewrite Hs. destruct (noSession _); repeat split; reflexivity. }
  destruct Hset as (Hsub & Hpath & Hid).
  assert (Hquiet : imageCalls (trace (openTurn e w)) = [] /\ chatCalls (trace (openTurn e w)) = []
                   /\ webCalls (trace (openTurn e w)) = []
                   /\ saveCalls (trace (openTurn e w)) = []
                   /\ appended (trace (openTurn e w)) = []
                   /\ updates (trace (openTurn e w)) = []).
  { cbn zeta in Htr. rewrite Htr. destruct (_ && _); repeat split; reflexivity. }
  destruct Hquiet as (Hq1 & Hq2 & Hq3 & Hq4 & Hq5 & Hq6).
  assert (Hflag : isConnected (watch (p (calls w)) (state (final (openTurn e w))))
                  = stillUp p w).
  { apply watch_flag. rewrite Hc. symmetry. apply Ha. }
  unfold opened, imagePlan, lastGenerated.
  set (up := stillUp p w) in *. clearbody up.
  set (w0 := final (openTurn e w)) in *. clearbody w0.
  set (t0 := trace (openTurn e w)) in *. clearbody t0.
  set (txt := text w) in *. clearbody txt.
  destruct (imageTurn_live p txt e w0)
    as (i & m & _ & Hfind & Hmsgs & Hmodel & _ & _ & _ & Happ & Hupd & Himg & Hposts
        & Hchat & Hweb & Hsave).
  cbn zeta in *.
  unfold lazyLoad, loadedModel in *.
  rewrite Hm, Ht, ?Hsub, ?Hpath, ?Hid, ?Hcalls, ?Hflag in *.
  exists i, m. split; [exact Hfind|]. split; [exact Hmsgs|]. split; [exact Hmodel|].
  rewrite appended_app, updates_app, Hq5, Hq6, Happ, Hupd.
  unfold imageCalls, chatCalls, webCalls, saveCalls in *.
  rewrite sessionPosts_app, !omap_app, Hq1, Hq2, Hq3, Hq4, Himg, Hposts, Hchat, Hweb, Hsave.
  rewrite ?app_nil_r. cbn [app]. repeat split; reflexivity.
Qed.

(** ** The lazy load of the image model *)

(** C5, as amended: in image mode, when the first generation call returns
    HTTP 400 and an image model id is configured, the calls to the image
    endpoints are the generation, the load of the configured model, and
    one more generation, in this order, if the bridge still counts as
    connected when the first answer arrives; if a status check has lowered
    the flag meanwhile, [loadImageModel] returns at once and they are the
    two generations, without a load. Whatever the monitor does there is no
    third generation. The placeholder is the only message appended, and
    [updateMessage] is called once, with the id of the placeholder and the
    text that the outcome of the second generation decides; when that id
    is the id of no stored message, the transcript ends with the
    placeholder holding this text, no longer transient. *)
Theorem image_lazy_load_once (p : Monitor) (e : Env) (w : World) (pl : Payload) :
  accepted w ->
  imageToggle_checked (dom w) = true ->
  JS.truthy (imageModelId (state w)) = true ->
  net e (calls w) = Resolved 400 pl ->
  let r := Live.handleSend p e w in
  let s := state w in
  let k := calls w in
  let generate := PostGenerateImage (text w) (imageSubfolder s) (imageModelsPath s) in
  let load := PostLoadImageModel (imageModelId s) (imageModelsPath s) in
  let second := if stillUp p w then net e (S (S k)) else net e (S k) in
  imageCalls (trace r)
  = (if stillUp p w
     then [(generate, Some (net e k)); (load, Some (net e (S k)));
           (generate, Some (net e (S (S k))))]
     else [(generate, Some (net e k)); (generate, Some (net e (S k)))]) /\
  exists A i,
    appended (trace r) = [A] /\
    Message.content A = Text.painting /\
    updates (trace r) = [Replaced i (Message.id A) (imageVerdict (text w) second)] /\
    ((forall m, In m (stored w) -> Message.id m <> Message.id A) ->
     messages (state (final r))
     = stored w
       ++ [Message.mk (Message.id A) assistant (imageVerdict (text w) second) false]).
Proof.
  intros Ha Hi Hm Hn. cbn zeta.
  destruct (image_turn_live p e w Ha Hi)
    as (i & m & Hfind & Hmsgs & _ & Happ & Hupd & Himg & _).
  cbn zeta in *. unfold imagePlan, lastGenerated, lazyLoad in *.
  rewrite Hn, Hm in *. cbn [Z.eqb Pos.eqb andb] in *.
  split; [rewrite Himg; destruct (stillUp p w); reflexivity|].
  eexists _, i. split; [exact Happ|]. split; [reflexivity|]. split; [exact Hupd|].
  intros Hfresh. rewrite Hmsgs.
  rewrite findMessage_fresh in Hfind by exact Hfresh.
  injection Hfind as <- <-. rewrite insert_last. reflexivity.
Qed.

(** ** The calls of an image turn *)

(** X15: an image turn talks to the image endpoints only. An accepted
    image turn sends no chat request, no search, no page retrieval and no
    file to save, and posts no registry but the one of a session made when
    the turn opens (a first prompt in image mode posts that one). To the
    image endpoints it sends the generation and, after a 400 with an image
    model id configured, the load and one more generation; the load is
    left out when a status check has lowered the connection flag while the
    first generation was pending. The image model id changes only through
    the answer to a load that was sent. *)
Theorem image_turn_calls (p : Monitor) (e : Env) (w : World) :
  accepted w ->
  imageToggle_checked (dom w) = true ->
  let r := Live.handleSend p e w in
  let s := state w in
  let k := calls w in
  let generate := PostGenerateImage (text w) (imageSubfolder s) (imageModelsPath s) in
  let load := PostLoadImageModel (imageModelId s) (imageModelsPath s) in
  imageCalls (trace r)
  = (generate, Some (net e k))
    :: (if lazyLoad s (net e k) then
          if stillUp p w
          then [(load, Some (net e (S k))); (generate, Some (net e (S (S k))))]
          else [(generate, Some (net e (S k)))]
        else []) /\
  imageModelId (state (final r))
  = (if lazyLoad s (net e k) && stillUp p w
     then loadedModel s (net e (S k)) else imageModelId s) /\
  chatCalls (trace r) = [] /\
  webCalls (trace r) = [] /\
  saveCalls (trace r) = [] /\
  sessionPosts (trace r) = opened e w /\
  opened e w
  = (if noSession (currentSessionId s)
     then [Session.mk (JS.toString (clock e (ticks w))) "New Session"
             (clock e (S (ticks w))) [] :: sessions s]
     else []).
Proof.
  intros Ha Hi. cbn zeta.
  destruct (image_turn_live p e w Ha Hi)
    as (i & m & _ & _ & Hmodel & _ & _ & Himg & Hchat & Hweb & Hsave & Hposts).
  cbn zeta in *.
  split; [exact Himg|]. split; [exact Hmodel|]. split; [exact Hchat|].
  split; [exact Hweb|]. split; [exact Hsave|]. split; [exact Hposts|].
  unfold opened. destruct (openTurn_run e w) as (_ & _ & _ & _ & _ & ->).
  destruct Ha as (_ & _ & ->). rewrite andb_true_r.
  destruct (noSession _); reflexivity.
Qed.

(** ** The chat branch *)

(** The augmentation under the monitor: it always hands a prompt on; of
    the state it leaves what the status checks have written, and it calls
    nothing but the search and the page retrieval. *)
Lemma augment_live (p : Monitor) (text : string) (e : Env) (w : World) :
  exists prompt b mid c t,
    Live.augment p text e w
    = mkRun (Normal prompt)
        (mkWorld (set_modelId mid (set_isConnected b (state w)))
           (set_contextInfo_hidden true (dom w)) (ticks w) c) t /\
    Forall (fun ev => exists b r a, ev = Call b r (Some a) /\ isWeb r = true) t.
Proof.
  unfold Live.augment. cbn. watched. case_answer e (calls w); go.
  - eexists _, _, _, _, _. split; [reflexivity|]. repeat constructor; eauto.
  - destruct (results data) as [[|r rest]|]; go.
    + eexists _, _, _, _, _. split; [reflexivity|]. repeat constructor; eauto.
    + destruct (chromeToggle_checked (dom w)) eqn:Hchrome; go.
      * destruct rest as [|r2 rest]; go.
        -- watched. case_answer e (S (calls w)); go;
             (eexists _, _, _, _, _; split; [reflexivity|]; repeat constructor; eauto).
        -- watched. go. watched. case_answer e (S (calls w)); go;
           case_answer e (S (S (calls w))); go;
             (eexists _, _, _, _, _; split; [reflexivity|]; repeat constructor; eauto).
      * eexists _, _, _, _, _. split; [reflexivity|]. repeat constructor; eauto.
    + eexists _, _, _, _, _. split; [reflexivity|]. repeat constructor; eauto.
  - eexists _, _, _, _, _. split; [reflexivity|]. repeat constructor; eauto.
Qed.

(** The [try] block of the chat branch with its [catch]: nothing is
    thrown on; the placeholder is resolved, the status checks may have
    written the flag and the model id, and no registry is posted. *)
Lemma chatRequest_live (p : Monitor) (id : Z) (hist : list Outbound.t) (e : Env) (w : World)
    (i : nat) (m : Message.t) :
  findMessage id (messages (state w)) = Some (i, m) ->
  exists c b mid k t,
    tryCatch (Live.chatRequest p id hist)
      (fun message => updateMessage id (Text.connectionError message)) e w
    = mkRun (Normal tt)
        (mkWorld
           (set_modelId mid (set_isConnected b
              (set_messages (<[i := Message.resolve c m]> (messages (state w))) (state w))))
           (dom w) (ticks w) k) t /\
    sessionPosts t = [].
Proof.
  intros Hfind. unfold Live.chatRequest. cbn. watched. go.
  live e; rewrite ?list_insert_insert_eq;
    (eexists _, _, _, _, _; split; reflexivity).
Qed.

(** Where a chat turn ends under the monitor: nothing is thrown; the
    transcript is the stored one with the user's message and the
    placeholder, the latter resolved; the selected session, if the
    registry holds it, takes the transcript; and the registry is posted if
    it does and the flag is up at that moment. *)
Lemma chatTurn_live (p : Monitor) (txt : string) (e : Env) (w : World) :
  let U := Message.mk (clock e (ticks w)) user txt false in
  let A := Message.mk (clock e (S (ticks w))) assistant Text.thinking true in
  let r := Live.chatTurn p txt e w in
  let s := state w in
  exists i m c,
    outcome r = Normal tt /\
    findMessage (Message.id A) ((messages s ++ [U]) ++ [A]) = Some (i, m) /\
    messages (state (final r)) = <[i := Message.resolve c m]> ((messages s ++ [U]) ++ [A]) /\
    currentSessionId (state (final r)) = currentSessionId s /\
    sessions (state (final r))
    = match findSession (currentSessionId s) (sessions s) with
      | Some (j, session) =>
          <[j := Session.mk (Session.id session)
                   (retitled session (messages (state (final r))))
                   (Session.timestamp session) (messages (state (final r)))]>
            (sessions s)
      | None => sessions s
      end /\
    sessionPosts (trace r)
    = (if listed s && isConnected (state (final r))
       then [sessions (state (final r))] else []).
Proof.
  cbn zeta. unfold Live.chatTurn, listed.
  destruct (findMessage_last
              (messages (state w) ++ [Message.mk (clock e (ticks w)) user txt false])
              (Message.mk (clock e (S (ticks w))) assistant Text.thinking true))
    as (i & m & Hfind).
  cbn [Message.id] in Hfind. exists i, m.
  destruct (webToggle_checked (dom w)) eqn:Hweb.
  - cbn -[tryFinally tryCatch]. rewrite Hweb.
    match goal with
    | |- context [Live.augment p txt e ?w1] =>
        destruct (augment_live p txt e w1) as (prompt & b0 & mid0 & c0 & ta & Hrun & Hw)
    end.
    rewrite Hrun. destruct (web_only_posts ta Hw) as (Hw1 & _).
    cbn -[tryFinally tryCatch]. unfold tryFinally.
    match goal with
    | |- context [tryCatch (Live.chatRequest p ?id ?h) ?handler e ?W] =>
        destruct (chatRequest_live p id h e W i m Hfind)
          as (c & b & mid & k & t & Hreq & Hposts)
    end.
    rewrite Hreq. exists c. unfold sessionPosts in *.
    go. destruct (findSession (currentSessionId (state w)) (sessions (state w)))
      as [[j session]|] eqn:Hsession; go; [destruct b; go|];
      repeat (rewrite ?omap_app, ?Hw1, ?Hposts; cbn); repeat split; reflexivity.
  - cbn -[tryFinally tryCatch]. rewrite Hweb.
    cbn -[tryFinally tryCatch]. unfold tryFinally.
    match goal with
    | |- context [tryCatch (Live.chatRequest p ?id ?h) ?handler e ?W] =>
        destruct (chatRequest_live p id h e W i m Hfind)
          as (c & b & mid & k & t & Hreq & Hposts)
    end.
    rewrite Hreq. exists c. unfold sessionPosts in *.
    go. destruct (findSession (currentSessionId (state w)) (sessions (state w)))
      as [[j session]|] eqn:Hsession; go; [destruct b; go|];
      rewrite ?omap_app, ?Hposts; cbn; repeat split; reflexivity.
Qed.

(** ** The registry after a chat turn *)

(** X4: a chat turn in a listed session is recorded. When the selection
    is kept, an accepted chat turn ends, whatever the bridge answers and
    whatever the connection monitor does meanwhile, with the selected
    session updated in its place in the registry: it keeps its id and its
    timestamp, holds the transcript as it is shown, and takes the first 30
    code units of the first message as its title if it still had the
    default one. The other sessions are untouched. The final registry is
    posted to [/sessions], after the one of the opening, exactly when the
    bridge still counts as connected at the end of the turn: when a status
    check has lowered the flag, nothing more is posted, and the bridge
    does not learn of the turn. *)
Theorem chat_turn_synced (p : Monitor) (e : Env) (w : World) :
  accepted w ->
  imageToggle_checked (dom w) = false ->
  selectionKept (state w) ->
  let w0 := final (openTurn e w) in
  let r := Live.handleSend p e w in
  let s' := state (final r) in
  exists j old,
    findSession (currentSessionId (state w0)) (sessions (state w0)) = Some (j, old) /\
    let session := Session.mk (Session.id old) (retitled old (messages s'))
                     (Session.timestamp old) (messages s') in
    sessions s' = <[j := session]> (sessions (state w0)) /\
    findSession (currentSessionId s') (sessions s') = Some (j, session) /\
    sessionPosts (trace r)
    = opened e w ++ (if isConnected s' then [sessions s'] else []).
Proof.
  intros Ha Hi Hinv. cbn zeta.
  destruct (handleSend_live p e w Ha) as (_ & ->). rewrite Hi. cbn [final trace].
  destruct (openTurn_selects e w Hinv) as (_ & Hlist & _). cbn zeta in Hlist.
  unfold opened.
  set (w0 := final (openTurn e w)) in *. clearbody w0.
  set (t0 := trace (openTurn e w)) in *. clearbody t0.
  set (txt := text w) in *. clearbody txt.
  destruct (chatTurn_live p txt e w0) as (i & m & c & _ & _ & _ & Hcur & Hsess & Hposts).
  cbn zeta in *. rewrite Hlist in Hposts. cbn [andb] in Hposts. unfold listed in Hlist.
  destruct (findSession _ _) as [[j old]|] eqn:Hf in Hlist; [|discriminate].
  rewrite Hf in Hsess. exists j, old. split; [exact Hf|]. split; [exact Hsess|].
  rewrite Hcur, sessionPosts_app, Hposts. split; [|reflexivity].
  rewrite Hsess at 1. eapply findSession_insert; [exact Hf | reflexivity].
Qed.

(** ** The further properties on concrete situations *)

Lemma ticking_fresh (w : World) :
  messages (state w) = [] -> freshClock (mkEnv Scenario.ticking (net Scenario.helloEnv)) w.
Proof.
  intros Hm. split.
  - intros j k H. cbn in H. unfold Scenario.ticking in H. lia.
  - intros k m Hin. rewrite Hm in Hin. destruct Hin.
Qed.

(** [handleSend_settles] on Scenario 1. *)
Lemma handleSend_settles_witness :
  let w := Scenario.helloWorld in
  let r := handleSend Scenario.helloEnv w in
  accepted w /\
  sendBtn_disabled (dom (final r)) = false /\ input_value (dom (final r)) = EmptyString.
Proof.
  assert (Ha : accepted Scenario.helloWorld) by (apply accepted_run; reflexivity).
  split; [exact Ha|].
  exact (proj2 (proj2 (handleSend_settles Scenario.helloEnv Scenario.helloWorld)) Ha).
Defined.

(** [blank_input_ignored]: blanks and a line break, with the bridge
    connected. *)
Lemma blank_input_ignored_witness :
  let w := Sample.blanksWorld in
  every JS.isSpace (input_value (dom w)) = true /\
  isConnected (state w) = true /\
  handleSend Scenario.helloEnv w = mkRun (Normal tt) w [].
Proof.
  split; [reflexivity|]. split; [reflexivity|].
  exact (blank_input_ignored Scenario.helloEnv Sample.blanksWorld eq_refl).
Defined.

(** [selection_kept]: the first prompt, with no session yet. *)
Lemma selection_kept_witness :
  let w := Sample.firstWorld in
  let s' := state (final (handleSend Scenario.helloEnv w)) in
  selectionKept (state w) /\
  accepted w /\
  noSession (currentSessionId s') = false /\ listed s' = true /\
  length (sessions s') = 1%nat.
Proof.
  assert (Hk : selectionKept (state Sample.firstWorld)) by (intros H; discriminate).
  assert (Ha : accepted Sample.firstWorld) by (apply accepted_run; reflexivity).
  split; [exact Hk|]. split; [exact Ha|].
  exact (proj2 (selection_kept Scenario.helloEnv Sample.firstWorld Hk) Ha).
Defined.

(** [chat_turn_synced] on Scenario 1, with a status check that fails
    while the chat call is pending: the turn is recorded in the registry
    and nothing is posted. *)
Lemma chat_turn_synced_witness :
  let w := Scenario.helloWorld in
  let r := Live.handleSend Race.dropping Scenario.helloEnv w in
  let s' := state (final r) in
  accepted w /\
  selectionKept (state w) /\
  isConnected s' = false /\
  exists j session,
    findSession (currentSessionId s') (sessions s') = Some (j, session) /\
    Session.messages session = messages s' /\
    length (messages s') = 2%nat /\
    sessionPosts (trace r) = [].
Proof.
  assert (Ha : accepted Scenario.helloWorld) by (apply accepted_run; reflexivity).
  assert (Hk : selectionKept (state Scenario.helloWorld)) by (intros _; reflexivity).
  assert (Hdown : isConnected (state (final (Live.handleSend Race.dropping Scenario.helloEnv
                                               Scenario.helloWorld))) = false)
    by (vm_compute; reflexivity).
  split; [exact Ha|]. split; [exact Hk|]. split; [exact Hdown|].
  destruct (chat_turn_synced Race.dropping Scenario.helloEnv Scenario.helloWorld Ha eq_refl Hk)
    as (j & old & _ & _ & Hfound & Hposts).
  eexists j, _. split; [exact Hfound|]. split; [reflexivity|].
  split; [vm_compute; reflexivity|].
  rewrite Hposts, Hdown. vm_compute. reflexivity.
Defined.

(** [unlisted_turn_lost]: the selected session is not in the registry. *)
Lemma unlisted_turn_lost_witness :
  let w := Sample.strayWorld in
  let r := handleSend Scenario.helloEnv w in
  accepted w /\
  listed (state w) = false /\
  length (messages (state (final r))) = 2%nat /\
  sessions (state (final r)) = [] /\
  sessionPosts (trace r) = [].
Proof.
  assert (Ha : accepted Sample.strayWorld) by (apply accepted_run; reflexivity).
  split; [exact Ha|]. split; [reflexivity|].
  exact (unlisted_turn_lost Scenario.helloEnv Sample.strayWorld Ha eq_refl eq_refl eq_refl).
Defined.

(** [switch_back_shows_registry]: away from the one session and back. *)
Lemma switch_back_shows_registry_witness :
  let w := Scenario.helloWorld in
  let r := (createNewSession ;; loadSession "1699999990000")%js Scenario.helloEnv w in
  findSession (Some "1699999990000") (sessions (state w)) = Some (0%nat, Scenario.session0) /\
  currentSessionId (state (final r)) = Some "1699999990000" /\
  messages (state (final r)) = [].
Proof.
  split; [reflexivity|].
  exact (switch_back_shows_registry Scenario.helloEnv Scenario.helloWorld "1699999990000"
           0%nat Scenario.session0 eq_refl).
Defined.

(** [first_prompt_titles_session]: "Hello" as the first prompt. *)
Lemma first_prompt_titles_session_witness :
  let w := Sample.firstWorld in
  let s' := state (final (handleSend Scenario.helloEnv w)) in
  accepted w /\
  exists c,
    messages s'
    = [Message.mk 1700000000002 user "Hello" false;
       Message.mk 1700000000003 assistant c false] /\
    sessions s' = [Session.mk "1700000000000" "Hello" 1700000000001 (messages s')] /\
    currentSessionId s' = Some "1700000000000".
Proof.
  assert (Ha : accepted Sample.firstWorld) by (apply accepted_run; reflexivity).
  split; [exact Ha|].
  assert (Hclock : clock Scenario.helloEnv (S (S (ticks Sample.firstWorld)))
                   <> clock Scenario.helloEnv (S (S (S (ticks Sample.firstWorld)))))
    by (vm_compute; discriminate).
  exact (first_prompt_titles_session Scenario.helloEnv Sample.firstWorld Ha eq_refl eq_refl
           Hclock).
Defined.

(** [turn_appends] on Scenario 1. *)
Lemma turn_appends_witness :
  let w := Scenario.helloWorld in
  let l' := messages (state (final (handleSend Scenario.helloEnv w))) in
  accepted w /\
  map Message.id l' = [1700000000000; 1700000000001] /\
  map Message.role l' = [user; assistant].
Proof.
  assert (Ha : accepted Scenario.helloWorld) by (apply accepted_run; reflexivity).
  split; [exact Ha|].
  exact (turn_appends Scenario.helloEnv Scenario.helloWorld Ha).
Defined.

(** [chat_turn_transcript]: the chat call succeeds, the save of the
    script file is rejected, and the connection error is what is shown. *)
Lemma chat_turn_transcript_witness :
  let w := Scenario.scriptWorld in
  let r := handleSend Sample.saveDown w in
  accepted w /\
  freshClock Sample.saveDown w /\
  exists c,
    messages (state (final r))
    = [Message.mk 1700000000000 user "print one" false;
       Message.mk 1700000000001 assistant c false] /\
    c = Text.connectionError "Failed to fetch".
Proof.
  assert (Ha : accepted Scenario.scriptWorld) by (apply accepted_run; reflexivity).
  assert (Hf : freshClock Sample.saveDown Scenario.scriptWorld)
    by (apply (ticking_fresh Scenario.scriptWorld); reflexivity).
  split; [exact Ha|]. split; [exact Hf|].
  destruct (chat_turn_transcript Sample.saveDown Scenario.scriptWorld Ha eq_refl Hf)
    as (c & Hm & Hc).
  exists c. split; [exact Hm | exact (Hc eq_refl)].
Defined.


(** [web_requests_of_turn]: a deep scan of one result. *)
Lemma web_requests_of_turn_witness :
  let w := Scenario.weatherWorld true in
  let web := List.filter isWeb (requests (trace (handleSend Sample.deepEnv w))) in
  accepted w /\
  web = [PostSearch "weather today" 8;
         GetScrape (JS.encodeURIComponent "http://wx.example/today") true] /\
  (length web <= 3)%nat.
Proof.
  assert (Ha : accepted (Scenario.weatherWorld true)) by (apply accepted_run; reflexivity).
  split; [exact Ha|].
  exact (web_requests_of_turn Sample.deepEnv (Scenario.weatherWorld true) Ha eq_refl).
Defined.

(** [deep_prompt]: a deep scan of one result. *)
Lemma deep_prompt_witness :
  let w := Scenario.weatherWorld true in
  accepted w /\
  exists req,
    chatCalls (trace (handleSend Sample.deepEnv w)) = [req] /\
    sentPrompt req
    = Some ("Context:" +:+ JS.nl +:+ "Source: WX" +:+ JS.nl +:+ "Content: Sunny all day."
            +:+ JS.nl +:+ JS.nl +:+ "Task: weather today").
Proof.
  assert (Ha : accepted (Scenario.weatherWorld true)) by (apply accepted_run; reflexivity).
  split; [exact Ha|].
  exact (deep_prompt Sample.deepEnv (Scenario.weatherWorld true) 200
           (Scenario.searchReply [Scenario.wx]) Scenario.wx []
           Ha eq_refl eq_refl eq_refl eq_refl eq_refl eq_refl (or_introl eq_refl)).
Defined.


(** [image_turn_calls]: the first prompt, in image mode, succeeds at
    once; the registry with the session just made is posted. *)
Lemma image_turn_calls_witness :
  let w := Race.firstImage in
  let r := Live.handleSend quiet Scenario.imageEnv w in
  accepted w /\
  imageCalls (trace r)
  = [(PostGenerateImage "a cat" EmptyString "D:/images",
      Some (Scenario.okBody (Scenario.imageReply "out/cat.png")))] /\
  imageModelId (state (final r)) = EmptyString /\
  chatCalls (trace r) = [] /\ webCalls (trace r) = [] /\ saveCalls (trace r) = [] /\
  sessionPosts (trace r) = [[Session.mk "1700000000000" "New Session" 1700000000001 []]].
Proof.
  assert (Ha : accepted Race.firstImage) by (apply accepted_run; reflexivity).
  split; [exact Ha|].
  destruct (image_turn_calls quiet Scenario.imageEnv Race.firstImage Ha eq_refl)
    as (Himg & Hmodel & Hchat & Hweb & Hsave & Hposts & Hopened).
  split; [exact Himg|]. split; [exact Hmodel|]. split; [exact Hchat|].
  split; [exact Hweb|]. split; [exact Hsave|]. rewrite Hposts, Hopened. reflexivity.
Defined.

(** [extractCode_no_fence]: a reply that is code and nothing else. *)
Lemma extractCode_no_fence_witness :
  hasFence "print(1)" = false /\ extractCode "print(1)" = "print(1)".
Proof.
  split; [reflexivity|]. exact (extractCode_no_fence "print(1)" eq_refl).
Defined.

(** [extractCode_fenced] on the reply of Scenario 4. *)
Lemma extractCode_fenced_witness :
  fenced ("Sure:" +:+ JS.nl) "lua" ("print(1)" +:+ JS.nl) EmptyString = Scenario.luaReply /\
  extractCode (fenced ("Sure:" +:+ JS.nl) "lua" ("print(1)" +:+ JS.nl) EmptyString)
  = "print(1)" +:+ JS.nl.
Proof.
  split; [reflexivity|].
  exact (extractCode_fenced ("Sure:" +:+ JS.nl) "lua" ("print(1)" +:+ JS.nl) EmptyString
           eq_refl eq_refl eq_refl).
Defined.

(** [script_file_saved] on Scenario 4. *)
Lemma script_file_saved_witness :
  let w := Scenario.scriptWorld in
  let r := handleSend Scenario.luaEnv w in
  accepted w /\
  chatAnswers (trace r) = [net Scenario.luaEnv 0] /\
  saveCalls (trace r) = [PostSaveFile "script.lua" ("print(1)" +:+ JS.nl)] /\
  (length (saveCalls (trace r)) <= 1)%nat.
Proof.
  assert (Ha : accepted Scenario.scriptWorld) by (apply accepted_run; reflexivity).
  split; [exact Ha|].
  destruct (script_file_saved Scenario.luaEnv Scenario.scriptWorld Ha eq_refl)
    as (a & Hans & Hnet & Hplan & Hlen & _).
  rewrite (Hnet eq_refl) in Hans, Hplan.
  split; [exact Hans|]. split; [|exact Hlen].
  rewrite Hplan. reflexivity.
Defined.

(** [scrape_url_safe] on a deep scan: the address of the one page that
    is retrieved. *)
Lemma scrape_url_safe_witness :
  let w := Scenario.weatherWorld true in
  let r := handleSend Sample.deepEnv w in
  let url := "http%3A%2F%2Fwx.example%2Ftoday" in
  accepted w /\
  JS.encodeURIComponent (Result.href Scenario.wx) = url /\
  In (GetScrape url true) (requests (trace r)) /\
  every (fun c => negb (delimiter c)) url = true.
Proof.
  assert (Ha : accepted (Scenario.weatherWorld true)) by (apply accepted_run; reflexivity).
  assert (Hin : In (GetScrape "http%3A%2F%2Fwx.example%2Ftoday" true)
                  (requests (trace (handleSend Sample.deepEnv (Scenario.weatherWorld true))))).
  { vm_compute. right. left. reflexivity. }
  split; [exact Ha|]. split; [reflexivity|]. split; [exact Hin|].
  exact (proj2 (proj2 (proj2 (proj2 (proj2
           (scrape_url_safe Sample.deepEnv (Scenario.weatherWorld true) _ _
              Ha eq_refl Hin)))))).
Defined.

(** [probe_gates_send]: a 200 whose body is not JSON. *)
Lemma probe_gates_send_witness :
  let s1 := checkConnection (Garbled 200) Scenario.idle in
  let r := handleSend Scenario.helloEnv
             (mkWorld s1 (Scenario.page "Hello" false false false) 0 0) in
  isConnected s1 = false /\ trace r = [] /\ state (final r) = s1.
Proof.
  split; [reflexivity|].
  exact (proj2 (proj2 (probe_gates_send (Garbled 200) Scenario.idle
                         (Scenario.page "Hello" false false false) 0 0 Scenario.helloEnv))
           eq_refl).
Defined.


(** [sync_drops_new_session]: a session made while the page starts. *)
Lemma sync_drops_new_session_witness :
  let e := Scenario.helloEnv in
  let w := Sample.startWorld in
  let s1 := state (final (createNewSession e w)) in
  let s2 := checkConnection Sample.ready s1 in
  let s3 := fst (syncSessions (Read 200 [Scenario.session0]) s2) in
  trace (createNewSession e w) = [] /\
  listed s1 = true /\
  currentSessionId s3 = Some "1700000000000" /\
  noSession (currentSessionId s3) = false /\
  sessions s3 = [Scenario.session0] /\
  listed s3 = false.
Proof.
  split; [reflexivity|].
  refine (sync_drops_new_session Scenario.helloEnv Sample.startWorld Sample.ready 200
            [Scenario.session0] eq_refl eq_refl _).
  intros x [<- | []]. vm_compute. discriminate.
Defined.

(** [saveSettings_settles]: a form that names no model. *)
Lemma saveSettings_settles_witness :
  let s1 := saveSettings Sample.form Scenario.withImageModel in
  imageSubfolder s1 = "portraits" /\
  JS.truthy (modelId Scenario.withImageModel) = true /\
  JS.truthy (modelId s1) = true /\
  saveSettings Sample.form s1 = s1.
Proof.
  split; [reflexivity|]. split; [reflexivity|].
  destruct (saveSettings_settles Sample.form Scenario.withImageModel) as (Hagain & _ & Hid & _).
  split; [exact (Hid eq_refl) | exact Hagain].
Defined.

(** [model_id_cleared_by_load_only]: a load answered 200 without a model
    name. *)
Lemma model_id_cleared_by_load_only_witness :
  JS.truthy (modelId Scenario.idle) = true /\
  JS.truthy (modelId (fst (loadLocalModel "mistral.gguf" (Scenario.okBody emptyBody)
                             Scenario.idle))) = false.
Proof.
  split; [reflexivity|].
  apply (proj1 (proj2 (proj2 (model_id_cleared_by_load_only Scenario.idle eq_refl)))
           "mistral.gguf" (Scenario.okBody emptyBody)).
  split; [reflexivity|]. exists 200, emptyBody. repeat split.
Defined.

(** [second_turn_remembers]: "Hello", "Hi there", and a second prompt. *)
Lemma second_turn_remembers_witness :
  let e := Scenario.helloEnv in
  let w := Scenario.helloWorld in
  let w1 := final (handleSend e w) in
  let w2 := mkWorld (state w1) (set_input_value "And you?" (dom w1)) (ticks w1) (calls w1) in
  accepted w /\
  freshClock e w /\
  chatCalls (trace (handleSend e w2))
  = [PostChat
       [Outbound.mk system "You are Nexus."; Outbound.mk user "Hello";
        Outbound.mk assistant "Hi there"; Outbound.mk user "And you?"]
       "llama3" "proxy" "http://localhost:11434/api/chat" (7 # 10) 1024].
Proof.
  assert (Ha : accepted Scenario.helloWorld) by (apply accepted_run; reflexivity).
  assert (Hf : freshClock Scenario.helloEnv Scenario.helloWorld)
    by (apply (ticking_fresh Scenario.helloWorld); reflexivity).
  split; [exact Ha|]. split; [exact Hf|].
  exact (second_turn_remembers Scenario.helloEnv Scenario.helloWorld "And you?"
           Ha eq_refl eq_refl Hf eq_refl).
Defined.

(** [creates_distinct]: two sessions made one after the other. *)
Lemma creates_distinct_witness :
  NoDup (map Session.id
           (sessions (state (final (creates 2 Scenario.helloEnv Scenario.helloWorld))))).
Proof.
  apply (creates_distinct 2 Scenario.helloEnv Scenario.helloWorld).
  - apply NoDup_singleton.
  - intros j k Hj Hk H. cbn in H. unfold Scenario.ticking in H. lia.
  - intros j Hj [H | []]. revert H.
    destruct j as [|[|j]]; [vm_compute; discriminate | vm_compute; discriminate | lia].
Defined.

(** [append_then_update]: a placeholder in an empty transcript. *)
Lemma append_then_update_witness :
  let r := (id <- addMessage assistant Text.thinking true ;; updateMessage id "Hi there")%js
             Scenario.helloEnv Scenario.helloWorld in
  messages (state (final r)) = [Message.mk 1700000000000 assistant "Hi there" false].
Proof.
  refine (proj1 (append_then_update assistant Text.thinking "Hi there" true
                   Scenario.helloEnv Scenario.helloWorld _)).
  intros x [].
Defined.


(** ** The lazy load on concrete turns *)

(** [image_lazy_load_once] with no status check during the turn: a 400,
    a load that succeeds, an image. *)
Lemma image_lazy_load_once_witness :
  let w := Scenario.lazyWorld in
  let r := Live.handleSend quiet Scenario.lazyEnv w in
  accepted w /\
  stillUp quiet w = true /\
  imageCalls (trace r)
  = [ (PostGenerateImage "a cat" EmptyString "D:/images",
       Some (Resolved 400 (Parsed Scenario.noModel)));
      (PostLoadImageModel "sd15.safetensors" "D:/images",
       Some (Scenario.okBody (Scenario.modelReply "sd15.safetensors")));
      (PostGenerateImage "a cat" EmptyString "D:/images",
       Some (Scenario.okBody (Scenario.imageReply "out/cat.png"))) ] /\
  messages (state (final r))
  = [Message.mk 1700000000000 assistant
       (Text.imageDone (Some "out/cat.png") None "a cat") false].
Proof.
  assert (Ha : accepted Scenario.lazyWorld) by (apply accepted_run; reflexivity).
  split; [exact Ha|]. split; [reflexivity|].
  destruct (image_lazy_load_once quiet Scenario.lazyEnv Scenario.lazyWorld
              (Parsed Scenario.noModel) Ha eq_refl eq_refl eq_refl)
    as (Hcalls & A & i & Happ & _ & _ & Hmsgs).
  split; [exact Hcalls|].
  assert (HA : appended (trace (Live.handleSend quiet Scenario.lazyEnv Scenario.lazyWorld))
               = [Message.mk 1700000000000 assistant Text.painting true])
    by (vm_compute; reflexivity).
  rewrite HA in Happ. injection Happ as <-.
  rewrite Hmsgs by (intros m []). reflexivity.
Defined.

(** C5, counterexample: a status check fails while the first generation
    is pending. The generation answers 400 and an image model id is
    configured, yet no load is sent: the turn goes straight to the second
    generation, and shows its image. *)
Lemma load_skipped_when_flag_drops :
  let w := Scenario.lazyWorld in
  let r := Live.handleSend Race.dropping Race.retryEnv w in
  accepted w /\
  imageToggle_checked (dom w) = true /\
  imageModelId (state w) = "sd15.safetensors" /\
  net Race.retryEnv (calls w) = Resolved 400 (Parsed Scenario.noModel) /\
  requests (trace r)
  = [PostGenerateImage "a cat" EmptyString "D:/images";
     PostGenerateImage "a cat" EmptyString "D:/images"] /\
  messages (state (final r))
  = [Message.mk 1700000000000 assistant
       (Text.imageDone (Some "out/cat.png") None "a cat") false].
Proof. vm_compute. repeat split; reflexivity. Qed.
